(** * Admin project views of warehouse: listing, detail, releases, journals

    A shallow embedding of [warehouse/admin/views/projects.py] and of the
    library calls it is made of (Python's [int], [str.lower], [str.split],
    [shlex.split]; SQL's ILIKE, ORDER BY, DISTINCT ON, LIMIT; the pagination
    helper), followed by the properties of the four view callables.

    Text is modelled as [string]: a sequence of code points below 256. *)

From Stdlib Require Import Ascii String ZArith Sorted Permutation.
From stdpp Require Import base decidable option list sorting gmap strings.

Local Open Scope string_scope.
Local Open Scope list_scope.

(** ** Stable sorting by a boolean order

    Python's [sorted] and SQL's ORDER BY are modelled by one stable insertion
    sort: elements that compare equal keep their relative order. *)
Section StableSort.
Context {A : Type} (le : A -> A -> bool).

Fixpoint insert_sorted (x : A) (l : list A) : list A :=
  match l with
  | [] => [x]
  | y :: l' => if le x y then x :: l else y :: insert_sorted x l'
  end.

Definition stable_sort (l : list A) : list A := foldr insert_sorted [] l.
End StableSort.

(** Lexicographic order on pairs of strings, as Python compares tuples. *)
Definition pair_leb (a b : string * string) : bool :=
  if String.eqb a.1 b.1 then String.leb a.2 b.2 else String.leb a.1 b.1.

(** ** Python builtins used by the views *)
Module Py.

(** Code point of a character. *)
Definition ord (c : ascii) : N := N_of_ascii c.

Definition in_range (lo hi : N) (c : ascii) : bool :=
  (lo <=? ord c)%N && (ord c <=? hi)%N.

(** [str.lower] on one character: A-Z, and the Latin-1 capitals other than
    the multiplication sign. *)
Definition lower_char (c : ascii) : ascii :=
  if in_range 65 90 c || (in_range 192 222 c && negb (ord c =? 215)%N)
  then ascii_of_N (ord c + 32)
  else c.

(** [s.lower()] *)
Fixpoint lower (s : string) : string :=
  match s with
  | EmptyString => EmptyString
  | String c s' => String (lower_char c) (lower s')
  end.

(** [sub in s] for a one-character [sub]. *)
Fixpoint contains_char (c : ascii) (s : string) : bool :=
  match s with
  | EmptyString => false
  | String d s' => Ascii.eqb c d || contains_char c s'
  end.

(** [s.split(sep, 1)] for a one-character [sep] that occurs in [s]: the text
    before the first occurrence and the text after it.  Without an
    occurrence the whole of [s] is the first component. *)
Fixpoint split_once (sep : ascii) (s : string) : string * string :=
  match s with
  | EmptyString => (EmptyString, EmptyString)
  | String c s' =>
      if Ascii.eqb c sep then (EmptyString, s')
      else let '(a, b) := split_once sep s' in (String c a, b)
  end.

(** Whitespace as [int] sees it in a [str]: TAB..CR, space, NEL and the
    no-break space. *)
Definition is_space (c : ascii) : bool :=
  in_range 9 13 c || (ord c =? 32)%N || (ord c =? 133)%N || (ord c =? 160)%N.

Definition is_digit (c : ascii) : bool := in_range 48 57 c.

Definition digit_value (c : ascii) : Z := Z.of_N (ord c) - 48.

Fixpoint lstrip (s : string) : string :=
  match s with
  | EmptyString => EmptyString
  | String c s' => if is_space c then lstrip s' else s
  end.

Fixpoint rev_append (s acc : string) : string :=
  match s with
  | EmptyString => acc
  | String c s' => rev_append s' (String c acc)
  end.

Definition rev (s : string) : string := rev_append s EmptyString.

Definition strip (s : string) : string := rev (lstrip (rev (lstrip s))).

(** The most digits that [int] converts ([sys.int_info.default_max_str_digits]
    of CPython 3.11); a longer literal is a [ValueError]. *)
Definition max_str_digits : N := 4300.

(** The digits of a base-10 literal after its first digit: digits, each
    optionally preceded by a single underscore.  [count] is the number of
    digits read and [after_us] says that the previous character was an
    underscore. *)
Fixpoint int_digits (acc : Z) (count : N) (after_us : bool) (s : string)
  : option Z :=
  match s with
  | EmptyString =>
      if after_us then None
      else if (max_str_digits <? count)%N then None
      else Some acc
  | String c s' =>
      if is_digit c
      then int_digits (10 * acc + digit_value c) (count + 1) false s'
      else if Ascii.eqb c "_" && negb after_us then int_digits acc count true s'
      else None
  end.

(** An unsigned literal starts with a digit. *)
Definition int_unsigned (s : string) : option Z :=
  match s with
  | String c s' =>
      if is_digit c then int_digits (digit_value c) 1 false s' else None
  | EmptyString => None
  end.

(** [int(s)] for a [str]: [None] stands for [ValueError]. *)
Definition int (s : string) : option Z :=
  match strip s with
  | String "+" s' => int_unsigned s'
  | String "-" s' => Z.opp <$> int_unsigned s'
  | s' => int_unsigned s'
  end.

(** [sorted(l, key=key)] for keys that are pairs of strings. *)
Definition sorted {A : Type} (key : A -> string * string) (l : list A) : list A :=
  stable_sort (fun x y => pair_leb (key x) (key y)) l.

(** Truthiness of an optional string: [None] and [''] are false. *)
Definition truthy (q : option string) : bool :=
  match q with
  | Some (String _ _) => true
  | _ => false
  end.

End Py.

(** ** Exceptions and results *)

(** The exceptions that can leave a view callable; [DataError] is the
    error of a statement that the database rejects. *)
Inductive exn : Type :=
  | ValueError (msg : string)
  | KeyError (key : string)
  | HTTPBadRequest (detail : string)
  | HTTPMovedPermanently (location : string)
  | DataError (msg : string).

Inductive result (A : Type) : Type :=
  | Ok (a : A)
  | Raise (e : exn).
Arguments Ok {A} a.
Arguments Raise {A} e.

(** ** [shlex.split(s)]: POSIX mode, whitespace splitting, no comments *)
Module Shlex.

(** [whitespace]: space, TAB, CR, LF. *)
Definition whitespace (c : ascii) : bool :=
  Ascii.eqb c " " || Ascii.eqb c "009" || Ascii.eqb c "013" || Ascii.eqb c "010".

Definition squote : ascii := "'".
Definition dquote : ascii := "034".
Definition backslash : ascii := "\".

(** [quotes]: the single and the double quote. *)
Definition quotes (c : ascii) : bool := Ascii.eqb c squote || Ascii.eqb c dquote.
(** [escape]: the backslash. *)
Definition escape (c : ascii) : bool := Ascii.eqb c backslash.
(** [escapedquotes]: the double quote. *)
Definition escapedquotes (c : ascii) : bool := Ascii.eqb c dquote.

(** The lexer's [state]: [' '] between tokens, ['a'] inside a word, a quote
    character inside a quotation, the escape character after a backslash
    (with [escapedstate], the state to return to). *)
Inductive state : Type :=
  | InSpace
  | InWord
  | InQuote (q : ascii)
  | InEscape (escapedstate : state).

Definition snoc (token : string) (c : ascii) : string :=
  (token ++ String c EmptyString)%string.

(** A finished token is kept when it is not empty or was quoted. *)
Definition emit (token : string) (quoted : bool) (rest : list string) : list string :=
  if negb (String.eqb token EmptyString) || quoted then token :: rest else rest.

(** [read_token], iterated to the end of the input.  [token] and [quoted]
    are those of the token being read. *)
Fixpoint tokens (st : state) (token : string) (quoted : bool) (input : string)
  : result (list string) :=
  match input with
  | EmptyString =>
      match st with
      | InSpace => Ok []
      | InWord => Ok (emit token quoted [])
      | InQuote _ => Raise (ValueError "No closing quotation")
      | InEscape _ => Raise (ValueError "No escaped character")
      end
  | String c input' =>
      match st with
      | InSpace =>
          if whitespace c then tokens InSpace token quoted input'
          else if escape c then tokens (InEscape InWord) token quoted input'
          else if quotes c then tokens (InQuote c) token quoted input'
          else tokens InWord (String c EmptyString) quoted input'
      | InQuote q =>
          if Ascii.eqb c q then tokens InWord token true input'
          else if escape c && escapedquotes q
          then tokens (InEscape (InQuote q)) token true input'
          else tokens (InQuote q) (snoc token c) true input'
      | InEscape escapedstate =>
          let token :=
            match escapedstate with
            | InQuote q =>
                if negb (Ascii.eqb c backslash) && negb (Ascii.eqb c q)
                then snoc token backslash else token
            | _ => token
            end in
          tokens escapedstate (snoc token c) quoted input'
      | InWord =>
          if whitespace c then
            match tokens InSpace EmptyString false input' with
            | Ok rest => Ok (emit token quoted rest)
            | Raise e => Raise e
            end
          else if quotes c then tokens (InQuote c) token quoted input'
          else if escape c then tokens (InEscape InWord) token quoted input'
          else tokens InWord (snoc token c) quoted input'
      end
  end.

Definition split (s : string) : result (list string) :=
  tokens InSpace EmptyString false s.

End Shlex.

(** ** The SQL that the views emit, evaluated on lists of rows

    A table is a list of rows in the order the database happens to produce
    them.  Ordering, DISTINCT ON, LIMIT and OFFSET cannot fail; the
    evaluation of a WHERE criterion on the rows can: PostgreSQL reports a
    LIKE pattern that ends in a lone backslash as an error, when its
    matcher arrives at that backslash. *)
Module Sql.

(** A LIKE pattern: [%] is any sequence, [_] any one character, a backslash
    makes the next character literal. *)
Inductive like_tok : Type :=
  | LChar (c : ascii)
  | LAnyOne
  | LAnySeq.

(** The pattern as tokens; [None] for a pattern that ends in a backslash
    with no character after it. *)
Fixpoint like_tokens (pattern : string) : option (list like_tok) :=
  match pattern with
  | EmptyString => Some []
  | String "\" EmptyString => None
  | String "\" (String c p') => cons (LChar c) <$> like_tokens p'
  | String "%" p' => cons LAnySeq <$> like_tokens p'
  | String "_" p' => cons LAnyOne <$> like_tokens p'
  | String c p' => cons (LChar c) <$> like_tokens p'
  end.

Fixpoint like_match (ts : list like_tok) (text : string) : bool :=
  match ts with
  | [] => String.eqb text EmptyString
  | LChar c :: ts' =>
      match text with
      | String d text' => Ascii.eqb c d && like_match ts' text'
      | EmptyString => false
      end
  | LAnyOne :: ts' =>
      match text with
      | String _ text' => like_match ts' text'
      | EmptyString => false
      end
  | LAnySeq :: ts' =>
      (fix skip (text : string) : bool :=
         like_match ts' text ||
         match text with
         | String _ text' => skip text'
         | EmptyString => false
         end) text
  end.

Definition bad_escape : exn :=
  DataError "LIKE pattern must not end with escape character".

(** What PostgreSQL's matcher answers; [LIKE_ABORT] is a failure that also
    rules out a match further on in the text, [LIKE_ERROR] is the error it
    reports when it arrives at a backslash that ends the pattern. *)
Inductive like_result : Type :=
  | LIKE_TRUE
  | LIKE_FALSE
  | LIKE_ABORT
  | LIKE_ERROR.

(** The end of the text: what is left of the pattern has to be [%] only. *)
Fixpoint match_end (p : string) : like_result :=
  match p with
  | EmptyString => LIKE_TRUE
  | String c p' => if Ascii.eqb c "%" then match_end p' else LIKE_ABORT
  end.

(** PostgreSQL's [MatchText]: pattern and text are walked in step;
    [MatchStar] is its branch after a [%]: the wildcards that follow are
    taken first, then the text is searched for the places where the next
    character of the pattern occurs, and the rest is matched from each. *)
Fixpoint MatchText (p t : string) {struct p} : like_result :=
  match t with
  | EmptyString => match_end p
  | String d t' =>
      match p with
      | EmptyString => LIKE_FALSE
      | String "\" EmptyString => LIKE_ERROR
      | String "\" (String c p') =>
          if Ascii.eqb c d then MatchText p' t' else LIKE_FALSE
      | String "%" p' => MatchStar p' t
      | String "_" p' => MatchText p' t'
      | String c p' => if Ascii.eqb c d then MatchText p' t' else LIKE_FALSE
      end
  end
with MatchStar (p t : string) {struct p} : like_result :=
  let scan (c : ascii) (p' : string) :=
    fix scan (t : string) : like_result :=
      match t with
      | EmptyString => LIKE_ABORT
      | String d t' =>
          if Ascii.eqb c d then
            match MatchText p' t' with
            | LIKE_FALSE => scan t'
            | r => r
            end
          else scan t'
      end in
  match p with
  | EmptyString => LIKE_TRUE
  | String "%" p' => MatchStar p' t
  | String "_" p' =>
      match t with
      | EmptyString => LIKE_ABORT
      | String _ t' => MatchStar p' t'
      end
  | String "\" EmptyString => LIKE_ERROR
  | String "\" (String c p') => scan c p' t
  | String c p' => scan c p' t
  end.

(** [column ILIKE pattern] on one row: LIKE on the lower-cased operands.
    A pattern that ends in a lone backslash matches no text; PostgreSQL
    reports it as an error when its matcher arrives at that backslash, and
    answers false when the text has failed to match before.  On every
    other pattern the matcher answers as [like_match] does
    ([ilike_MatchText]). *)
Definition ilike (column pattern : string) : result bool :=
  match like_tokens (Py.lower pattern) with
  | Some ts => Ok (like_match ts (Py.lower column))
  | None =>
      match MatchText (Py.lower pattern) (Py.lower column) with
      | LIKE_ERROR => Raise bad_escape
      | _ => Ok false
      end
  end.

(** A WHERE criterion, evaluated on a row; [None] is the empty clause list,
    which adds no condition to the query. *)
Definition clause (A : Type) : Type := option (A -> result bool).

(** The disjunction of the clauses on a row: the clauses are evaluated in
    order, up to the first that holds. *)
Fixpoint any {A : Type} (clauses : list (A -> result bool)) (row : A)
  : result bool :=
  match clauses with
  | [] => Ok false
  | c :: clauses' =>
      match c row with
      | Ok true => Ok true
      | Ok false => any clauses' row
      | Raise e => Raise e
      end
  end.

(** [or_( *clauses )]: without arguments the empty clause list. *)
Definition or_ {A : Type} (clauses : list (A -> result bool)) : clause A :=
  match clauses with
  | [] => None
  | _ => Some (any clauses)
  end.

(** The rows on which the criterion holds; the error of the first row on
    which it cannot be evaluated. *)
Fixpoint select {A : Type} (c : A -> result bool) (rows : list A)
  : result (list A) :=
  match rows with
  | [] => Ok []
  | r :: rows' =>
      match c r, select c rows' with
      | Ok b, Ok rest => Ok (if b then r :: rest else rest)
      | Raise e, _ => Raise e
      | _, Raise e => Raise e
      end
  end.

(** WHERE [criterion] on the rows. *)
Definition filter {A : Type} (criterion : clause A) (rows : list A)
  : result (list A) :=
  match criterion with
  | None => Ok rows
  | Some c => select c rows
  end.

(** [column == value] as a criterion. *)
Definition equals {A : Type} (holds : A -> bool) : clause A :=
  Some (fun row => Ok (holds row)).

(** ORDER BY [column] and ORDER BY [column] DESC: rows are
    compared by [le] on the column (text by code point); rows that agree on
    the column stay in the order of the table. *)
Definition order_by {A K : Type} (le : K -> K -> bool) (column : A -> K)
    (rows : list A) : list A :=
  stable_sort (fun x y => le (column x) (column y)) rows.

Definition order_by_desc {A K : Type} (le : K -> K -> bool) (column : A -> K)
    (rows : list A) : list A :=
  stable_sort (fun x y => le (column y) (column x)) rows.

(** DISTINCT ON [column]: of the rows that agree on
    [column] the first one is kept.  [seen] holds the column values of the
    rows kept so far. *)
Fixpoint distinct_from {A : Type} (column : A -> string) (seen : list string)
    (rows : list A) : list A :=
  match rows with
  | [] => []
  | r :: rows' =>
      if existsb (String.eqb (column r)) seen
      then distinct_from column seen rows'
      else r :: distinct_from column (column r :: seen) rows'
  end.

Definition distinct {A : Type} (column : A -> string) (rows : list A) : list A :=
  distinct_from column [] rows.

(** LIMIT [n] *)
Definition limit {A : Type} (n : nat) (rows : list A) : list A := firstn n rows.

(** OFFSET [start] LIMIT [stop - start], for [0 <= start]. *)
Definition slice {A : Type} (start stop : Z) (rows : list A) : list A :=
  firstn (Z.to_nat (stop - start)) (skipn (Z.to_nat start) rows).

End Sql.

(** ** [sqlalchemy.orm.Query]: a statement under construction

    A query denotes the rows that the database answers when the statement
    is run, in result order, or the error with which it rejects the
    statement.  Each builder method maps the denotation of the query to
    that of the extended query; nothing is sent to the database before the
    query is run. *)
Module Query.

Definition t (A : Type) : Type := result (list A).

(** [request.db.query(Model)] *)
Definition query {A : Type} (table : list A) : t A := Ok table.

Definition on_rows {A : Type} (f : list A -> list A) (q : t A) : t A :=
  match q with
  | Ok rows => Ok (f rows)
  | Raise e => Raise e
  end.

(** [query.filter(criterion)] *)
Definition filter {A : Type} (criterion : Sql.clause A) (q : t A) : t A :=
  match q with
  | Ok rows => Sql.filter criterion rows
  | Raise e => Raise e
  end.

(** [query.order_by(column)] and [query.order_by(column.desc())] *)
Definition order_by {A K : Type} (le : K -> K -> bool) (column : A -> K)
    (q : t A) : t A :=
  on_rows (Sql.order_by le column) q.

Definition order_by_desc {A K : Type} (le : K -> K -> bool) (column : A -> K)
    (q : t A) : t A :=
  on_rows (Sql.order_by_desc le column) q.

(** [query.distinct(column)] *)
Definition distinct {A : Type} (column : A -> string) (q : t A) : t A :=
  on_rows (Sql.distinct column) q.

(** [query.limit(n)] *)
Definition limit {A : Type} (n : nat) (q : t A) : t A :=
  on_rows (Sql.limit n) q.

End Query.

(** ** The data model: [warehouse.accounts.models], [warehouse.packaging.models]

    The model classes are imported by the views and defined elsewhere; each
    record has the columns that the views read. *)

(** Modelled from the spec: [warehouse.accounts.models.User], a user with
    its [username]. *)
Module User.
Record t : Type := { username : string }.
End User.

(** Modelled from the spec: [warehouse.packaging.models.Project], with its
    [name] and the canonical [normalized_name]. *)
Module Project.
Record t : Type := { name : string; normalized_name : string }.
End Project.

(** Modelled from the spec: [warehouse.packaging.models.Role], the
    assignment of a user to a project under a role name.  The row carries
    the user and the project that its foreign keys refer to. *)
Module Role.
Record t : Type := { role_name : string; user : User.t; project : Project.t }.
End Role.

(** Modelled from the spec: [warehouse.packaging.models.Release], with
    its project, its version and the ordering key [_pypi_ordering]. *)
Module Release.
Record t : Type :=
  { project : Project.t; version : string; _pypi_ordering : Z }.
End Release.

(** Modelled from the spec: [warehouse.packaging.models.JournalEntry],
    with the name of the project it is about, a version and the submission
    date, counted in seconds. *)
Module JournalEntry.
Record t : Type := { name : string; version : string; submitted_date : Z }.
End JournalEntry.

Global Instance project_eq_dec : EqDecision Project.t.
Proof. solve_decision. Defined.

(** The tables behind [request.db]. *)
Record Session : Type :=
  { projects_table : list Project.t;
    roles_table : list Role.t;
    releases_table : list Release.t;
    journals_table : list JournalEntry.t }.

(** ** View callables: exceptions and the statements sent to the database *)

Inductive statement : Type :=
  | Select (entity : string)
  | Count (entity : string).

(** A computation that may raise, and that appends the statements it
    executes to the log of the request. *)
Definition View (A : Type) : Type := list statement -> result A * list statement.

Definition ret {A : Type} (a : A) : View A := fun log => (Ok a, log).

Definition raise {A : Type} (e : exn) : View A := fun log => (Raise e, log).

Definition bind {A B : Type} (m : View A) (k : A -> View B) : View B :=
  fun log =>
    match m log with
    | (Ok a, log') => k a log'
    | (Raise e, log') => (Raise e, log')
    end.

Definition execute (stmt : statement) : View unit :=
  fun log => (Ok tt, log ++ [stmt]).

Definition lift {A : Type} (r : result A) : View A := fun log => (r, log).

Notation "'let*' x ':=' m 'in' k" := (bind m (fun x => k))
  (at level 10, x name, m at level 100, k at level 200).

(** Running a view callable on a fresh request. *)
Definition run {A : Type} (m : View A) : result A * list statement := m [].

(** ** [paginate.Page] over [paginate_sqlalchemy]'s query wrapper *)
Module Paginate.

Record Page (A : Type) : Type :=
  { page : Z;
    items : list A;
    items_per_page : Z;
    item_count : Z;
    page_count : Z }.
Arguments page {A} _.
Arguments items {A} _.
Arguments items_per_page {A} _.
Arguments item_count {A} _.
Arguments page_count {A} _.

(** [SqlalchemyOrmPage(query, page=page, items_per_page=n, ...)]: the page
    number is raised to 1, the slice of the query is fetched, the rows are
    counted, and the page number is lowered to the last page.  The first
    statement is where the database rejects the query, if it does.  The
    [url_maker] only serves to render links and is left out. *)
Definition SQLAlchemyORMPage {A : Type} (entity : string) (query : Query.t A)
    (page items_per_page : Z) : View (Page A) :=
  let page := if (page <? 1)%Z then 1%Z else page in
  let first := ((page - 1) * items_per_page)%Z in
  let last := (first + items_per_page)%Z in
  let* _ := execute (Select entity) in
  let* rows := lift query in
  let items := Sql.slice first last rows in
  let* _ := execute (Count entity) in
  let item_count := Z.of_nat (length rows) in
  if (0 <? item_count)%Z then
    let page_count := ((item_count - 1) / items_per_page + 1)%Z in
    let page := if (page_count <? page)%Z then page_count else page in
    ret {| page := page; items := items; items_per_page := items_per_page;
           item_count := item_count; page_count := page_count |}
  else
    ret {| page := page; items := []; items_per_page := items_per_page;
           item_count := item_count; page_count := 0 |}.

End Paginate.

(** ** The request *)

Record Request : Type :=
  { params : gmap string string;
    matchdict : gmap string string;
    db : Session;
    (** [request.current_route_path(project_name=...)] as a function of the
        project name put into the route. *)
    current_route_path : string -> string }.

(** [d[key]] on a dict. *)
Definition getitem (d : gmap string string) (key : string) : View string :=
  match d !! key with
  | Some v => ret v
  | None => raise (KeyError key)
  end.

(** [query.all()] and iteration over a query: the statement is executed and
    its rows are returned, or its error raised. *)
Definition fetch {A : Type} (entity : string) (query : Query.t A) : View (list A) :=
  let* _ := execute (Select entity) in
  lift query.

(** ** [warehouse/admin/views/projects.py] *)
Module Views.

(** The [try: int(request.params.get("page", 1)) except ValueError] block
    of the three listings. *)
Definition page_num (request : Request) : View Z :=
  match params request !! "page" with
  | None => ret 1%Z
  | Some s =>
      match Py.int s with
      | Some n => ret n
      | None => raise (HTTPBadRequest "'page' must be an integer.")
      end
  end.

(** The check of [request.matchdict["project_name"]] against
    [project.normalized_name] that opens the three project views. *)
Definition canonical_or_redirect (project : Project.t) (request : Request) : View unit :=
  let* project_name := getitem (matchdict request) "project_name" in
  if negb (String.eqb project_name (Project.normalized_name project))
  then raise (HTTPMovedPermanently
                (current_route_path request (Project.normalized_name project)))
  else ret tt.

(** The loop of [project_list] over the terms: one ILIKE per term. *)
Definition name_filters (terms : list string)
  : list (Project.t -> result bool) :=
  fold_left
    (fun filters term =>
       filters ++ [fun p : Project.t => Sql.ilike (Project.name p) term])
    terms [].

(** The loop of [releases_list] and [journals_list] over the terms: a term
    [field:value] whose field lower-cases to [version] adds an ILIKE on the
    version column. *)
Definition version_filters {A : Type} (version : A -> string)
    (terms : list string) : list (A -> result bool) :=
  fold_left
    (fun filters term =>
       if Py.contains_char ":" term then
         let '(field, value) := Py.split_once ":" term in
         if String.eqb (Py.lower field) "version"
         then filters ++ [fun row : A => Sql.ilike (version row) value]
         else filters
       else filters)
    terms [].

Record ProjectList : Type :=
  { projects : Paginate.Page Project.t;
    projects_query_echo : option string }.

Definition project_list (request : Request) : View ProjectList :=
  let q := params request !! "q" in
  let* page_num := page_num request in
  let projects_query :=
    Query.order_by String.leb Project.name
      (Query.query (projects_table (db request))) in
  let* projects_query :=
    if Py.truthy q then
      let* terms := lift (Shlex.split (default EmptyString q)) in
      let filters := name_filters terms in
      ret (Query.filter (Sql.or_ filters) projects_query)
    else ret projects_query in
  let* projects := Paginate.SQLAlchemyORMPage "Project" projects_query page_num 25 in
  ret {| projects := projects; projects_query_echo := q |}.

Record ProjectDetail : Type :=
  { detail_project : Project.t;
    maintainers : list Role.t;
    journal : list JournalEntry.t }.

(** The join of [Role] with [User] is carried by [Role.user]. *)
Definition project_detail (project : Project.t) (request : Request)
  : View ProjectDetail :=
  let* _ := canonical_or_redirect project request in
  let* maintainers :=
    fetch "Role"
      (Query.distinct (fun r => User.username (Role.user r))
         (Query.filter
            (Sql.equals (fun r => bool_decide (Role.project r = project)))
            (Query.query (roles_table (db request))))) in
  let maintainers :=
    Py.sorted (fun x => (Role.role_name x, User.username (Role.user x)))
      maintainers in
  let* journal :=
    fetch "JournalEntry"
      (Query.limit 50
         (Query.order_by_desc Z.leb JournalEntry.submitted_date
            (Query.filter
               (Sql.equals
                  (fun e => String.eqb (JournalEntry.name e) (Project.name project)))
               (Query.query (journals_table (db request)))))) in
  ret {| detail_project := project; maintainers := maintainers; journal := journal |}.

Record ReleasesList : Type :=
  { releases : Paginate.Page Release.t;
    releases_project : Project.t;
    releases_query_echo : option string }.

Definition releases_list (project : Project.t) (request : Request)
  : View ReleasesList :=
  let q := params request !! "q" in
  let* _ := canonical_or_redirect project request in
  let* page_num := page_num request in
  let releases_query :=
    Query.order_by_desc Z.leb Release._pypi_ordering
      (Query.filter
         (Sql.equals (fun r => bool_decide (Release.project r = project)))
         (Query.query (releases_table (db request)))) in
  let* releases_query :=
    if Py.truthy q then
      let* terms := lift (Shlex.split (default EmptyString q)) in
      let filters := version_filters Release.version terms in
      ret (Query.filter (Sql.or_ filters) releases_query)
    else ret releases_query in
  let* releases := Paginate.SQLAlchemyORMPage "Release" releases_query page_num 25 in
  ret {| releases := releases; releases_project := project;
         releases_query_echo := q |}.

Record JournalsList : Type :=
  { journals : Paginate.Page JournalEntry.t;
    journals_project : Project.t;
    journals_query_echo : option string }.

Definition journals_list (project : Project.t) (request : Request)
  : View JournalsList :=
  let q := params request !! "q" in
  let* _ := canonical_or_redirect project request in
  let* page_num := page_num request in
  let journals_query :=
    Query.order_by_desc Z.leb JournalEntry.submitted_date
      (Query.filter
         (Sql.equals
            (fun e => String.eqb (JournalEntry.name e) (Project.name project)))
         (Query.query (journals_table (db request)))) in
  let* journals_query :=
    if Py.truthy q then
      let* terms := lift (Shlex.split (default EmptyString q)) in
      let filters := version_filters JournalEntry.version terms in
      ret (Query.filter (Sql.or_ filters) journals_query)
    else ret journals_query in
  let* journals := Paginate.SQLAlchemyORMPage "JournalEntry" journals_query page_num 25 in
  ret {| journals := journals; journals_project := project;
         journals_query_echo := q |}.

End Views.

(** ** Vocabulary of the statements *)

(** The path names the project by its normalized name. *)
Definition canonical (project : Project.t) (request : Request) : Prop :=
  matchdict request !! "project_name" = Some (Project.normalized_name project).

(** The page asked for: 1 without a [page] parameter, else its integer value. *)
Definition page_param (request : Request) (n : Z) : Prop :=
  match params request !! "page" with
  | None => n = 1%Z
  | Some s => Py.int s = Some n
  end.

(** The terms of the query text; none when [q] is missing or empty. *)
Definition search_terms (request : Request) (terms : list string) : Prop :=
  if Py.truthy (params request !! "q")
  then Shlex.split (default EmptyString (params request !! "q")) = Ok terms
  else terms = [].

Definition bad_page : exn := HTTPBadRequest "'page' must be an integer.".

Definition moved (project : Project.t) (request : Request) : exn :=
  HTTPMovedPermanently (current_route_path request (Project.normalized_name project)).

(** The statements of the three listings before pagination, for given
    terms, as the views build them. *)
Definition projects_statement (request : Request) (terms : list string)
  : Query.t Project.t :=
  Query.filter (Sql.or_ (Views.name_filters terms))
    (Query.order_by String.leb Project.name
       (Query.query (projects_table (db request)))).

Definition releases_statement (project : Project.t) (request : Request)
    (terms : list string) : Query.t Release.t :=
  Query.filter (Sql.or_ (Views.version_filters Release.version terms))
    (Query.order_by_desc Z.leb Release._pypi_ordering
       (Query.filter
          (Sql.equals (fun r => bool_decide (Release.project r = project)))
          (Query.query (releases_table (db request))))).

Definition journals_statement (project : Project.t) (request : Request)
    (terms : list string) : Query.t JournalEntry.t :=
  Query.filter (Sql.or_ (Views.version_filters JournalEntry.version terms))
    (Query.order_by_desc Z.leb JournalEntry.submitted_date
       (Query.filter
          (Sql.equals
             (fun e => String.eqb (JournalEntry.name e) (Project.name project)))
          (Query.query (journals_table (db request))))).

(** The rows that the database answers to a statement; none when it
    rejects the statement. *)
Definition rows_of {A : Type} (q : Query.t A) : list A :=
  match q with
  | Ok rows => rows
  | Raise _ => []
  end.

(** The rows of the three listings before pagination, for given terms. *)
Definition projects_query (request : Request) (terms : list string) : list Project.t :=
  rows_of (projects_statement request terms).

Definition releases_query (project : Project.t) (request : Request)
    (terms : list string) : list Release.t :=
  rows_of (releases_statement project request terms).

Definition journals_query (project : Project.t) (request : Request)
    (terms : list string) : list JournalEntry.t :=
  rows_of (journals_statement project request terms).

(** The database accepts the LIKE pattern, whatever the text: it does not
    end in a lone backslash. *)
Definition accepted (pattern : string) : bool :=
  match Sql.like_tokens (Py.lower pattern) with
  | Some _ => true
  | None => false
  end.

(** Every term of the query text is a pattern that the database accepts;
    this holds of a query text that is missing, empty or rejected by
    [shlex.split]. *)
Definition patterns_accepted (request : Request) : bool :=
  if Py.truthy (params request !! "q") then
    match Shlex.split (default EmptyString (params request !! "q")) with
    | Ok terms => forallb accepted terms
    | Raise _ => true
    end
  else true.

(** The search of [Sql.MatchStar] for the places of the text where the
    character [c] occurs, the rest of the pattern being [p]. *)
Definition scan_from (c : ascii) (p : string) : string -> Sql.like_result :=
  fix scan (t : string) : Sql.like_result :=
    match t with
    | EmptyString => Sql.LIKE_ABORT
    | String d t' =>
        if Ascii.eqb c d then
          match Sql.MatchText p t' with
          | Sql.LIKE_FALSE => scan t'
          | r => r
          end
        else scan t'
    end.

(** The answer [r] of the matcher on the text [t] is right for the pattern
    [ts]: true and false are the answers of LIKE, and after [LIKE_ABORT]
    the pattern matches no end of the text. *)
Definition agrees (ts : list Sql.like_tok) (t : string) (r : Sql.like_result)
  : Prop :=
  match r with
  | Sql.LIKE_TRUE => Sql.like_match ts t = true
  | Sql.LIKE_FALSE => Sql.like_match ts t = false
  | Sql.LIKE_ABORT => forall v u, t = (v ++ u)%string -> Sql.like_match ts u = false
  | Sql.LIKE_ERROR => False
  end.

(** The same for the answer of the search after a [%]. *)
Definition agrees_star (ts : list Sql.like_tok) (t : string)
    (r : Sql.like_result) : Prop :=
  match r with
  | Sql.LIKE_TRUE => Sql.like_match (Sql.LAnySeq :: ts) t = true
  | Sql.LIKE_ABORT => forall v u, t = (v ++ u)%string -> Sql.like_match ts u = false
  | _ => False
  end.

(** A criterion holds of a row: it can be evaluated and answers true. *)
Definition holds {A : Type} (c : A -> result bool) (row : A) : bool :=
  match c row with
  | Ok b => b
  | Raise _ => false
  end.

(** [column ILIKE pattern] holds. *)
Definition matches (column pattern : string) : bool :=
  holds (fun c => Sql.ilike c pattern) column.

(** The rows that an OR over the filters selects; every row for an empty
    list of filters. *)
Definition chosen {A : Type} (filters : list (A -> result bool)) (rows : list A)
  : list A :=
  match filters with
  | [] => rows
  | _ => List.filter (fun r => existsb (fun f => holds f r) filters) rows
  end.

(** The filters that one term contributes in the release and journal
    listings. *)
Definition version_filter {A : Type} (version : A -> string) (term : string)
  : list (A -> result bool) :=
  if Py.contains_char ":" term then
    if String.eqb (Py.lower (Py.split_once ":" term).1) "version"
    then [fun row : A => Sql.ilike (version row) (Py.split_once ":" term).2]
    else []
  else [].

(** What a page shows of the rows of its query when page [n] is asked for:
    the window of 25 rows that starts after the pages before it. *)
Definition page_window {A : Type} (query : list A) (n : Z) (pg : Paginate.Page A) : Prop :=
  Paginate.items_per_page pg = 25%Z /\
  Paginate.item_count pg = Z.of_nat (length query) /\
  Paginate.items pg =
    Sql.slice ((Z.max 1 n - 1) * 25) ((Z.max 1 n - 1) * 25 + 25) query.

(** Case-insensitive substring match, the reading of a search term that the
    description of the listings gives: [term] occurs somewhere in [text]
    when both are lower-cased. *)
Fixpoint has_infix (needle text : string) : bool :=
  String.prefix needle text ||
  match text with
  | String _ text' => has_infix needle text'
  | EmptyString => false
  end.

Definition substring_match (text term : string) : bool :=
  has_infix (Py.lower term) (Py.lower text).

(** ** Sample data *)

Definition foobar : Project.t :=
  {| Project.name := "FooBar"; Project.normalized_name := "foobar" |}.

Definition baz : Project.t :=
  {| Project.name := "baz"; Project.normalized_name := "baz" |}.

Definition alice : User.t := {| User.username := "alice" |}.
Definition bob : User.t := {| User.username := "bob" |}.

Definition sample_db : Session :=
  {| projects_table := [foobar; baz];
     roles_table :=
       [ {| Role.role_name := "Owner"; Role.user := bob; Role.project := baz |};
         {| Role.role_name := "Maintainer"; Role.user := alice; Role.project := baz |};
         {| Role.role_name := "Maintainer"; Role.user := bob; Role.project := baz |};
         {| Role.role_name := "Owner"; Role.user := alice; Role.project := foobar |} ];
     releases_table :=
       [ {| Release.project := baz; Release.version := "1.0";
            Release._pypi_ordering := 1 |};
         {| Release.project := baz; Release.version := "1.0.1";
            Release._pypi_ordering := 2 |};
         {| Release.project := foobar; Release.version := "0.1";
            Release._pypi_ordering := 1 |} ];
     journals_table :=
       [ {| JournalEntry.name := "baz"; JournalEntry.version := "1.0";
            JournalEntry.submitted_date := 100 |};
         {| JournalEntry.name := "FooBar"; JournalEntry.version := "0.1";
            JournalEntry.submitted_date := 150 |};
         {| JournalEntry.name := "baz"; JournalEntry.version := "1.0.1";
            JournalEntry.submitted_date := 200 |} ] |}.



(** A request for [/admin/projects/<project_name>/...] with the given
    query parameters. *)
Definition sample_request (query : list (string * string)) (project_name : string)
  : Request :=
  {| params := list_to_map query;
     matchdict := {[ "project_name" := project_name ]};
     db := sample_db;
     current_route_path := fun name => ("/admin/projects/" ++ name ++ "/")%string |}.

(** The query text is rejected by [shlex.split]: the message of its
    [ValueError]. *)
Definition rejected_query (request : Request) : option string :=
  if Py.truthy (params request !! "q") then
    match Shlex.split (default EmptyString (params request !! "q")) with
    | Raise (ValueError msg) => Some msg
    | _ => None
    end
  else None.

(** The [page] parameter is present and is not an integer. *)
Definition page_malformed (request : Request) : bool :=
  match params request !! "page" with
  | Some s => match Py.int s with None => true | Some _ => false end
  | None => false
  end.

(** The path names the project otherwise than by its normalized name. *)
Definition noncanonical (project : Project.t) (request : Request) : bool :=
  match matchdict request !! "project_name" with
  | Some project_name => negb (String.eqb project_name (Project.normalized_name project))
  | None => false
  end.

(** The exception that leaves a view, if any. *)
Definition error_of {A : Type} (r : result A * list statement) : option exn :=
  match r.1 with
  | Ok _ => None
  | Raise e => Some e
  end.

(** The exception that a listing raises after the check of the path: the
    bad request for a malformed [page], else the [ValueError] of a query
    text that [shlex.split] rejects. *)
Definition listing_error (request : Request) : option exn :=
  if page_malformed request then Some bad_page
  else ValueError <$> rejected_query request.

(** The exception that the check of the path raises, and [inner] when it
    raises none. *)
Definition path_error (project : Project.t) (request : Request)
    (inner : option exn) : option exn :=
  match matchdict request !! "project_name" with
  | None => Some (KeyError "project_name")
  | Some _ => if noncanonical project request then Some (moved project request) else inner
  end.

(** The exception that leaves a listing is [expected]; or none is expected,
    a search term is a pattern that the database does not accept, and the
    exception is the error of the database. *)
Definition surfaces {A : Type} (request : Request) (expected : option exn)
    (r : result A * list statement) : Prop :=
  error_of r = expected \/
  (expected = None /\ patterns_accepted request = false /\
   error_of r = Some Sql.bad_escape).

(** Ascending order of the maintainers by role name, then by username. *)
Definition role_then_username (x y : Role.t) : Prop :=
  String.ltb (Role.role_name x) (Role.role_name y) = true \/
  (Role.role_name x = Role.role_name y /\
   String.leb (User.username (Role.user x)) (User.username (Role.user y)) = true).

(** Descending order of journal entries by submission date: the more recent
    entry first. *)
Definition more_recent_first (x y : JournalEntry.t) : Prop :=
  (JournalEntry.submitted_date y <= JournalEntry.submitted_date x)%Z.

(** The journal entries of a project. *)
Definition journal_entries_of (project : Project.t) (request : Request)
  : list JournalEntry.t :=
  List.filter (fun e => String.eqb (JournalEntry.name e) (Project.name project))
    (journals_table (db request)).





(** The request with the [page] parameter set to [s]. *)
Definition with_page (s : string) (request : Request) : Request :=
  {| params := <["page" := s]> (params request);
     matchdict := matchdict request;
     db := db request;
     current_route_path := current_route_path request |}.

(** A search term that the listings of releases and of journal entries pass
    over: it has no colon, or it reads [field:value] with a field that does
    not lower-case to [version]. *)
Definition ignored_term (term : string) : Prop :=
  Py.contains_char ":" term = false \/
  exists field value,
    term = (field ++ ":" ++ value)%string /\
    Py.contains_char ":" field = false /\
    Py.lower field <> "version".

(** A search term [field:value] whose field lower-cases to [version]. *)
Definition version_term (term value : string) : Prop :=
  exists field,
    term = (field ++ ":" ++ value)%string /\
    Py.contains_char ":" field = false /\
    Py.lower field = "version".

(** A text made of whitespace only, as [shlex] sees whitespace. *)
Fixpoint blank (s : string) : bool :=
  match s with
  | EmptyString => true
  | String c s' => Shlex.whitespace c && blank s'
  end.

(** The characters that are special in a LIKE pattern. *)
Definition wildcard (c : ascii) : bool :=
  Ascii.eqb c "%" || Ascii.eqb c "_" || Ascii.eqb c "\".

(** A text without a character that is special in a LIKE pattern. *)
Fixpoint wildcard_free (s : string) : bool :=
  match s with
  | EmptyString => true
  | String c s' => negb (wildcard c) && wildcard_free s'
  end.

(** [text] without its prefix [p], when it starts with [p]. *)
Fixpoint drop_prefix (p text : string) : option string :=
  match p with
  | EmptyString => Some text
  | String c p' =>
      match text with
      | String d text' => if Ascii.eqb c d then drop_prefix p' text' else None
      | EmptyString => None
      end
  end.

(** * Properties *)

(** ** The library models on sample inputs *)

Example int_plain : Py.int "12" = Some 12%Z. Proof. reflexivity. Qed.
Example int_padded : Py.int " -1_000 " = Some (-1000)%Z. Proof. reflexivity. Qed.
Example int_word : Py.int "abc" = None. Proof. reflexivity. Qed.
Example int_empty : Py.int "" = None. Proof. reflexivity. Qed.
Example int_float : Py.int "1.5" = None. Proof. reflexivity. Qed.
Example int_us2 : Py.int "1__0" = None. Proof. reflexivity. Qed.
Example int_sign_gap : Py.int "+ 1" = None. Proof. reflexivity. Qed.
Example int_no_break_space : Py.int (String "160" "7") = Some 7%Z.
Proof. reflexivity. Qed.
Example int_file_separator : Py.int (String "028" "7") = None.
Proof. reflexivity. Qed.
Example int_4300_digits :
  Py.int (string_of_list_ascii (repeat "1"%char 4300)) <> None /\
  Py.int (string_of_list_ascii (repeat "1"%char 4301)) = None.
Proof. split; vm_compute; congruence. Qed.
Example lower_mixed : Py.lower "VerSion" = "version". Proof. reflexivity. Qed.
Example split_once_colon :
  Py.split_once ":" "version:1:2" = ("version", "1:2").
Proof. reflexivity. Qed.

Example split_words : Shlex.split "foo  bar" = Ok ["foo"; "bar"].
Proof. reflexivity. Qed.
Example split_quoted : Shlex.split "'foo bar' baz" = Ok ["foo bar"; "baz"].
Proof. reflexivity. Qed.
Example split_glued : Shlex.split "a'b c'd" = Ok ["ab cd"].
Proof. reflexivity. Qed.
Example split_empty_quotes : Shlex.split "''" = Ok [""].
Proof. reflexivity. Qed.
Example split_blank : Shlex.split "  " = Ok [].
Proof. reflexivity. Qed.
Example split_escaped_space : Shlex.split "a\ b" = Ok ["a b"].
Proof. reflexivity. Qed.
Example split_backslash_in_squote : Shlex.split "'a\b'" = Ok ["a\b"].
Proof. reflexivity. Qed.
Example split_open_quote :
  Shlex.split "'abc" = Raise (ValueError "No closing quotation").
Proof. reflexivity. Qed.
Example split_trailing_escape :
  Shlex.split "abc\" = Raise (ValueError "No escaped character").
Proof. reflexivity. Qed.

Example ilike_exact : Sql.ilike "Django" "django" = Ok true.
Proof. reflexivity. Qed.
Example ilike_no_infix : Sql.ilike "django-rest" "django" = Ok false.
Proof. reflexivity. Qed.
Example ilike_percent : Sql.ilike "django-rest" "DJANGO%" = Ok true.
Proof. reflexivity. Qed.
Example ilike_underscore : Sql.ilike "abc" "a_c" = Ok true.
Proof. reflexivity. Qed.
Example ilike_escaped :
  Sql.ilike "a%c" "a\%c" = Ok true /\ Sql.ilike "abc" "a\%c" = Ok false.
Proof. split; reflexivity. Qed.
Example ilike_escaped_letter : Sql.ilike "ab" "a\b" = Ok true.
Proof. reflexivity. Qed.
Example ilike_lone_backslash : Sql.ilike "ab" "a\" = Raise Sql.bad_escape.
Proof. reflexivity. Qed.
Example ilike_backslash_not_reached : Sql.ilike "b" "a\" = Ok false.
Proof. reflexivity. Qed.
Example ilike_backslash_after_percent :
  Sql.ilike "b" "%\" = Raise Sql.bad_escape /\ Sql.ilike "" "%\" = Ok false.
Proof. split; reflexivity. Qed.
Example project_list_lone_backslash :
  run (Views.project_list (sample_request [("q", "'\'")] ""))
    = (Raise (DataError "LIKE pattern must not end with escape character"),
       [Select "Project"]).
Proof. reflexivity. Qed.

Example project_list_backslash_not_reached :
  run (Views.project_list (sample_request [("q", "'x\'")] ""))
    = (Ok {| Views.projects :=
               {| Paginate.page := 1; Paginate.items := [];
                  Paginate.items_per_page := 25; Paginate.item_count := 0;
                  Paginate.page_count := 0 |};
             Views.projects_query_echo := Some "'x\'" |},
       [Select "Project"; Count "Project"]).
Proof. reflexivity. Qed.

(** ** Sorting *)
Section StableSortFacts.
Context {A : Type} (le : A -> A -> bool).
Hypothesis le_total : forall x y, le x y = true \/ le y x = true.
Hypothesis le_trans : forall x y z, le x y = true -> le y z = true -> le x z = true.

Lemma insert_sorted_perm x l : insert_sorted le x l ≡ₚ x :: l.
Proof.
  induction l as [|y l IH]; simpl; [done|].
  destruct (le x y); [done|].
  rewrite IH. apply Permutation_swap.
Qed.

Lemma stable_sort_perm l : stable_sort le l ≡ₚ l.
Proof.
  induction l as [|x l IH]; simpl; [done|].
  change (foldr (insert_sorted le) [] l) with (stable_sort le l).
  by rewrite insert_sorted_perm, IH.
Qed.

Lemma insert_sorted_strongly x l :
  StronglySorted (fun x y => le x y = true) l ->
  StronglySorted (fun x y => le x y = true) (insert_sorted le x l).
Proof.
  induction 1 as [|y l Hl IH Hy]; simpl.
  - repeat constructor.
  - destruct (le x y) eqn:Hxy.
    + constructor; [by constructor|].
      constructor; [exact Hxy|].
      eapply Forall_impl; [exact Hy|].
      intros z Hyz. simpl in *. eauto.
    + constructor; [exact IH|].
      rewrite insert_sorted_perm. constructor; [|exact Hy].
      destruct (le_total x y) as [H|H]; [congruence|exact H].
Qed.

Lemma stable_sort_strongly l :
  StronglySorted (fun x y => le x y = true) (stable_sort le l).
Proof.
  induction l as [|x l IH]; simpl; [constructor|].
  by apply insert_sorted_strongly.
Qed.
End StableSortFacts.

Section SortedSublists.
Context {A : Type} (R : A -> A -> Prop).


Lemma StronglySorted_firstn n l :
  StronglySorted R l -> StronglySorted R (firstn n l).
Proof.
  intros H. rewrite <- (firstn_skipn n l) in H.
  by apply StronglySorted_app_1_l in H.
Qed.


End SortedSublists.

(** ** The orders used for sorting *)

Lemma ascii_compare_refl a : Ascii.compare a a = Eq.
Proof. unfold Ascii.compare. apply N.compare_refl. Qed.

Lemma ascii_compare_lt_trans a b c :
  Ascii.compare a b = Lt -> Ascii.compare b c = Lt -> Ascii.compare a c = Lt.
Proof.
  unfold Ascii.compare. rewrite !N.compare_lt_iff. apply N.lt_trans.
Qed.

Lemma string_compare_not_gt_trans x : forall y z,
  String.compare x y <> Gt -> String.compare y z <> Gt -> String.compare x z <> Gt.
Proof.
  induction x as [|a x IH]; intros [|b y] [|c z]; simpl; try congruence.
  destruct (Ascii.compare a b) eqn:Hab; [| |congruence];
    (destruct (Ascii.compare b c) eqn:Hbc; [| |congruence]).
  - apply Ascii.compare_eq_iff in Hab, Hbc. subst.
    rewrite ascii_compare_refl. apply IH.
  - apply Ascii.compare_eq_iff in Hab. subst. rewrite Hbc. congruence.
  - apply Ascii.compare_eq_iff in Hbc. subst. rewrite Hab. congruence.
  - rewrite (ascii_compare_lt_trans _ _ _ Hab Hbc). congruence.
Qed.

Lemma string_leb_spec x y : String.leb x y = true <-> String.compare x y <> Gt.
Proof. unfold String.leb. destruct (String.compare x y); split; congruence. Qed.

Lemma string_leb_trans x y z :
  String.leb x y = true -> String.leb y z = true -> String.leb x z = true.
Proof. rewrite !string_leb_spec. apply string_compare_not_gt_trans. Qed.

Lemma string_leb_refl x : String.leb x x = true.
Proof. destruct (String.leb_total x x); done. Qed.

Lemma pair_leb_total a b : pair_leb a b = true \/ pair_leb b a = true.
Proof.
  unfold pair_leb. rewrite (String.eqb_sym b.1 a.1).
  destruct (String.eqb a.1 b.1); apply String.leb_total.
Qed.

Lemma pair_leb_trans a b c :
  pair_leb a b = true -> pair_leb b c = true -> pair_leb a c = true.
Proof.
  unfold pair_leb.
  destruct (String.eqb_spec a.1 b.1) as [Hab|Hab];
    destruct (String.eqb_spec b.1 c.1) as [Hbc|Hbc];
    destruct (String.eqb_spec a.1 c.1) as [Hac|Hac];
    try congruence; intros H1 H2.
  - eapply string_leb_trans; eassumption.
  - exfalso. apply Hab.
    apply String.leb_antisym; [done|]. by rewrite Hac.
  - eapply string_leb_trans; eassumption.
Qed.

Lemma Z_leb_total x y : (x <=? y)%Z = true \/ (y <=? x)%Z = true.
Proof. rewrite !Z.leb_le. lia. Qed.

Lemma Z_leb_trans x y z :
  (x <=? y)%Z = true -> (y <=? z)%Z = true -> (x <=? z)%Z = true.
Proof. rewrite !Z.leb_le. lia. Qed.

(** ** DISTINCT ON *)

Lemma existsb_eqb_In (x : string) (seen : list string) :
  existsb (String.eqb x) seen = true <-> In x seen.
Proof.
  rewrite existsb_exists. split.
  - intros (y & Hy & Heq). apply String.eqb_eq in Heq. by subst.
  - intros H. exists x. split; [done|apply String.eqb_refl].
Qed.

Lemma distinct_from_In {A} (column : A -> string) rows : forall seen r,
  In r (Sql.distinct_from column seen rows) -> In r rows /\ ~ In (column r) seen.
Proof.
  induction rows as [|r0 rows IH]; intros seen r; simpl; [done|].
  destruct (existsb (String.eqb (column r0)) seen) eqn:Hseen.
  - intros H. apply IH in H as [H1 H2]. auto.
  - intros [<-|H].
    + split; [auto|]. rewrite <- existsb_eqb_In. congruence.
    + apply IH in H as [H1 H2]. split; [auto|].
      intros Hin. apply H2. by right.
Qed.

Lemma distinct_from_NoDup {A} (column : A -> string) rows : forall seen,
  List.NoDup (map column (Sql.distinct_from column seen rows)).
Proof.
  induction rows as [|r0 rows IH]; intros seen; simpl; [constructor|].
  destruct (existsb (String.eqb (column r0)) seen); [apply IH|].
  simpl. constructor; [|apply IH].
  rewrite in_map_iff. intros (r & Heq & Hr).
  apply distinct_from_In in Hr as [_ Hr]. apply Hr. left. done.
Qed.

Lemma distinct_from_covers {A} (column : A -> string) rows : forall seen r,
  In r rows -> ~ In (column r) seen ->
  exists r', In r' (Sql.distinct_from column seen rows) /\ column r' = column r.
Proof.
  induction rows as [|r0 rows IH]; intros seen r; simpl; [done|].
  intros [->|Hr] Hseen.
  - destruct (existsb (String.eqb (column r)) seen) eqn:E.
    + apply existsb_eqb_In in E. done.
    + exists r. split; [by left|done].
  - destruct (existsb (String.eqb (column r0)) seen) eqn:E; [by apply IH|].
    destruct (String.eqb_spec (column r) (column r0)) as [Heq|Hne].
    + exists r0. split; [by left|done].
    + destruct (IH (column r0 :: seen) r Hr) as (r' & Hr' & Hcol).
      * intros [H|H]; [congruence|done].
      * exists r'. split; [by right|done].
Qed.

(** ** Evaluation of a criterion *)

Section Criteria.
Context {A : Type}.

Lemma any_inv (fs : list (A -> result bool)) r b :
  Sql.any fs r = Ok b -> b = existsb (fun f => holds f r) fs.
Proof.
  revert b. induction fs as [|f fs IH]; intros b; simpl.
  - by intros [= <-].
  - unfold holds at 1. destruct (f r) as [[]|e]; [by intros [= <-]|apply IH|done].
Qed.

Lemma any_ok (fs : list (A -> result bool)) r :
  (forall f, In f fs -> exists b, f r = Ok b) ->
  Sql.any fs r = Ok (existsb (fun f => holds f r) fs).
Proof.
  induction fs as [|f fs IH]; intros Hok; simpl; [done|].
  destruct (Hok f) as [b Hb]; [by left|].
  unfold holds at 1. rewrite Hb. destruct b; [done|].
  apply IH. intros g Hg. apply Hok. by right.
Qed.

Lemma any_raise (fs : list (A -> result bool)) r e :
  Sql.any fs r = Raise e -> exists f, In f fs /\ f r = Raise e.
Proof.
  induction fs as [|f fs IH]; simpl; [done|].
  destruct (f r) as [[]|e1] eqn:E1.
  - done.
  - intros H. destruct (IH H) as (g & Hg & Hr).
    exists g. split; [by right|done].
  - intros [= <-]. exists f. split; [by left|done].
Qed.

Lemma select_pure (h : A -> bool) rows :
  Sql.select (fun r => Ok (h r)) rows = Ok (List.filter h rows).
Proof. induction rows as [|r rows IH]; simpl; [done|]. by rewrite IH. Qed.

Lemma select_ok (c : A -> result bool) rows :
  (forall r, In r rows -> exists b, c r = Ok b) ->
  Sql.select c rows = Ok (List.filter (holds c) rows).
Proof.
  induction rows as [|r rows IH]; intros Hok; simpl; [done|].
  destruct (Hok r) as [b Hb]; [by left|].
  rewrite IH by (intros r' Hr'; apply Hok; by right).
  unfold holds. rewrite Hb. reflexivity.
Qed.

Lemma select_inv (c : A -> result bool) rows l :
  Sql.select c rows = Ok l ->
  l = List.filter (holds c) rows /\ forall r, In r rows -> exists b, c r = Ok b.
Proof.
  revert l. induction rows as [|r rows IH]; intros l; simpl.
  - intros [= <-]. by split.
  - unfold holds at 1.
    destruct (c r) as [b|e] eqn:E, (Sql.select c rows) as [rest|e']; try done.
    intros [= <-]. destruct (IH rest eq_refl) as [-> Hall]. split; [done|].
    intros r' [<-|Hr']; [by exists b|by apply Hall].
Qed.

Lemma select_raise (c : A -> result bool) rows e :
  Sql.select c rows = Raise e -> exists r, In r rows /\ c r = Raise e.
Proof.
  induction rows as [|r rows IH]; simpl; [done|].
  destruct (c r) as [b|e1] eqn:E1.
  - destruct (Sql.select c rows) as [rest|e2]; [done|].
    intros [= <-]. destruct IH as (r' & Hr' & Hc); [done|].
    exists r'. split; [by right|done].
  - intros H. exists r. split; [by left|].
    destruct (Sql.select c rows); by injection H as <-.
Qed.

Lemma filter_equals (h : A -> bool) rows :
  Sql.filter (Sql.equals h) rows = Ok (List.filter h rows).
Proof. apply select_pure. Qed.

(** An OR over filters that can be evaluated selects the [chosen] rows. *)
Lemma filter_or_ok (fs : list (A -> result bool)) rows :
  (forall f r, In f fs -> exists b, f r = Ok b) ->
  Sql.filter (Sql.or_ fs) rows = Ok (chosen fs rows).
Proof.
  intros Hok. destruct fs as [|f fs]; [done|].
  unfold Sql.or_, Sql.filter, chosen.
  rewrite select_ok.
  - f_equal. apply filter_ext. intros r. unfold holds at 1.
    rewrite any_ok by (intros g Hg; by apply Hok). done.
  - intros r _. eexists. apply any_ok. intros g Hg. by apply Hok.
Qed.

(** The rows of an accepted OR over filters are the [chosen] rows. *)
Lemma filter_or_inv (fs : list (A -> result bool)) rows l :
  Sql.filter (Sql.or_ fs) rows = Ok l -> l = chosen fs rows.
Proof.
  destruct fs as [|f fs]; [by intros [= <-]|].
  unfold Sql.or_, Sql.filter, chosen. intros H.
  apply select_inv in H as [-> Hall].
  apply filter_ext_in. intros r Hr. destruct (Hall r Hr) as [b Hb].
  unfold holds at 1. rewrite Hb. by apply any_inv.
Qed.

(** An OR over filters is rejected with the error of one of the filters. *)
Lemma filter_or_raise (fs : list (A -> result bool)) rows e :
  Sql.filter (Sql.or_ fs) rows = Raise e ->
  exists f r, In f fs /\ In r rows /\ f r = Raise e.
Proof.
  destruct fs as [|f fs]; [done|].
  unfold Sql.or_, Sql.filter. intros H.
  apply select_raise in H as (r & Hr & H).
  apply any_raise in H as (g & Hg & H). by exists g, r.
Qed.

Lemma chosen_In (fs : list (A -> result bool)) rows r :
  In r (chosen fs rows) <->
  In r rows /\ (fs = [] \/ exists f, In f fs /\ f r = Ok true).
Proof.
  destruct fs as [|f0 fs].
  - simpl. split; [auto|by intros [? _]].
  - unfold chosen. rewrite filter_In, existsb_exists.
    split; intros [Hr H]; (split; [done|]).
    + right. destruct H as (f & Hf & Hh). exists f. split; [done|].
      unfold holds in Hh. destruct (f r) as [[]|]; done.
    + destruct H as [H|(f & Hf & Hh)]; [done|].
      exists f. split; [done|]. unfold holds. by rewrite Hh.
Qed.

Lemma chosen_nonempty (fs : list (A -> result bool)) rows :
  fs <> [] ->
  chosen fs rows = List.filter (fun r => existsb (fun f => holds f r) fs) rows.
Proof. destruct fs; done. Qed.



End Criteria.

(** ** LIKE patterns *)

Lemma ilike_accepted column pattern :
  accepted pattern = true -> Sql.ilike column pattern = Ok (matches column pattern).
Proof.
  unfold accepted, matches, holds, Sql.ilike.
  by destruct (Sql.like_tokens (Py.lower pattern)).
Qed.

Lemma ilike_raise column pattern e :
  Sql.ilike column pattern = Raise e -> e = Sql.bad_escape /\ accepted pattern = false.
Proof.
  unfold accepted, Sql.ilike.
  destruct (Sql.like_tokens (Py.lower pattern)); [done|].
  destruct (Sql.MatchText _ _); try done. by intros [= <-].
Qed.

(** ** Pagination *)

Lemma slice_nil {A} start stop : Sql.slice start stop (@nil A) = [].
Proof. unfold Sql.slice. by rewrite skipn_nil, firstn_nil. Qed.

Lemma SQLAlchemyORMPage_run {A} entity (query : list A) n log :
  exists pg,
    Paginate.SQLAlchemyORMPage entity (Ok query) n 25 log
      = (Ok pg, log ++ [Select entity; Count entity]) /\
    page_window query n pg /\
    (1 <= Paginate.page pg)%Z /\
    (n <= 1 -> Paginate.page pg = 1)%Z.
Proof.
  unfold Paginate.SQLAlchemyORMPage, bind, execute, lift, ret. simpl.
  rewrite <- app_assoc. simpl.
  assert (Hmax : (if (n <? 1)%Z then 1%Z else n) = Z.max 1 n).
  { destruct (Z.ltb_spec n 1); lia. }
  rewrite Hmax.
  destruct (Z.ltb_spec 0 (Z.of_nat (length query))) as [Hpos|Hzero].
  - eexists. split; [reflexivity|]. unfold page_window. simpl.
    repeat split; try done.
    + destruct (Z.ltb_spec ((Z.of_nat (length query) - 1) `div` 25 + 1) (Z.max 1 n));
        [|lia].
      assert (0 <= (Z.of_nat (length query) - 1) `div` 25)%Z
        by (apply Z.div_pos; lia).
      lia.
    + intros Hn.
      assert (0 <= (Z.of_nat (length query) - 1) `div` 25)%Z
        by (apply Z.div_pos; lia).
      destruct (Z.ltb_spec ((Z.of_nat (length query) - 1) `div` 25 + 1) (Z.max 1 n));
        lia.
  - eexists. split; [reflexivity|]. unfold page_window. simpl.
    assert (query = []) as -> by (destruct query; [done|simpl in Hzero; lia]).
    rewrite slice_nil. repeat split; try done; lia.
Qed.

(** A statement that the database rejects is rejected when the page
    fetches its slice. *)
Lemma SQLAlchemyORMPage_raise {A} entity (e : exn) n log :
  Paginate.SQLAlchemyORMPage (A := A) entity (Raise e) n 25 log
    = (Raise e, log ++ [Select entity]).
Proof. reflexivity. Qed.


Lemma slice_In {A} start stop (rows : list A) x :
  In x (Sql.slice start stop rows) -> In x rows.
Proof.
  unfold Sql.slice. intros H.
  rewrite <- (firstn_skipn (Z.to_nat start) rows). apply in_or_app. right.
  rewrite <- (firstn_skipn (Z.to_nat (stop - start)) (skipn _ rows)).
  apply in_or_app. by left.
Qed.

Lemma page_run {A B} entity (statement : Query.t A) (query : list A) n
    (k : Paginate.Page A -> B) log :
  statement = Ok query ->
  exists pg,
    bind (Paginate.SQLAlchemyORMPage entity statement n 25) (fun pg => ret (k pg)) log
      = (Ok (k pg), log ++ [Select entity; Count entity]) /\
    page_window query n pg /\
    (1 <= Paginate.page pg)%Z /\
    (n <= 1 -> Paginate.page pg = 1)%Z.
Proof.
  intros ->.
  destruct (SQLAlchemyORMPage_run entity query n log) as (pg & Hrun & Hrest).
  exists pg. split; [|exact Hrest]. unfold bind. by rewrite Hrun.
Qed.

Lemma page_raise {A B} entity (statement : Query.t A) e n
    (k : Paginate.Page A -> B) log :
  statement = Raise e ->
  bind (Paginate.SQLAlchemyORMPage entity statement n 25) (fun pg => ret (k pg)) log
    = (Raise e, log ++ [Select entity]).
Proof. by intros ->. Qed.

(** ** The steps shared by the views *)

Lemma page_num_ok request n log :
  page_param request n -> Views.page_num request log = (Ok n, log).
Proof.
  unfold page_param, Views.page_num.
  destruct (params request !! "page") as [s|]; [|by intros ->].
  by intros ->.
Qed.

Lemma page_num_bad request s log :
  params request !! "page" = Some s -> Py.int s = None ->
  Views.page_num request log = (Raise bad_page, log).
Proof. unfold Views.page_num. by intros -> ->. Qed.

Lemma page_num_cases request log :
  (exists n, page_param request n /\ Views.page_num request log = (Ok n, log)) \/
  (exists s, params request !! "page" = Some s /\ Py.int s = None /\
             Views.page_num request log = (Raise bad_page, log)).
Proof.
  unfold page_param, Views.page_num.
  destruct (params request !! "page") as [s|]; [|left; exists 1%Z; by split].
  destruct (Py.int s) as [n|] eqn:E; [left; exists n|right; exists s]; by repeat split.
Qed.

Lemma canonical_ok project request log :
  canonical project request ->
  Views.canonical_or_redirect project request log = (Ok tt, log).
Proof.
  unfold canonical, Views.canonical_or_redirect, getitem, bind, ret.
  intros ->. by rewrite String.eqb_refl.
Qed.

Lemma canonical_redirect project request project_name log :
  matchdict request !! "project_name" = Some project_name ->
  project_name <> Project.normalized_name project ->
  Views.canonical_or_redirect project request log = (Raise (moved project request), log).
Proof.
  unfold Views.canonical_or_redirect, getitem, bind, ret, raise.
  intros -> Hne. apply String.eqb_neq in Hne. by rewrite Hne.
Qed.

Lemma project_list_run request n terms log :
  page_param request n -> search_terms request terms ->
  Views.project_list request log =
    bind (Paginate.SQLAlchemyORMPage "Project" (projects_statement request terms) n 25)
      (fun pg => ret {| Views.projects := pg;
                        Views.projects_query_echo := params request !! "q" |}) log.
Proof.
  intros Hn Ht. unfold Views.project_list, search_terms in *.
  unfold bind at 1. rewrite (page_num_ok _ _ _ Hn).
  unfold bind at 1.
  destruct (Py.truthy (params request !! "q")).
  - unfold bind at 1, lift. rewrite Ht. reflexivity.
  - subst terms. reflexivity.
Qed.

Lemma releases_list_run project request n terms log :
  canonical project request -> page_param request n -> search_terms request terms ->
  Views.releases_list project request log =
    bind (Paginate.SQLAlchemyORMPage "Release"
            (releases_statement project request terms) n 25)
      (fun pg => ret {| Views.releases := pg; Views.releases_project := project;
                        Views.releases_query_echo := params request !! "q" |}) log.
Proof.
  intros Hc Hn Ht. unfold Views.releases_list, search_terms in *.
  unfold bind at 1. rewrite (canonical_ok _ _ _ Hc).
  unfold bind at 1. rewrite (page_num_ok _ _ _ Hn).
  unfold bind at 1.
  destruct (Py.truthy (params request !! "q")).
  - unfold bind at 1, lift. rewrite Ht. reflexivity.
  - subst terms. unfold releases_statement, Query.filter, Query.order_by_desc,
      Query.on_rows, Query.query. cbn [Views.version_filters fold_left Sql.or_].
    by rewrite filter_equals.
Qed.

Lemma journals_list_run project request n terms log :
  canonical project request -> page_param request n -> search_terms request terms ->
  Views.journals_list project request log =
    bind (Paginate.SQLAlchemyORMPage "JournalEntry"
            (journals_statement project request terms) n 25)
      (fun pg => ret {| Views.journals := pg; Views.journals_project := project;
                        Views.journals_query_echo := params request !! "q" |}) log.
Proof.
  intros Hc Hn Ht. unfold Views.journals_list, search_terms in *.
  unfold bind at 1. rewrite (canonical_ok _ _ _ Hc).
  unfold bind at 1. rewrite (page_num_ok _ _ _ Hn).
  unfold bind at 1.
  destruct (Py.truthy (params request !! "q")).
  - unfold bind at 1, lift. rewrite Ht. reflexivity.
  - subst terms. unfold journals_statement, Query.filter, Query.order_by_desc,
      Query.on_rows, Query.query. cbn [Views.version_filters fold_left Sql.or_].
    by rewrite filter_equals.
Qed.

(** ** The filters built from the terms *)

Lemma fold_left_extend {A B} (g : B -> list A) (l : list B) : forall acc,
  fold_left (fun acc x => acc ++ g x) l acc = acc ++ flat_map g l.
Proof.
  induction l as [|x l IH]; intros acc; simpl.
  - by rewrite app_nil_r.
  - by rewrite IH, app_assoc.
Qed.

Lemma name_filters_map terms :
  Views.name_filters terms =
    map (fun term => fun p : Project.t => Sql.ilike (Project.name p) term) terms.
Proof.
  unfold Views.name_filters.
  rewrite (fold_left_extend
             (fun term => [fun p : Project.t => Sql.ilike (Project.name p) term])).
  simpl. induction terms as [|t terms IH]; simpl; [done|]. by rewrite IH.
Qed.

Lemma fold_left_pointwise {A B} (f g : A -> B -> A) (l : list B) :
  (forall acc x, f acc x = g acc x) ->
  forall acc, fold_left f l acc = fold_left g l acc.
Proof.
  intros Hfg. induction l as [|x l IH]; intros acc; [done|].
  cbn [fold_left]. by rewrite Hfg, IH.
Qed.

Lemma version_filters_flat_map {A} (version : A -> string) terms :
  Views.version_filters version terms = flat_map (version_filter version) terms.
Proof.
  unfold Views.version_filters.
  rewrite <- (app_nil_l (flat_map _ _)), <- fold_left_extend.
  apply fold_left_pointwise. intros acc t. unfold version_filter.
  destruct (Py.contains_char ":" t); [|by rewrite app_nil_r].
  destruct (Py.split_once ":" t) as [field value]. cbn [fst snd].
  destruct (String.eqb (Py.lower field) "version"); [done|by rewrite app_nil_r].
Qed.

Lemma version_filters_app {A} (version : A -> string) l1 l2 :
  Views.version_filters version (l1 ++ l2) =
    Views.version_filters version l1 ++ Views.version_filters version l2.
Proof. rewrite !version_filters_flat_map. apply flat_map_app. Qed.

Lemma version_filters_cons {A} (version : A -> string) t l :
  Views.version_filters version (t :: l) =
    version_filter version t ++ Views.version_filters version l.
Proof. by rewrite !version_filters_flat_map. Qed.

Lemma split_empty_string : Shlex.split EmptyString = Ok [].
Proof. reflexivity. Qed.

Lemma search_terms_of_q request q terms :
  params request !! "q" = Some q -> Shlex.split q = Ok terms ->
  search_terms request terms.
Proof.
  unfold search_terms. intros -> Hs. simpl.
  destruct q; [|exact Hs].
  rewrite split_empty_string in Hs. congruence.
Qed.

Lemma search_terms_no_q request :
  params request !! "q" = None -> search_terms request [].
Proof. unfold search_terms. by intros ->. Qed.

(** ** Patterns that the database accepts *)

Lemma lower_char_wildcard c : wildcard (Py.lower_char c) = wildcard c.
Proof. destruct c as [[] [] [] [] [] [] [] []]; reflexivity. Qed.

Lemma wildcard_free_lower s : wildcard_free (Py.lower s) = wildcard_free s.
Proof.
  induction s as [|c s IH]; simpl; [done|]. by rewrite lower_char_wildcard, IH.
Qed.

Lemma lower_app s t : Py.lower (s ++ t)%string = (Py.lower s ++ Py.lower t)%string.
Proof. induction s as [|c s IH]; simpl; [done|]. by rewrite IH. Qed.

Lemma like_tokens_plain c p :
  wildcard c = false ->
  Sql.like_tokens (String c p) = cons (Sql.LChar c) <$> Sql.like_tokens p.
Proof.
  intros H.
  destruct c as [[] [] [] [] [] [] [] []]; try discriminate H; reflexivity.
Qed.

Lemma like_tokens_escaped c p :
  Sql.like_tokens (String "\" (String c p)) = cons (Sql.LChar c) <$> Sql.like_tokens p.
Proof. reflexivity. Qed.

(** A character other than the backslash takes one token. *)
Lemma like_tokens_step c p :
  c <> "\"%char ->
  is_Some (Sql.like_tokens (String c p)) <-> is_Some (Sql.like_tokens p).
Proof.
  intros Hc.
  assert (Hcase : exists tok, Sql.like_tokens (String c p) = cons tok <$> Sql.like_tokens p).
  { destruct c as [[] [] [] [] [] [] [] []];
      try (by destruct Hc); eexists; reflexivity. }
  destruct Hcase as [tok ->]. by rewrite fmap_is_Some.
Qed.

(** What comes before an unescaped or an escaped colon does not decide
    whether the pattern ends in a lone backslash. *)
Lemma like_tokens_suffix c v : c <> "\"%char -> forall a,
  (is_Some (Sql.like_tokens (a ++ String c v)) <-> is_Some (Sql.like_tokens v)) /\
  forall d,
    is_Some (Sql.like_tokens (String d a ++ String c v)) <-> is_Some (Sql.like_tokens v).
Proof.
  intros Hc. induction a as [|x a [IH1 IH2]].
  - split.
    + by apply like_tokens_step.
    + intros d. change (String d "" ++ String c v)%string with (String d (String c v)).
      destruct (ascii_dec d "\") as [->|Hd].
      * by rewrite like_tokens_escaped, fmap_is_Some.
      * rewrite (like_tokens_step _ _ Hd). by apply like_tokens_step.
  - split; [apply IH2|].
    intros d.
    change (String d (String x a) ++ String c v)%string
      with (String d (String x (a ++ String c v))).
    destruct (ascii_dec d "\") as [->|Hd].
    + by rewrite like_tokens_escaped, fmap_is_Some.
    + rewrite (like_tokens_step _ _ Hd). apply IH2.
Qed.

Lemma accepted_is_Some pattern :
  accepted pattern = true <-> is_Some (Sql.like_tokens (Py.lower pattern)).
Proof.
  unfold accepted. destruct (Sql.like_tokens _) as [ts|].
  - split; [by eexists|done].
  - split; [done|by intros [? ?]].
Qed.

Lemma accepted_value field value :
  accepted (field ++ ":" ++ value) = accepted value.
Proof.
  apply eq_true_iff_eq. rewrite !accepted_is_Some, lower_app.
  change (Py.lower (":" ++ value)) with (String ":" (Py.lower value)).
  by apply like_tokens_suffix.
Qed.

Lemma wildcard_free_accepted s : wildcard_free s = true -> accepted s = true.
Proof.
  rewrite <- wildcard_free_lower, accepted_is_Some.
  induction (Py.lower s) as [|c t IH]; [by eexists|].
  intros H. cbn [wildcard_free] in H. apply andb_true_iff in H as [Hc Ht].
  apply negb_true_iff in Hc. rewrite (like_tokens_plain _ _ Hc), fmap_is_Some.
  by apply IH.
Qed.

Lemma contains_char_app c a b :
  Py.contains_char c (a ++ String c b)%string = true.
Proof.
  induction a as [|d a IH]; simpl.
  - by rewrite Ascii.eqb_refl.
  - rewrite IH. apply orb_true_r.
Qed.

Lemma split_once_app c a b :
  Py.contains_char c a = false ->
  Py.split_once c (a ++ String c b)%string = (a, b).
Proof.
  induction a as [|d a IH]; simpl.
  - by rewrite Ascii.eqb_refl.
  - intros H. apply orb_false_iff in H as [Hd Ha].
    rewrite Ascii.eqb_sym, Hd, (IH Ha). done.
Qed.

Lemma split_once_spec c s :
  Py.contains_char c s = true ->
  s = ((Py.split_once c s).1 ++ String c (Py.split_once c s).2)%string.
Proof.
  induction s as [|d s IH]; [done|].
  cbn [Py.contains_char Py.split_once].
  destruct (Ascii.eqb_spec d c) as [->|Hne].
  - by rewrite Ascii.eqb_refl.
  - apply Ascii.eqb_neq in Hne. rewrite Ascii.eqb_sym, Hne.
    cbn [orb]. intros H. specialize (IH H).
    destruct (Py.split_once c s) as [a b]. cbn [fst snd] in *.
    change (String d a ++ String c b)%string with (String d (a ++ String c b)%string).
    by rewrite <- IH.
Qed.

(** Every filter of the project listing is the ILIKE of a term. *)
Lemma name_filters_In f terms :
  In f (Views.name_filters terms) ->
  exists term, In term terms /\ f = fun p => Sql.ilike (Project.name p) term.
Proof.
  rewrite name_filters_map, in_map_iff. intros (term & <- & Hin). by exists term.
Qed.

(** Every filter of the release and journal listings is the ILIKE of a
    value that is accepted when its term is. *)
Lemma version_filters_In {A} (version : A -> string) f terms :
  In f (Views.version_filters version terms) ->
  exists term value,
    In term terms /\ accepted value = accepted term /\
    f = fun row => Sql.ilike (version row) value.
Proof.
  rewrite version_filters_flat_map, in_flat_map. intros (term & Hin & Hf).
  unfold version_filter in Hf.
  destruct (Py.contains_char ":" term) eqn:Hc; [|done].
  destruct (String.eqb _ _); [|done].
  destruct Hf as [<-|[]].
  exists term, (Py.split_once ":" term).2. repeat split; [done|].
  rewrite (split_once_spec _ _ Hc) at 2.
  symmetry. apply (accepted_value _ _).
Qed.

Lemma name_filters_total terms f (p : Project.t) :
  Forall (fun t => accepted t = true) terms ->
  In f (Views.name_filters terms) -> exists b, f p = Ok b.
Proof.
  intros Hall Hf. apply name_filters_In in Hf as (term & Hin & ->).
  rewrite List.Forall_forall in Hall.
  eexists. apply ilike_accepted, Hall, Hin.
Qed.

Lemma version_filters_total {A} (version : A -> string) terms f (row : A) :
  Forall (fun t => accepted t = true) terms ->
  In f (Views.version_filters version terms) -> exists b, f row = Ok b.
Proof.
  intros Hall Hf. apply version_filters_In in Hf as (term & value & Hin & Ha & ->).
  rewrite List.Forall_forall in Hall.
  eexists. apply ilike_accepted. rewrite Ha. apply Hall, Hin.
Qed.

Lemma name_filters_raise terms f (p : Project.t) e :
  In f (Views.name_filters terms) -> f p = Raise e ->
  e = Sql.bad_escape /\ exists term, In term terms /\ accepted term = false.
Proof.
  intros Hf He. apply name_filters_In in Hf as (term & Hin & ->).
  apply ilike_raise in He as [-> Ha]. split; [done|]. by exists term.
Qed.

Lemma version_filters_raise {A} (version : A -> string) terms f (row : A) e :
  In f (Views.version_filters version terms) -> f row = Raise e ->
  e = Sql.bad_escape /\ exists term, In term terms /\ accepted term = false.
Proof.
  intros Hf He. apply version_filters_In in Hf as (term & value & Hin & Ha & ->).
  apply ilike_raise in He as [-> Hv]. split; [done|].
  exists term. split; [done|]. by rewrite <- Ha.
Qed.

(** ** The statements of the listings *)

Lemma projects_statement_ok request terms :
  Forall (fun t => accepted t = true) terms ->
  projects_statement request terms =
    Ok (chosen (Views.name_filters terms)
          (Sql.order_by String.leb Project.name (projects_table (db request)))).
Proof.
  intros Hall. unfold projects_statement. cbn [Query.query Query.order_by Query.on_rows Query.filter].
  apply filter_or_ok. intros f p Hf. by apply (name_filters_total terms).
Qed.

Lemma projects_statement_inv request terms rows :
  projects_statement request terms = Ok rows ->
  rows = chosen (Views.name_filters terms)
           (Sql.order_by String.leb Project.name (projects_table (db request))).
Proof. apply filter_or_inv. Qed.

Lemma projects_statement_raise request terms e :
  projects_statement request terms = Raise e ->
  e = Sql.bad_escape /\ exists term, In term terms /\ accepted term = false.
Proof.
  intros H. apply filter_or_raise in H as (f & p & Hf & _ & He).
  by apply (name_filters_raise terms f p).
Qed.

Lemma releases_statement_ok project request terms :
  Forall (fun t => accepted t = true) terms ->
  releases_statement project request terms =
    Ok (chosen (Views.version_filters Release.version terms)
          (Sql.order_by_desc Z.leb Release._pypi_ordering
             (List.filter (fun r => bool_decide (Release.project r = project))
                (releases_table (db request))))).
Proof.
  intros Hall. unfold releases_statement.
  cbn [Query.query Query.filter]. rewrite filter_equals.
  cbn [Query.order_by_desc Query.on_rows Query.filter].
  apply filter_or_ok. intros f r Hf. eapply version_filters_total; eassumption.
Qed.

Lemma releases_statement_inv project request terms rows :
  releases_statement project request terms = Ok rows ->
  rows = chosen (Views.version_filters Release.version terms)
           (Sql.order_by_desc Z.leb Release._pypi_ordering
              (List.filter (fun r => bool_decide (Release.project r = project))
                 (releases_table (db request)))).
Proof.
  unfold releases_statement.
  cbn [Query.query Query.filter]. rewrite filter_equals.
  cbn [Query.order_by_desc Query.on_rows Query.filter].
  apply filter_or_inv.
Qed.

Lemma releases_statement_raise project request terms e :
  releases_statement project request terms = Raise e ->
  e = Sql.bad_escape /\ exists term, In term terms /\ accepted term = false.
Proof.
  unfold releases_statement.
  cbn [Query.query Query.filter]. rewrite filter_equals.
  cbn [Query.order_by_desc Query.on_rows Query.filter].
  intros H. apply filter_or_raise in H as (f & r & Hf & _ & He).
  by apply (version_filters_raise Release.version terms f r).
Qed.

Lemma journals_statement_ok project request terms :
  Forall (fun t => accepted t = true) terms ->
  journals_statement project request terms =
    Ok (chosen (Views.version_filters JournalEntry.version terms)
          (Sql.order_by_desc Z.leb JournalEntry.submitted_date
             (journal_entries_of project request))).
Proof.
  intros Hall. unfold journals_statement, journal_entries_of.
  cbn [Query.query Query.filter]. rewrite filter_equals.
  cbn [Query.order_by_desc Query.on_rows Query.filter].
  apply filter_or_ok. intros f r Hf. eapply version_filters_total; eassumption.
Qed.

Lemma journals_statement_inv project request terms rows :
  journals_statement project request terms = Ok rows ->
  rows = chosen (Views.version_filters JournalEntry.version terms)
           (Sql.order_by_desc Z.leb JournalEntry.submitted_date
              (journal_entries_of project request)).
Proof.
  unfold journals_statement, journal_entries_of.
  cbn [Query.query Query.filter]. rewrite filter_equals.
  cbn [Query.order_by_desc Query.on_rows Query.filter].
  apply filter_or_inv.
Qed.

Lemma journals_statement_raise project request terms e :
  journals_statement project request terms = Raise e ->
  e = Sql.bad_escape /\ exists term, In term terms /\ accepted term = false.
Proof.
  unfold journals_statement.
  cbn [Query.query Query.filter]. rewrite filter_equals.
  cbn [Query.order_by_desc Query.on_rows Query.filter].
  intros H. apply filter_or_raise in H as (f & r & Hf & _ & He).
  by apply (version_filters_raise JournalEntry.version terms f r).
Qed.

(** The rows of the listings for terms that the database accepts. *)
Lemma projects_query_ok request terms :
  Forall (fun t => accepted t = true) terms ->
  projects_query request terms =
    chosen (Views.name_filters terms)
      (Sql.order_by String.leb Project.name (projects_table (db request))).
Proof. intros H. unfold projects_query. by rewrite projects_statement_ok. Qed.

Lemma releases_query_ok project request terms :
  Forall (fun t => accepted t = true) terms ->
  releases_query project request terms =
    chosen (Views.version_filters Release.version terms)
      (Sql.order_by_desc Z.leb Release._pypi_ordering
         (List.filter (fun r => bool_decide (Release.project r = project))
            (releases_table (db request)))).
Proof. intros H. unfold releases_query. by rewrite releases_statement_ok. Qed.

Lemma journals_query_ok project request terms :
  Forall (fun t => accepted t = true) terms ->
  journals_query project request terms =
    chosen (Views.version_filters JournalEntry.version terms)
      (Sql.order_by_desc Z.leb JournalEntry.submitted_date
         (journal_entries_of project request)).
Proof. intros H. unfold journals_query. by rewrite journals_statement_ok. Qed.

(** A statement that answers answers its rows. *)
Lemma statement_rows {A} (statement : Query.t A) rows :
  statement = Ok rows -> rows_of statement = rows.
Proof. by intros ->. Qed.

(** ** The page of a statement *)

Lemma page_outcome {A B} entity (statement : Query.t A) n
    (k : Paginate.Page A -> B) log :
  (exists rows pg,
     statement = Ok rows /\
     bind (Paginate.SQLAlchemyORMPage entity statement n 25) (fun pg => ret (k pg)) log
       = (Ok (k pg), log ++ [Select entity; Count entity]) /\
     page_window rows n pg /\
     (1 <= Paginate.page pg)%Z /\
     (n <= 1 -> Paginate.page pg = 1)%Z) \/
  (exists e,
     statement = Raise e /\
     bind (Paginate.SQLAlchemyORMPage entity statement n 25) (fun pg => ret (k pg)) log
       = (Raise e, log ++ [Select entity])).
Proof.
  destruct statement as [rows|e] eqn:E.
  - left. destruct (page_run entity (Ok rows) rows n k log eq_refl) as (pg & H).
    by exists rows, pg.
  - right. exists e. split; [done|]. by apply page_raise.
Qed.

Lemma terms_accepted request terms :
  search_terms request terms -> patterns_accepted request = true ->
  Forall (fun term => accepted term = true) terms.
Proof.
  unfold search_terms, patterns_accepted.
  destruct (Py.truthy (params request !! "q")); [|by intros ->].
  intros ->. intros H. apply List.Forall_forall. by apply forallb_forall.
Qed.

Lemma term_not_accepted request terms term :
  search_terms request terms -> In term terms -> accepted term = false ->
  patterns_accepted request = false.
Proof.
  intros Ht Hin Ha. apply not_true_is_false. intros Hall.
  pose proof (terms_accepted _ _ Ht Hall) as HF.
  rewrite List.Forall_forall in HF. specialize (HF _ Hin). congruence.
Qed.

(** ** Project listing: the search terms *)

Lemma existsb_map {A B} (f : B -> bool) (g : A -> B) (l : list A) :
  existsb f (map g l) = existsb (fun x => f (g x)) l.
Proof. induction l as [|x l IH]; simpl; [done|]. by rewrite IH. Qed.

Lemma chosen_name_filters terms rows :
  terms <> [] ->
  chosen (Views.name_filters terms) rows =
    List.filter
      (fun p => existsb (fun term => matches (Project.name p) term) terms) rows.
Proof.
  intros Hne. rewrite name_filters_map.
  rewrite chosen_nonempty by (by destruct terms).
  apply filter_ext. intros p. by rewrite existsb_map.
Qed.

Lemma like_match_prefix s rest ts :
  wildcard_free s = true ->
  Sql.like_tokens rest = Some ts ->
  exists ts',
    Sql.like_tokens (s ++ rest)%string = Some ts' /\
    forall text,
      Sql.like_match ts' text =
        match drop_prefix s text with
        | Some text' => Sql.like_match ts text'
        | None => false
        end.
Proof.
  intros Hs Hrest.
  induction s as [|c s IH]; [by exists ts|].
  simpl in Hs. apply andb_true_iff in Hs as [Hc Hs].
  apply negb_true_iff in Hc.
  change (String c s ++ rest)%string with (String c (s ++ rest)%string).
  rewrite (like_tokens_plain _ _ Hc).
  destruct (IH Hs) as (ts' & -> & Hm).
  eexists. split; [reflexivity|]. intros [|d text]; [done|]. simpl.
  destruct (Ascii.eqb c d); [apply Hm|done].
Qed.

Lemma drop_prefix_eqb s text :
  match drop_prefix s text with
  | Some text' => String.eqb text' EmptyString
  | None => false
  end = String.eqb s text.
Proof.
  revert text. induction s as [|c s IH]; intros [|d text]; simpl; try done.
  destruct (Ascii.eqb c d); [apply IH|done].
Qed.

Lemma drop_prefix_prefix s text :
  match drop_prefix s text with Some _ => true | None => false end
    = String.prefix s text.
Proof.
  revert text. induction s as [|c s IH]; intros [|d text]; simpl; try done.
  destruct (ascii_dec c d) as [->|Hne].
  - rewrite Ascii.eqb_refl. apply IH.
  - apply Ascii.eqb_neq in Hne. by rewrite Hne.
Qed.

Lemma like_match_any text : Sql.like_match [Sql.LAnySeq] text = true.
Proof.
  induction text as [|c text IH]; [done|].
  simpl in *. exact IH.
Qed.

Lemma like_match_skip ts text :
  Sql.like_match (Sql.LAnySeq :: ts) text =
    Sql.like_match ts text ||
    match text with
    | String _ text' => Sql.like_match (Sql.LAnySeq :: ts) text'
    | EmptyString => false
    end.
Proof. by destruct text. Qed.

Lemma string_app_nil_r s : (s ++ "")%string = s.
Proof.
  induction s as [|c s IH]; [done|].
  change (String c s ++ "")%string with (String c (s ++ "")%string).
  by rewrite IH.
Qed.

Lemma string_app_assoc (s t u : string) :
  ((s ++ t) ++ u)%string = (s ++ (t ++ u))%string.
Proof.
  induction s as [|c s IH]; [done|].
  change (String c (((s ++ t) ++ u)%string) = String c ((s ++ (t ++ u))%string)).
  by rewrite IH.
Qed.

(** A term without special characters matches the texts equal to it up to
    case. *)
Lemma ilike_plain column term :
  wildcard_free term = true ->
  Sql.ilike column term = Ok (String.eqb (Py.lower term) (Py.lower column)).
Proof.
  intros H. unfold Sql.ilike.
  rewrite <- (wildcard_free_lower term) in H.
  destruct (like_match_prefix (Py.lower term) EmptyString [] H eq_refl)
    as (ts & Hts & Hm).
  rewrite string_app_nil_r in Hts. rewrite Hts, Hm. f_equal.
  apply drop_prefix_eqb.
Qed.

(** Such a term followed by [%] matches the texts that start with it. *)
Lemma ilike_prefix column term :
  wildcard_free term = true ->
  Sql.ilike column (term ++ "%") = Ok (String.prefix (Py.lower term) (Py.lower column)).
Proof.
  intros H. unfold Sql.ilike.
  rewrite <- (wildcard_free_lower term) in H.
  rewrite lower_app. change (Py.lower "%") with "%".
  destruct (like_match_prefix (Py.lower term) "%" [Sql.LAnySeq] H eq_refl)
    as (ts & -> & Hm).
  rewrite Hm, <- drop_prefix_prefix. f_equal.
  destruct (drop_prefix _ _); [apply like_match_any|done].
Qed.

(** Such a term between two [%] matches the texts in which it occurs. *)
Lemma ilike_infix column term :
  wildcard_free term = true ->
  Sql.ilike column ("%" ++ term ++ "%") = Ok (substring_match column term).
Proof.
  intros H. unfold Sql.ilike, substring_match.
  rewrite <- (wildcard_free_lower term) in H.
  change ("%" ++ term ++ "%")%string with (String "%" (term ++ "%")).
  change (Py.lower (String "%" (term ++ "%")))
    with (String "%" (Py.lower (term ++ "%"))).
  rewrite lower_app. change (Py.lower "%") with "%".
  destruct (like_match_prefix (Py.lower term) "%" [Sql.LAnySeq] H eq_refl)
    as (ts & Hts & Hm).
  change (Sql.like_tokens (String "%" (Py.lower term ++ "%")))
    with (cons Sql.LAnySeq <$> Sql.like_tokens (Py.lower term ++ "%")).
  rewrite Hts. cbn [fmap option_fmap option_map]. f_equal.
  generalize (Py.lower column). intros text.
  induction text as [|c text IH].
  - rewrite like_match_skip, Hm, orb_false_r.
    cbn [has_infix]. rewrite <- drop_prefix_prefix, orb_false_r.
    destruct (drop_prefix _ _); [apply like_match_any|done].
  - rewrite like_match_skip, IH, Hm.
    cbn [has_infix]. f_equal. rewrite <- drop_prefix_prefix.
    destruct (drop_prefix _ _); [apply like_match_any|done].
Qed.

Lemma matches_ilike column pattern b :
  Sql.ilike column pattern = Ok b -> matches column pattern = b.
Proof. unfold matches, holds. by intros ->. Qed.

(** C1, as the code has it: when the query text splits into at least one
    term and the database accepts every term as a pattern, [project_list]
    answers with the page of the projects whose whole name matches at least
    one term as a case-insensitive LIKE pattern; every project on the page
    matches at least one term in that way; and a term without [%], [_] and
    backslash matches the names that equal it up to case, and no other. *)
Theorem project_list_terms_ilike request q terms n :
  params request !! "q" = Some q ->
  Shlex.split q = Ok terms ->
  terms <> [] ->
  Forall (fun term => accepted term = true) terms ->
  page_param request n ->
  exists pg,
    run (Views.project_list request)
      = (Ok {| Views.projects := pg; Views.projects_query_echo := Some q |},
         [Select "Project"; Count "Project"]) /\
    page_window
      (List.filter
         (fun p => existsb (fun term => matches (Project.name p) term) terms)
         (Sql.order_by String.leb Project.name (projects_table (db request))))
      n pg /\
    (forall p, In p (Paginate.items pg) ->
       exists term, In term terms /\ Sql.ilike (Project.name p) term = Ok true) /\
    (forall term name, In term terms -> wildcard_free term = true ->
       Sql.ilike name term = Ok (String.eqb (Py.lower term) (Py.lower name))).
Proof.
  intros Hq Hsplit Hne Hall Hn.
  pose proof (search_terms_of_q _ _ _ Hq Hsplit) as Hterms.
  unfold run. rewrite (project_list_run _ _ _ _ Hn Hterms), Hq.
  destruct (page_run "Project" (projects_statement request terms) _ n
              (fun pg => {| Views.projects := pg;
                            Views.projects_query_echo := Some q |}) []
              (projects_statement_ok request terms Hall))
    as (pg & Hrun & Hwin & _).
  exists pg. split; [exact Hrun|].
  rewrite (chosen_name_filters _ _ Hne) in Hwin.
  split; [exact Hwin|]. split.
  - intros p Hp. destruct Hwin as (_ & _ & Hitems). rewrite Hitems in Hp.
    apply slice_In, filter_In in Hp as [_ Hp].
    apply existsb_exists in Hp as (term & Hin & Hm). exists term. split; [done|].
    rewrite List.Forall_forall in Hall.
    rewrite (ilike_accepted _ _ (Hall _ Hin)). by rewrite Hm.
  - intros term name _ Hfree. by apply ilike_plain.
Qed.

Lemma project_list_terms_ilike_witness :
  exists pg,
    run (Views.project_list (sample_request [("q", "f% 'b a' BAZ")] ""))
      = (Ok {| Views.projects := pg;
               Views.projects_query_echo := Some "f% 'b a' BAZ" |},
         [Select "Project"; Count "Project"]) /\
    page_window
      (List.filter
         (fun p => existsb (fun term => matches (Project.name p) term)
                     ["f%"; "b a"; "BAZ"])
         (Sql.order_by String.leb Project.name (projects_table sample_db)))
      1 pg /\
    (forall p, In p (Paginate.items pg) ->
       exists term, In term ["f%"; "b a"; "BAZ"] /\
                    Sql.ilike (Project.name p) term = Ok true) /\
    (forall term name, In term ["f%"; "b a"; "BAZ"] -> wildcard_free term = true ->
       Sql.ilike name term = Ok (String.eqb (Py.lower term) (Py.lower name))).
Proof.
  apply (project_list_terms_ilike (sample_request [("q", "f% 'b a' BAZ")] "")
           "f% 'b a' BAZ" ["f%"; "b a"; "BAZ"] 1%Z).
  - reflexivity.
  - reflexivity.
  - discriminate.
  - repeat constructor.
  - reflexivity.
Defined.

(** C1 as stated fails: a term with a wildcard returns a project in whose
    name the term does not occur; a term that occurs in a name without being
    the whole name does not return the project; and a query of blanks has no
    term and returns every project. *)
Lemma project_list_substring_counterexample :
  (Shlex.split "f%" = Ok ["f%"] /\
   run (Views.project_list (sample_request [("q", "f%")] ""))
     = (Ok {| Views.projects :=
                {| Paginate.page := 1; Paginate.items := [foobar];
                   Paginate.items_per_page := 25; Paginate.item_count := 1;
                   Paginate.page_count := 1 |};
              Views.projects_query_echo := Some "f%" |},
        [Select "Project"; Count "Project"]) /\
   substring_match (Project.name foobar) "f%" = false) /\
  (Shlex.split "foo" = Ok ["foo"] /\
   run (Views.project_list (sample_request [("q", "foo")] ""))
     = (Ok {| Views.projects :=
                {| Paginate.page := 1; Paginate.items := [];
                   Paginate.items_per_page := 25; Paginate.item_count := 0;
                   Paginate.page_count := 0 |};
              Views.projects_query_echo := Some "foo" |},
        [Select "Project"; Count "Project"]) /\
   substring_match (Project.name foobar) "foo" = true) /\
  (Shlex.split " " = Ok [] /\
   run (Views.project_list (sample_request [("q", " ")] ""))
     = (Ok {| Views.projects :=
                {| Paginate.page := 1; Paginate.items := [foobar; baz];
                   Paginate.items_per_page := 25; Paginate.item_count := 2;
                   Paginate.page_count := 1 |};
              Views.projects_query_echo := Some " " |},
        [Select "Project"; Count "Project"])).
Proof. repeat split; vm_compute; reflexivity. Qed.

(** ** PostgreSQL's matcher and LIKE *)

Lemma like_tokens_eq c p :
  Sql.like_tokens (String c p) =
    if Ascii.eqb c "\" then
      match p with
      | EmptyString => None
      | String c' p' => cons (Sql.LChar c') <$> Sql.like_tokens p'
      end
    else if Ascii.eqb c "%" then cons Sql.LAnySeq <$> Sql.like_tokens p
    else if Ascii.eqb c "_" then cons Sql.LAnyOne <$> Sql.like_tokens p
    else cons (Sql.LChar c) <$> Sql.like_tokens p.
Proof. destruct c as [[] [] [] [] [] [] [] []]; reflexivity. Qed.

Lemma MatchText_nil p : Sql.MatchText p EmptyString = Sql.match_end p.
Proof. by destruct p. Qed.

Lemma MatchText_eq c p d t :
  Sql.MatchText (String c p) (String d t) =
    if Ascii.eqb c "\" then
      match p with
      | EmptyString => Sql.LIKE_ERROR
      | String c' p' =>
          if Ascii.eqb c' d then Sql.MatchText p' t else Sql.LIKE_FALSE
      end
    else if Ascii.eqb c "%" then Sql.MatchStar p (String d t)
    else if Ascii.eqb c "_" then Sql.MatchText p t
    else if Ascii.eqb c d then Sql.MatchText p t else Sql.LIKE_FALSE.
Proof. destruct c as [[] [] [] [] [] [] [] []]; reflexivity. Qed.

Lemma MatchStar_eq c p t :
  Sql.MatchStar (String c p) t =
    if Ascii.eqb c "\" then
      match p with
      | EmptyString => Sql.LIKE_ERROR
      | String c' p' => scan_from c' p' t
      end
    else if Ascii.eqb c "%" then Sql.MatchStar p t
    else if Ascii.eqb c "_" then
      match t with
      | EmptyString => Sql.LIKE_ABORT
      | String _ t' => Sql.MatchStar p t'
      end
    else scan_from c p t.
Proof. destruct c as [[] [] [] [] [] [] [] []]; reflexivity. Qed.

(** The ends of a text. *)
Lemma end_of_tail d t v x u :
  String d t = (v ++ String x u)%string -> exists v', t = (v' ++ u)%string.
Proof.
  destruct v as [|y v].
  - intros [= _ ->]. by exists EmptyString.
  - change (String y v ++ String x u)%string with (String y (v ++ String x u)%string).
    intros [= _ ->]. exists (v ++ String x EmptyString)%string.
    rewrite string_app_assoc. done.
Qed.

Lemma end_of_nil v u : EmptyString = (v ++ u)%string -> u = EmptyString.
Proof.
  destruct v as [|y v].
  - change (EmptyString ++ u)%string with u. by intros <-.
  - change (String y v ++ u)%string with (String y (v ++ u)%string). done.
Qed.

Lemma end_of_end t v u v' u' :
  t = (v ++ u)%string -> u = (v' ++ u')%string -> t = ((v ++ v') ++ u')%string.
Proof. intros -> ->. by rewrite string_app_assoc. Qed.

(** A pattern that opens with [%] matches a text when the rest of the
    pattern matches an end of the text. *)
Lemma like_match_star_intro ts v u :
  Sql.like_match ts u = true -> Sql.like_match (Sql.LAnySeq :: ts) (v ++ u) = true.
Proof.
  intros Hu. induction v as [|x v IH].
  - rewrite like_match_skip. change (EmptyString ++ u)%string with u.
    by rewrite Hu.
  - change (String x v ++ u)%string with (String x (v ++ u)%string).
    rewrite like_match_skip, IH. apply orb_true_r.
Qed.

Lemma like_match_star_elim ts t :
  Sql.like_match (Sql.LAnySeq :: ts) t = true ->
  exists v u, t = (v ++ u)%string /\ Sql.like_match ts u = true.
Proof.
  induction t as [|x t IH]; rewrite like_match_skip.
  - rewrite orb_false_r. intros H. by exists EmptyString, EmptyString.
  - intros H. apply orb_true_iff in H as [H|H].
    + by exists EmptyString, (String x t).
    + destruct (IH H) as (v & u & -> & Hu). by exists (String x v), u.
Qed.

Lemma like_match_star_none ts t :
  (forall v u, t = (v ++ u)%string -> Sql.like_match ts u = false) ->
  forall v u, t = (v ++ u)%string -> Sql.like_match (Sql.LAnySeq :: ts) u = false.
Proof.
  intros Hnone v u Ht. apply not_true_is_false. intros Hu.
  apply like_match_star_elim in Hu as (v' & u' & Hu & Hm).
  rewrite (Hnone _ _ (end_of_end _ _ _ _ _ Ht Hu)) in Hm. done.
Qed.

(** After a character of the pattern that takes one character of the
    text. *)
Lemma agrees_step tok ts d t r :
  (forall x u, Sql.like_match (tok :: ts) (String x u) = true ->
               Sql.like_match ts u = true) ->
  Sql.like_match (tok :: ts) EmptyString = false ->
  Sql.like_match (tok :: ts) (String d t) = Sql.like_match ts t ->
  agrees ts t r -> agrees (tok :: ts) (String d t) r.
Proof.
  intros Htail Hnil Hhead. destruct r; unfold agrees; [| | |done].
  - intros H. by rewrite Hhead.
  - intros H. by rewrite Hhead.
  - intros Hnone v [|x u] Ht; [done|].
    apply not_true_is_false. intros Hm. apply Htail in Hm.
    destruct (end_of_tail _ _ _ _ _ Ht) as [v' Ht'].
    rewrite (Hnone _ _ Ht') in Hm. done.
Qed.

Lemma like_match_char c ts d t :
  Sql.like_match (Sql.LChar c :: ts) (String d t)
    = Ascii.eqb c d && Sql.like_match ts t.
Proof. reflexivity. Qed.

Lemma agrees_char c ts d t r :
  Ascii.eqb c d = true -> agrees ts t r -> agrees (Sql.LChar c :: ts) (String d t) r.
Proof.
  intros Hc. apply agrees_step.
  - intros x u. rewrite like_match_char. intros H.
    by apply andb_true_iff in H as [_ H].
  - done.
  - by rewrite like_match_char, Hc.
Qed.

Lemma agrees_one ts d t r :
  agrees ts t r -> agrees (Sql.LAnyOne :: ts) (String d t) r.
Proof. by apply agrees_step. Qed.

Lemma agrees_end p ts :
  Sql.like_tokens p = Some ts -> agrees ts EmptyString (Sql.match_end p).
Proof.
  revert ts. induction p as [|c p IH]; intros ts.
  - by intros [= <-].
  - rewrite like_tokens_eq. cbn [Sql.match_end].
    assert (Hnone : forall tok ts',
              Sql.like_match (tok :: ts') EmptyString = false ->
              agrees (tok :: ts') EmptyString Sql.LIKE_ABORT).
    { intros tok ts' H v u Hu. by rewrite (end_of_nil _ _ Hu). }
    destruct (Ascii.eqb_spec c "\") as [->|Hb].
    { destruct p as [|c' p']; [done|]. intros H.
      apply fmap_Some in H as (ts' & _ & ->). by apply Hnone. }
    destruct (Ascii.eqb_spec c "%") as [->|Hp].
    { intros H. apply fmap_Some in H as (ts' & H & ->).
      specialize (IH _ H). destruct (Sql.match_end p); unfold agrees in *.
      - by rewrite like_match_skip, IH.
      - by rewrite like_match_skip, IH.
      - intros v u Hu. rewrite (end_of_nil _ _ Hu).
        rewrite like_match_skip, (IH EmptyString EmptyString eq_refl). done.
      - done. }
    destruct (Ascii.eqb_spec c "_") as [->|Hu].
    { intros H. apply fmap_Some in H as (ts' & _ & ->). by apply Hnone. }
    intros H. apply fmap_Some in H as (ts' & _ & ->). by apply Hnone.
Qed.

(** The search after a [%] for a character of the pattern. *)
Lemma agrees_scan c p ts :
  (forall t, agrees ts t (Sql.MatchText p t)) ->
  forall t, agrees_star (Sql.LChar c :: ts) t (scan_from c p t).
Proof.
  intros Hp. induction t as [|d t IH].
  - intros v u Hu. by rewrite (end_of_nil _ _ Hu).
  - cbn [scan_from]. fold (scan_from c p).
    assert (Hnext : agrees_star (Sql.LChar c :: ts) t (scan_from c p t) ->
                    Sql.like_match (Sql.LChar c :: ts) (String d t) = false ->
                    agrees_star (Sql.LChar c :: ts) (String d t) (scan_from c p t)).
    { intros Hs Hd. destruct (scan_from c p t); unfold agrees_star in *.
      - rewrite like_match_skip, Hs. apply orb_true_r.
      - done.
      - intros [|y v] u.
        + change (EmptyString ++ u)%string with u. by intros <-.
        + change (String y v ++ u)%string with (String y (v ++ u)%string).
          intros [= _ ->]. by apply (Hs v).
      - done. }
    destruct (Ascii.eqb c d) eqn:Hc.
    + specialize (Hp t). destruct (Sql.MatchText p t) eqn:Hm.
      * unfold agrees in Hp. unfold agrees_star.
        by rewrite like_match_skip, like_match_char, Hc, Hp.
      * unfold agrees in Hp. apply Hnext; [exact IH|].
        by rewrite like_match_char, Hc, Hp.
      * apply (agrees_char c ts d t Sql.LIKE_ABORT Hc) in Hp. exact Hp.
      * done.
    + apply Hnext; [exact IH|]. by rewrite like_match_char, Hc.
Qed.

Lemma like_match_star_one ts x t :
  Sql.like_match (Sql.LAnySeq :: ts) t = true ->
  Sql.like_match (Sql.LAnySeq :: Sql.LAnyOne :: ts) (String x t) = true.
Proof.
  intros H. apply like_match_star_elim in H as (v & u & -> & Hu).
  destruct v as [|y v].
  - apply (like_match_star_intro _ EmptyString (String x u)). exact Hu.
  - change (String x (String y v ++ u))
      with (String x (String y (v ++ u)%string)).
    assert (Hsplit : exists v' z, String x (String y v) = (v' ++ String z EmptyString)%string).
    { clear. revert x y. induction v as [|w v IH]; intros x y.
      - by exists (String x EmptyString), y.
      - destruct (IH y w) as (v' & z & Hv). exists (String x v'), z.
        change (String x v' ++ String z "")%string
          with (String x (v' ++ String z "")%string). by rewrite <- Hv. }
    destruct Hsplit as (v' & z & Hv).
    replace (String x (String y (v ++ u)%string))
      with (v' ++ String z u)%string.
    + by apply like_match_star_intro.
    + change (String z u) with (String z EmptyString ++ u)%string.
      rewrite <- string_app_assoc, <- Hv. done.
Qed.

(** On a pattern that the database accepts, PostgreSQL's matcher agrees
    with LIKE. *)
Lemma MatchText_agrees n : forall p ts,
  String.length p < n ->
  Sql.like_tokens p = Some ts ->
  (forall t, agrees ts t (Sql.MatchText p t)) /\
  (forall t, agrees_star ts t (Sql.MatchStar p t)).
Proof.
  induction n as [|n IH]; intros p ts Hlen Hts; [lia|].
  assert (Htext : forall c p' ts',
            String.length p' < n ->
            Sql.like_tokens p' = Some ts' ->
            forall d t,
              agrees (Sql.LChar c :: ts') (String d t)
                (if Ascii.eqb c d then Sql.MatchText p' t else Sql.LIKE_FALSE)).
  { intros c p' ts' Hlen' Hts' d t.
    destruct (IH p' ts' Hlen' Hts') as [HT _].
    destruct (Ascii.eqb c d) eqn:Hc; [by apply agrees_char|].
    unfold agrees. by rewrite like_match_char, Hc. }
  assert (Hscan : forall c p' ts',
            String.length p' < n ->
            Sql.like_tokens p' = Some ts' ->
            forall t, agrees_star (Sql.LChar c :: ts') t (scan_from c p' t)).
  { intros c p' ts' Hlen' Hts'. apply agrees_scan.
    by destruct (IH p' ts' Hlen' Hts') as [HT _]. }
  destruct p as [|c p].
  { injection Hts as <-. split.
    - intros [|d t]; reflexivity.
    - intros t. apply like_match_any. }
  cbn [String.length] in Hlen. rewrite like_tokens_eq in Hts.
  split.
  - intros [|d t].
    { rewrite MatchText_nil. apply agrees_end. by rewrite like_tokens_eq. }
    rewrite MatchText_eq.
    destruct (Ascii.eqb c "\").
    { destruct p as [|c' p']; [done|].
      apply fmap_Some in Hts as (ts' & Hts' & ->).
      apply Htext; [cbn [String.length] in Hlen; lia|done]. }
    destruct (Ascii.eqb c "%").
    { apply fmap_Some in Hts as (ts' & Hts' & ->).
      destruct (IH p ts' ltac:(lia) Hts') as [_ HS]. specialize (HS (String d t)).
      destruct (Sql.MatchStar p (String d t)); unfold agrees, agrees_star in *;
        try done.
      by apply like_match_star_none. }
    destruct (Ascii.eqb c "_").
    { apply fmap_Some in Hts as (ts' & Hts' & ->).
      destruct (IH p ts' ltac:(lia) Hts') as [HT _]. by apply agrees_one. }
    apply fmap_Some in Hts as (ts' & Hts' & ->).
    apply Htext; [lia|done].
  - intros t. rewrite MatchStar_eq.
    destruct (Ascii.eqb c "\").
    { destruct p as [|c' p']; [done|].
      apply fmap_Some in Hts as (ts' & Hts' & ->).
      apply Hscan; [cbn [String.length] in Hlen; lia|done]. }
    destruct (Ascii.eqb c "%").
    { apply fmap_Some in Hts as (ts' & Hts' & ->).
      destruct (IH p ts' ltac:(lia) Hts') as [_ HS]. specialize (HS t).
      destruct (Sql.MatchStar p t); unfold agrees_star in *; try done.
      - rewrite (like_match_skip (Sql.LAnySeq :: ts')). by rewrite HS.
      - by apply like_match_star_none. }
    destruct (Ascii.eqb c "_").
    { apply fmap_Some in Hts as (ts' & Hts' & ->).
      destruct (IH p ts' ltac:(lia) Hts') as [_ HS].
      destruct t as [|x t].
      - intros v u Hu. by rewrite (end_of_nil _ _ Hu).
      - specialize (HS t).
        destruct (Sql.MatchStar p t); unfold agrees_star in *; try done.
        + by apply like_match_star_one.
        + intros v [|y u] Hu; [done|].
          destruct (end_of_tail _ _ _ _ _ Hu) as [v' Hu'].
          change (Sql.like_match (Sql.LAnyOne :: ts') (String y u))
            with (Sql.like_match ts' u).
          by apply (HS v'). }
    apply fmap_Some in Hts as (ts' & Hts' & ->).
    apply Hscan; [lia|done].
Qed.

(** A pattern that ends in a lone backslash matches no text. *)
Lemma match_end_true p :
  Sql.match_end p = Sql.LIKE_TRUE -> is_Some (Sql.like_tokens p).
Proof.
  induction p as [|c p IH]; [by eexists|].
  cbn [Sql.match_end]. rewrite like_tokens_eq.
  destruct (Ascii.eqb_spec c "%") as [->|Hc]; [|done].
  intros H. cbn [Ascii.eqb Bool.eqb]. rewrite fmap_is_Some. by apply IH.
Qed.

Lemma scan_never c p :
  (forall t, Sql.MatchText p t <> Sql.LIKE_TRUE) ->
  forall t, scan_from c p t <> Sql.LIKE_TRUE.
Proof.
  intros Hp. induction t as [|d t IH]; [done|].
  cbn [scan_from]. fold (scan_from c p).
  destruct (Ascii.eqb c d); [|exact IH].
  specialize (Hp t). by destruct (Sql.MatchText p t).
Qed.

Lemma MatchText_dangling n : forall p,
  String.length p < n ->
  Sql.like_tokens p = None ->
  (forall t, Sql.MatchText p t <> Sql.LIKE_TRUE) /\
  (forall t, Sql.MatchStar p t <> Sql.LIKE_TRUE).
Proof.
  induction n as [|n IH]; intros p Hlen Hts; [lia|].
  destruct p as [|c p]; [done|].
  cbn [String.length] in Hlen.
  pose proof Hts as Hts'. rewrite like_tokens_eq in Hts'.
  split.
  - intros [|d t].
    { rewrite MatchText_nil. intros H. apply match_end_true in H as [ts H].
      congruence. }
    rewrite MatchText_eq.
    destruct (Ascii.eqb c "\").
    { destruct p as [|c' p']; [done|].
      apply fmap_None in Hts'. cbn [String.length] in Hlen.
      destruct (Ascii.eqb c' d); [|done]. apply (IH p'); [lia|done]. }
    destruct (Ascii.eqb c "%").
    { apply fmap_None in Hts'. apply (IH p); [lia|done]. }
    destruct (Ascii.eqb c "_").
    { apply fmap_None in Hts'. apply (IH p); [lia|done]. }
    apply fmap_None in Hts'.
    destruct (Ascii.eqb c d); [|done]. apply (IH p); [lia|done].
  - intros t. rewrite MatchStar_eq.
    destruct (Ascii.eqb c "\").
    { destruct p as [|c' p']; [done|].
      apply fmap_None in Hts'. cbn [String.length] in Hlen.
      apply scan_never. apply (IH p'); [lia|done]. }
    destruct (Ascii.eqb c "%").
    { apply fmap_None in Hts'. apply (IH p); [lia|done]. }
    destruct (Ascii.eqb c "_").
    { apply fmap_None in Hts'. destruct t as [|x t]; [done|].
      apply (IH p); [lia|done]. }
    apply fmap_None in Hts'. apply scan_never. apply (IH p); [lia|done].
Qed.

(** On every pattern [ILIKE] is what PostgreSQL's matcher answers on the
    lower-cased operands: its error is the error of the statement, and
    every answer but true is false. *)
Lemma ilike_MatchText column pattern :
  Sql.ilike column pattern =
    match Sql.MatchText (Py.lower pattern) (Py.lower column) with
    | Sql.LIKE_TRUE => Ok true
    | Sql.LIKE_ERROR => Raise Sql.bad_escape
    | _ => Ok false
    end.
Proof.
  unfold Sql.ilike.
  destruct (Sql.like_tokens (Py.lower pattern)) as [ts|] eqn:Hts.
  2: { destruct (MatchText_dangling _ _ (Nat.lt_succ_diag_r _) Hts) as [HT _].
       specialize (HT (Py.lower column)). by destruct (Sql.MatchText _ _). }
  destruct (MatchText_agrees _ _ _ (Nat.lt_succ_diag_r _) Hts) as [HT _].
  specialize (HT (Py.lower column)).
  destruct (Sql.MatchText _ _); unfold agrees in HT; try done; f_equal; try done.
  by apply (HT EmptyString).
Qed.

(** ** The ways out of the views *)

Lemma shlex_tokens_raise input : forall st token quoted e,
  Shlex.tokens st token quoted input = Raise e ->
  e = ValueError "No closing quotation" \/ e = ValueError "No escaped character".
Proof.
  induction input as [|c input IH]; intros st token quoted e.
  - destruct st; simpl; intros H; inversion H; auto.
  - destruct st; cbn [Shlex.tokens].
    + repeat (match goal with |- context [if ?b then _ else _] => destruct b end);
        apply IH.
    + destruct (Shlex.whitespace c).
      * destruct (Shlex.tokens Shlex.InSpace EmptyString false input) eqn:E;
          [discriminate|].
        intros H. inversion H; subst. eapply IH, E.
      * repeat (match goal with |- context [if ?b then _ else _] => destruct b end);
          apply IH.
    + repeat (match goal with |- context [if ?b then _ else _] => destruct b end);
        apply IH.
    + apply IH.
Qed.

Lemma search_terms_cases request :
  (exists terms, search_terms request terms /\ rejected_query request = None) \/
  (exists msg, rejected_query request = Some msg /\
     Py.truthy (params request !! "q") = true /\
     Shlex.split (default EmptyString (params request !! "q")) = Raise (ValueError msg)).
Proof.
  unfold search_terms, rejected_query.
  destruct (Py.truthy (params request !! "q")); [|left; by exists []].
  destruct (Shlex.split _) as [terms|e] eqn:E; [left; by exists terms|].
  right. apply shlex_tokens_raise in E as [->| ->]; eexists; by repeat split.
Qed.

Lemma canonical_cases project request log :
  (canonical project request /\ noncanonical project request = false /\
   Views.canonical_or_redirect project request log = (Ok tt, log)) \/
  (noncanonical project request = true /\
   Views.canonical_or_redirect project request log = (Raise (moved project request), log)) \/
  (matchdict request !! "project_name" = None /\
   Views.canonical_or_redirect project request log = (Raise (KeyError "project_name"), log)).
Proof.
  unfold canonical, noncanonical, Views.canonical_or_redirect, getitem, bind, ret, raise.
  destruct (matchdict request !! "project_name") as [pn|]; [|by right; right].
  destruct (String.eqb_spec pn (Project.normalized_name project)) as [->|Hne].
  - left. by repeat split.
  - right; left. by split.
Qed.

Lemma project_list_bad_page request s log :
  params request !! "page" = Some s -> Py.int s = None ->
  Views.project_list request log = (Raise bad_page, log).
Proof.
  intros Hp Hs. unfold Views.project_list, bind.
  by rewrite (page_num_bad _ _ _ Hp Hs).
Qed.

Lemma project_list_bad_query request n msg log :
  page_param request n ->
  Py.truthy (params request !! "q") = true ->
  Shlex.split (default EmptyString (params request !! "q")) = Raise (ValueError msg) ->
  Views.project_list request log = (Raise (ValueError msg), log).
Proof.
  intros Hn Hq Hs. unfold Views.project_list.
  unfold bind at 1. rewrite (page_num_ok _ _ _ Hn).
  unfold bind at 1. rewrite Hq. unfold bind at 1, lift. by rewrite Hs.
Qed.

Lemma project_detail_redirect project request project_name log :
  matchdict request !! "project_name" = Some project_name ->
  project_name <> Project.normalized_name project ->
  Views.project_detail project request log = (Raise (moved project request), log).
Proof.
  intros Hm Hne. unfold Views.project_detail, bind.
  by rewrite (canonical_redirect _ _ _ _ Hm Hne).
Qed.

Lemma releases_list_redirect project request project_name log :
  matchdict request !! "project_name" = Some project_name ->
  project_name <> Project.normalized_name project ->
  Views.releases_list project request log = (Raise (moved project request), log).
Proof.
  intros Hm Hne. unfold Views.releases_list, bind.
  by rewrite (canonical_redirect _ _ _ _ Hm Hne).
Qed.

Lemma journals_list_redirect project request project_name log :
  matchdict request !! "project_name" = Some project_name ->
  project_name <> Project.normalized_name project ->
  Views.journals_list project request log = (Raise (moved project request), log).
Proof.
  intros Hm Hne. unfold Views.journals_list, bind.
  by rewrite (canonical_redirect _ _ _ _ Hm Hne).
Qed.

Lemma releases_list_bad_page project request s log :
  canonical project request ->
  params request !! "page" = Some s -> Py.int s = None ->
  Views.releases_list project request log = (Raise bad_page, log).
Proof.
  intros Hc Hp Hs. unfold Views.releases_list.
  unfold bind at 1. rewrite (canonical_ok _ _ _ Hc).
  unfold bind at 1. by rewrite (page_num_bad _ _ _ Hp Hs).
Qed.

Lemma journals_list_bad_page project request s log :
  canonical project request ->
  params request !! "page" = Some s -> Py.int s = None ->
  Views.journals_list project request log = (Raise bad_page, log).
Proof.
  intros Hc Hp Hs. unfold Views.journals_list.
  unfold bind at 1. rewrite (canonical_ok _ _ _ Hc).
  unfold bind at 1. by rewrite (page_num_bad _ _ _ Hp Hs).
Qed.

Lemma releases_list_bad_query project request n msg log :
  canonical project request -> page_param request n ->
  Py.truthy (params request !! "q") = true ->
  Shlex.split (default EmptyString (params request !! "q")) = Raise (ValueError msg) ->
  Views.releases_list project request log = (Raise (ValueError msg), log).
Proof.
  intros Hc Hn Hq Hs. unfold Views.releases_list.
  unfold bind at 1. rewrite (canonical_ok _ _ _ Hc).
  unfold bind at 1. rewrite (page_num_ok _ _ _ Hn).
  unfold bind at 1. rewrite Hq. unfold bind at 1, lift. by rewrite Hs.
Qed.

Lemma journals_list_bad_query project request n msg log :
  canonical project request -> page_param request n ->
  Py.truthy (params request !! "q") = true ->
  Shlex.split (default EmptyString (params request !! "q")) = Raise (ValueError msg) ->
  Views.journals_list project request log = (Raise (ValueError msg), log).
Proof.
  intros Hc Hn Hq Hs. unfold Views.journals_list.
  unfold bind at 1. rewrite (canonical_ok _ _ _ Hc).
  unfold bind at 1. rewrite (page_num_ok _ _ _ Hn).
  unfold bind at 1. rewrite Hq. unfold bind at 1, lift. by rewrite Hs.
Qed.

Lemma project_detail_run project request log :
  canonical project request ->
  exists vm,
    Views.project_detail project request log
      = (Ok vm, log ++ [Select "Role"; Select "JournalEntry"]) /\
    Views.detail_project vm = project /\
    Views.maintainers vm =
      Py.sorted (fun x => (Role.role_name x, User.username (Role.user x)))
        (Sql.distinct (fun r => User.username (Role.user r))
           (List.filter (fun r => bool_decide (Role.project r = project))
              (roles_table (db request)))) /\
    Views.journal vm =
      Sql.limit 50
        (Sql.order_by_desc Z.leb JournalEntry.submitted_date
           (journal_entries_of project request)).
Proof.
  intros Hc. unfold Views.project_detail.
  unfold bind at 1. rewrite (canonical_ok _ _ _ Hc).
  cbn [Query.query Query.filter]. rewrite !filter_equals.
  unfold bind, fetch, execute, ret, lift. simpl. rewrite <- app_assoc. simpl.
  eexists. split; [reflexivity|]. by repeat split.
Qed.

Lemma page_param_not_malformed request n :
  page_param request n -> page_malformed request = false.
Proof.
  unfold page_param, page_malformed.
  destruct (params request !! "page") as [s|]; [|done]. by intros ->.
Qed.

Lemma page_bad_malformed request s :
  params request !! "page" = Some s -> Py.int s = None ->
  page_malformed request = true.
Proof. unfold page_malformed. by intros -> ->. Qed.

(** The exception of a listing whose page and terms are well formed: none
    when the database answers the statement, else its error. *)
Lemma listing_surfaces {A B} entity (statement : Query.t A) request terms n
    (k : Paginate.Page A -> B) log :
  search_terms request terms ->
  (forall e, statement = Raise e ->
     e = Sql.bad_escape /\ exists term, In term terms /\ accepted term = false) ->
  surfaces request None
    (bind (Paginate.SQLAlchemyORMPage entity statement n 25)
       (fun pg => ret (k pg)) log).
Proof.
  intros Ht Hraise.
  destruct (page_outcome entity statement n k log)
    as [(rows & pg & _ & -> & _)|(e & He & ->)].
  - by left.
  - right. destruct (Hraise e He) as (-> & term & Hin & Ha).
    split; [done|]. split; [|done]. by apply (term_not_accepted request terms term).
Qed.

Lemma project_list_error request log :
  surfaces request (listing_error request) (Views.project_list request log).
Proof.
  unfold listing_error.
  destruct (page_num_cases request log) as [(n & Hn & _)|(s & Hp & Hs & _)].
  - rewrite (page_param_not_malformed _ _ Hn).
    destruct (search_terms_cases request) as [(terms & Ht & ->)|(msg & -> & Hq & Hsp)].
    + rewrite (project_list_run _ _ _ _ Hn Ht).
      apply (listing_surfaces _ _ _ terms); [done|].
      apply projects_statement_raise.
    + left. by rewrite (project_list_bad_query _ _ _ _ Hn Hq Hsp).
  - left. rewrite (page_bad_malformed _ _ Hp Hs).
    by rewrite (project_list_bad_page _ _ _ Hp Hs).
Qed.

Lemma releases_list_canonical_error project request log :
  canonical project request ->
  surfaces request (listing_error request) (Views.releases_list project request log).
Proof.
  intros Hc. unfold listing_error.
  destruct (page_num_cases request log) as [(n & Hn & _)|(s & Hp & Hs & _)].
  - rewrite (page_param_not_malformed _ _ Hn).
    destruct (search_terms_cases request) as [(terms & Ht & ->)|(msg & -> & Hq & Hsp)].
    + rewrite (releases_list_run _ _ _ _ _ Hc Hn Ht).
      apply (listing_surfaces _ _ _ terms); [done|].
      apply releases_statement_raise.
    + left. by rewrite (releases_list_bad_query _ _ _ _ _ Hc Hn Hq Hsp).
  - left. rewrite (page_bad_malformed _ _ Hp Hs).
    by rewrite (releases_list_bad_page _ _ _ _ Hc Hp Hs).
Qed.

Lemma journals_list_canonical_error project request log :
  canonical project request ->
  surfaces request (listing_error request) (Views.journals_list project request log).
Proof.
  intros Hc. unfold listing_error.
  destruct (page_num_cases request log) as [(n & Hn & _)|(s & Hp & Hs & _)].
  - rewrite (page_param_not_malformed _ _ Hn).
    destruct (search_terms_cases request) as [(terms & Ht & ->)|(msg & -> & Hq & Hsp)].
    + rewrite (journals_list_run _ _ _ _ _ Hc Hn Ht).
      apply (listing_surfaces _ _ _ terms); [done|].
      apply journals_statement_raise.
    + left. by rewrite (journals_list_bad_query _ _ _ _ _ Hc Hn Hq Hsp).
  - left. rewrite (page_bad_malformed _ _ Hp Hs).
    by rewrite (journals_list_bad_page _ _ _ _ Hc Hp Hs).
Qed.

(** A view that opens with the check of the path raises what the check
    raises, and otherwise what it raises on a canonical request. *)
Lemma path_error_of {A} (view : View A) project request inner log :
  (canonical project request -> error_of (view log) = inner) ->
  (forall e, Views.canonical_or_redirect project request log = (Raise e, log) ->
             view log = (Raise e, log)) ->
  error_of (view log) = path_error project request inner.
Proof.
  intros Hok Hraise. unfold path_error.
  destruct (canonical_cases project request log)
    as [(Hc & Hnc & _)|[(Hnc & Hr)|(Hm & Hr)]].
  - unfold canonical in Hc. rewrite Hnc. rewrite Hc at 1. by apply Hok.
  - rewrite (Hraise _ Hr), Hnc.
    unfold noncanonical in Hnc.
    by destruct (matchdict request !! "project_name").
  - by rewrite (Hraise _ Hr), Hm.
Qed.

Lemma path_surfaces {A} (view : View A) project request inner log :
  (canonical project request -> surfaces request inner (view log)) ->
  (forall e, Views.canonical_or_redirect project request log = (Raise e, log) ->
             view log = (Raise e, log)) ->
  surfaces request (path_error project request inner) (view log).
Proof.
  intros Hok Hraise. unfold path_error.
  destruct (canonical_cases project request log)
    as [(Hc & Hnc & _)|[(Hnc & Hr)|(Hm & Hr)]].
  - unfold canonical in Hc. rewrite Hnc. rewrite Hc at 1. by apply Hok.
  - left. rewrite (Hraise _ Hr), Hnc.
    unfold noncanonical in Hnc.
    by destruct (matchdict request !! "project_name").
  - left. by rewrite (Hraise _ Hr), Hm.
Qed.

Lemma project_detail_error project request log :
  error_of (Views.project_detail project request log) = path_error project request None.
Proof.
  apply path_error_of.
  - intros Hc. by destruct (project_detail_run project request log Hc) as (vm & -> & _).
  - intros e He. unfold Views.project_detail, bind. by rewrite He.
Qed.

Lemma releases_list_error project request log :
  surfaces request (path_error project request (listing_error request))
    (Views.releases_list project request log).
Proof.
  apply path_surfaces.
  - apply releases_list_canonical_error.
  - intros e He. unfold Views.releases_list, bind. by rewrite He.
Qed.

Lemma journals_list_error project request log :
  surfaces request (path_error project request (listing_error request))
    (Views.journals_list project request log).
Proof.
  apply path_surfaces.
  - apply journals_list_canonical_error.
  - intros e He. unfold Views.journals_list, bind. by rewrite He.
Qed.

Lemma listing_error_not_bad_request request n detail :
  page_param request n -> listing_error request <> Some (HTTPBadRequest detail).
Proof.
  intros Hn. unfold listing_error. rewrite (page_param_not_malformed _ _ Hn).
  by destruct (rejected_query request).
Qed.

Lemma path_error_not_bad_request project request inner detail :
  inner <> Some (HTTPBadRequest detail) ->
  path_error project request inner <> Some (HTTPBadRequest detail).
Proof.
  intros Hin. unfold path_error, moved.
  destruct (matchdict request !! "project_name"); [|done].
  by destruct (noncanonical project request).
Qed.

(** What surfaces is the expected exception or the error of the database. *)
Lemma surfaces_not {A} request expected (r : result A * list statement) e :
  surfaces request expected r ->
  expected <> Some e -> e <> Sql.bad_escape -> error_of r <> Some e.
Proof.
  intros [->|(_ & _ & ->)] Hexp He; [done|]. intros [= H]. by apply He.
Qed.


(** ** The [page] parameter *)

(** C2, as the code has it: with a [page] parameter that is not an integer,
    [project_list] always fails with the bad request whose message states
    the requirement, and [releases_list] and [journals_list] do so when the
    path is canonical; with a [page] parameter that is an integer none of
    the three raises a bad request. *)
Theorem page_must_be_integer project request s :
  params request !! "page" = Some s ->
  (Py.int s = None ->
     run (Views.project_list request)
       = (Raise (HTTPBadRequest "'page' must be an integer."), []) /\
     (canonical project request ->
        run (Views.releases_list project request)
          = (Raise (HTTPBadRequest "'page' must be an integer."), []) /\
        run (Views.journals_list project request)
          = (Raise (HTTPBadRequest "'page' must be an integer."), []))) /\
  (forall n, Py.int s = Some n ->
     forall detail,
       error_of (run (Views.project_list request)) <> Some (HTTPBadRequest detail) /\
       error_of (run (Views.releases_list project request))
         <> Some (HTTPBadRequest detail) /\
       error_of (run (Views.journals_list project request))
         <> Some (HTTPBadRequest detail)).
Proof.
  intros Hp. split.
  - intros Hs. split; [exact (project_list_bad_page _ _ _ Hp Hs)|].
    intros Hc. split.
    + exact (releases_list_bad_page _ _ _ _ Hc Hp Hs).
    + exact (journals_list_bad_page _ _ _ _ Hc Hp Hs).
  - intros n Hs detail.
    assert (Hn : page_param request n) by (unfold page_param; by rewrite Hp).
    unfold run.
    pose proof (listing_error_not_bad_request request n detail Hn) as Hl.
    split; [|split].
    + by apply (surfaces_not _ _ _ _ (project_list_error request [])).
    + apply (surfaces_not _ _ _ _ (releases_list_error project request []));
        [by apply path_error_not_bad_request|done].
    + apply (surfaces_not _ _ _ _ (journals_list_error project request []));
        [by apply path_error_not_bad_request|done].
Qed.

Lemma page_must_be_integer_witness :
  run (Views.project_list (sample_request [("page", "x")] "baz"))
    = (Raise (HTTPBadRequest "'page' must be an integer."), []) /\
  run (Views.releases_list baz (sample_request [("page", "x")] "baz"))
    = (Raise (HTTPBadRequest "'page' must be an integer."), []) /\
  error_of (run (Views.journals_list baz (sample_request [("page", " 2 ")] "baz")))
    <> Some (HTTPBadRequest "'page' must be an integer.").
Proof.
  destruct (page_must_be_integer baz (sample_request [("page", "x")] "baz") "x"
              eq_refl) as [Hbad _].
  destruct (Hbad eq_refl) as [Hlist Hproject].
  destruct (Hproject eq_refl) as [Hreleases _].
  destruct (page_must_be_integer baz (sample_request [("page", " 2 ")] "baz") " 2 "
              eq_refl) as [_ Hgood].
  destruct (Hgood 2%Z eq_refl "'page' must be an integer.") as (_ & _ & Hjournals).
  exact (conj Hlist (conj Hreleases Hjournals)).
Defined.

(** C2 as stated fails for the two project listings: with a path that is
    not canonical, a [page] that is not an integer is answered by the
    redirect. *)
Lemma page_error_behind_redirect_counterexample :
  params (sample_request [("page", "x")] "Baz") !! "page" = Some "x" /\
  Py.int "x" = None /\
  run (Views.releases_list baz (sample_request [("page", "x")] "Baz"))
    = (Raise (HTTPMovedPermanently "/admin/projects/baz/"), []) /\
  run (Views.journals_list baz (sample_request [("page", "x")] "Baz"))
    = (Raise (HTTPMovedPermanently "/admin/projects/baz/"), []).
Proof. repeat split. Qed.

(** ** The canonical path *)

(** C3: a project view whose path does not name the project by its
    normalized name raises the permanent redirect to the path with the
    normalized name, and the log of statements is the one at entry: nothing
    was sent to the database; with the normalized name in the path no
    redirect is raised. *)
Theorem noncanonical_path_redirects project request project_name log :
  matchdict request !! "project_name" = Some project_name ->
  (project_name <> Project.normalized_name project ->
     let redirect :=
       HTTPMovedPermanently
         (current_route_path request (Project.normalized_name project)) in
     Views.project_detail project request log = (Raise redirect, log) /\
     Views.releases_list project request log = (Raise redirect, log) /\
     Views.journals_list project request log = (Raise redirect, log)) /\
  (project_name = Project.normalized_name project ->
     forall location,
       error_of (Views.project_detail project request log)
         <> Some (HTTPMovedPermanently location) /\
       error_of (Views.releases_list project request log)
         <> Some (HTTPMovedPermanently location) /\
       error_of (Views.journals_list project request log)
         <> Some (HTTPMovedPermanently location)).
Proof.
  intros Hm. split.
  - intros Hne. cbv zeta. repeat split.
    + exact (project_detail_redirect _ _ _ _ Hm Hne).
    + exact (releases_list_redirect _ _ _ _ Hm Hne).
    + exact (journals_list_redirect _ _ _ _ Hm Hne).
  - intros -> location.
    assert (Hinner : path_error project request (listing_error request)
                       <> Some (HTTPMovedPermanently location)).
    { unfold path_error, noncanonical. rewrite Hm, String.eqb_refl. simpl.
      unfold listing_error. destruct (page_malformed request); [done|].
      by destruct (rejected_query request). }
    split; [|split].
    + rewrite project_detail_error.
      unfold path_error, noncanonical. by rewrite Hm, String.eqb_refl.
    + by apply (surfaces_not _ _ _ _ (releases_list_error project request log)).
    + by apply (surfaces_not _ _ _ _ (journals_list_error project request log)).
Qed.

Lemma noncanonical_path_redirects_witness :
  Views.project_detail baz (sample_request [] "Baz") []
    = (Raise (HTTPMovedPermanently "/admin/projects/baz/"), []) /\
  error_of (Views.project_detail baz (sample_request [] "baz") [])
    <> Some (HTTPMovedPermanently "/admin/projects/baz/").
Proof.
  destruct (noncanonical_path_redirects baz (sample_request [] "Baz") "Baz" []
              eq_refl) as [Hmoved _].
  destruct (noncanonical_path_redirects baz (sample_request [] "baz") "baz" []
              eq_refl) as [_ Hstays].
  split.
  - apply Hmoved. discriminate.
  - apply (Hstays eq_refl).
Defined.

(** C10: in [releases_list] and [journals_list] the check of the path comes
    before the check of [page]: a request whose path is not canonical and
    whose [page] is not an integer is answered by the redirect. *)
Theorem redirect_precedes_page_check project request project_name s :
  matchdict request !! "project_name" = Some project_name ->
  project_name <> Project.normalized_name project ->
  params request !! "page" = Some s ->
  Py.int s = None ->
  let redirect :=
    HTTPMovedPermanently
      (current_route_path request (Project.normalized_name project)) in
  run (Views.releases_list project request) = (Raise redirect, []) /\
  run (Views.journals_list project request) = (Raise redirect, []) /\
  forall detail,
    error_of (run (Views.releases_list project request))
      <> Some (HTTPBadRequest detail) /\
    error_of (run (Views.journals_list project request))
      <> Some (HTTPBadRequest detail).
Proof.
  intros Hm Hne _ _. cbv zeta. unfold run.
  rewrite (releases_list_redirect _ _ _ _ Hm Hne).
  rewrite (journals_list_redirect _ _ _ _ Hm Hne).
  by repeat split.
Qed.

Lemma redirect_precedes_page_check_witness :
  run (Views.releases_list baz (sample_request [("page", "1.5")] "BAZ"))
    = (Raise (HTTPMovedPermanently "/admin/projects/baz/"), []) /\
  run (Views.journals_list baz (sample_request [("page", "1.5")] "BAZ"))
    = (Raise (HTTPMovedPermanently "/admin/projects/baz/"), []).
Proof.
  destruct (redirect_precedes_page_check baz
              (sample_request [("page", "1.5")] "BAZ") "BAZ" "1.5")
    as (Hr & Hj & _).
  - reflexivity.
  - discriminate.
  - reflexivity.
  - reflexivity.
  - exact (conj Hr Hj).
Defined.

(** ** The exceptions that surface *)




(** ** Project detail *)

Lemma string_ltb_leb x y : x <> y -> String.leb x y = true -> String.ltb x y = true.
Proof.
  unfold String.leb, String.ltb. intros Hne.
  destruct (String.compare x y) eqn:E; try done.
  apply String.compare_eq_iff in E. done.
Qed.

Lemma pair_leb_lex a b :
  pair_leb a b = true ->
  String.ltb a.1 b.1 = true \/ (a.1 = b.1 /\ String.leb a.2 b.2 = true).
Proof.
  unfold pair_leb. destruct (String.eqb_spec a.1 b.1) as [Heq|Hne].
  - right. done.
  - left. by apply string_ltb_leb.
Qed.

Lemma StronglySorted_impl {A} (R1 R2 : A -> A -> Prop) l :
  (forall x y, R1 x y -> R2 x y) -> StronglySorted R1 l -> StronglySorted R2 l.
Proof.
  intros HR. induction 1 as [|x l Hl IH Hx]; constructor; [done|].
  eapply Forall_impl; [exact Hx|]. auto.
Qed.

Lemma sorted_maintainers_strongly (roles : list Role.t) :
  StronglySorted role_then_username
    (Py.sorted (fun x => (Role.role_name x, User.username (Role.user x))) roles).
Proof.
  unfold Py.sorted.
  eapply StronglySorted_impl; [|apply stable_sort_strongly].
  - intros x y H. apply pair_leb_lex in H. exact H.
  - intros x y. apply pair_leb_total.
  - intros x y z. apply pair_leb_trans.
Qed.

(** C4: on a canonical request [project_detail] returns the maintainers in
    ascending order of role name, then username, and no two of them have
    the same username; they are roles of the project, one for each user
    that has a role in it. *)
Theorem maintainers_sorted_distinct project request :
  canonical project request ->
  exists vm,
    run (Views.project_detail project request)
      = (Ok vm, [Select "Role"; Select "JournalEntry"]) /\
    StronglySorted role_then_username (Views.maintainers vm) /\
    List.NoDup (map (fun r => User.username (Role.user r)) (Views.maintainers vm)) /\
    (forall r, In r (Views.maintainers vm) ->
       In r (roles_table (db request)) /\ Role.project r = project) /\
    (forall r, In r (roles_table (db request)) -> Role.project r = project ->
       exists r', In r' (Views.maintainers vm) /\
                  User.username (Role.user r') = User.username (Role.user r)).
Proof.
  intros Hc.
  destruct (project_detail_run project request [] Hc) as (vm & Hrun & _ & Hm & _).
  exists vm. split; [exact Hrun|]. rewrite Hm.
  set (column := fun r : Role.t => User.username (Role.user r)).
  set (mine := fun r : Role.t => bool_decide (Role.project r = project)).
  assert (Hperm : forall l : list Role.t,
             Py.sorted (fun x => (Role.role_name x, User.username (Role.user x))) l ≡ₚ l)
    by (intros l; apply stable_sort_perm).
  split; [apply sorted_maintainers_strongly|].
  split; [|split].
  - eapply Permutation_NoDup.
    + apply Permutation_map. symmetry. apply Hperm.
    + apply distinct_from_NoDup.
  - intros r Hr.
    apply (Permutation_in _ (Hperm _)) in Hr.
    apply distinct_from_In in Hr as [Hr _]. simpl in Hr.
    apply filter_In in Hr as [Hr Hp]. split; [exact Hr|].
    unfold mine in Hp. by apply bool_decide_eq_true in Hp.
  - intros r Hr Hp.
    destruct (distinct_from_covers column
                (List.filter mine (roles_table (db request))) [] r)
      as (r' & Hr' & Hcol).
    + apply filter_In. split; [exact Hr|].
      unfold mine. by apply bool_decide_eq_true.
    + by intros [].
    + exists r'. split; [|exact Hcol].
      apply (Permutation_in _ (Permutation_sym (Hperm _))). exact Hr'.
Qed.

Lemma maintainers_sorted_distinct_witness :
  exists vm,
    run (Views.project_detail baz (sample_request [] "baz"))
      = (Ok vm, [Select "Role"; Select "JournalEntry"]) /\
    StronglySorted role_then_username (Views.maintainers vm) /\
    List.NoDup (map (fun r => User.username (Role.user r)) (Views.maintainers vm)) /\
    (forall r, In r (Views.maintainers vm) ->
       In r (roles_table sample_db) /\ Role.project r = baz) /\
    (forall r, In r (roles_table sample_db) -> Role.project r = baz ->
       exists r', In r' (Views.maintainers vm) /\
                  User.username (Role.user r') = User.username (Role.user r)).
Proof.
  apply (maintainers_sorted_distinct baz (sample_request [] "baz")).
  reflexivity.
Defined.

(** C5: on a canonical request [project_detail] returns at most 50 journal
    entries, all with the name of the project, the more recent first; the
    entries of the project that are left out are no more recent than those
    returned, and entries are left out only when 50 are returned. *)
Theorem journal_recent_50 project request :
  canonical project request ->
  exists vm,
    run (Views.project_detail project request)
      = (Ok vm, [Select "Role"; Select "JournalEntry"]) /\
    length (Views.journal vm) <= 50 /\
    Forall (fun e => JournalEntry.name e = Project.name project) (Views.journal vm) /\
    StronglySorted more_recent_first (Views.journal vm) /\
    exists older,
      Views.journal vm ++ older ≡ₚ journal_entries_of project request /\
      (forall e e', In e (Views.journal vm) -> In e' older ->
         (JournalEntry.submitted_date e' <= JournalEntry.submitted_date e)%Z) /\
      (older <> [] -> length (Views.journal vm) = 50).
Proof.
  intros Hc.
  destruct (project_detail_run project request [] Hc) as (vm & Hrun & _ & _ & Hj).
  exists vm. split; [exact Hrun|]. rewrite Hj. unfold Sql.limit.
  set (sorted := Sql.order_by_desc Z.leb JournalEntry.submitted_date
                   (journal_entries_of project request)).
  assert (Hperm : sorted ≡ₚ journal_entries_of project request)
    by apply stable_sort_perm.
  assert (Hsorted : StronglySorted more_recent_first sorted).
  { eapply StronglySorted_impl; [|apply stable_sort_strongly].
    - intros x y H. unfold more_recent_first. by apply Z.leb_le in H.
    - intros x y. apply Z_leb_total.
    - intros x y z H1 H2. eapply Z_leb_trans; eassumption. }
  split; [rewrite length_firstn; lia|].
  split; [|split; [by apply StronglySorted_firstn|]].
  - rewrite Forall_forall. intros e He. apply list_elem_of_In in He.
    assert (In e sorted) as Hin.
    { rewrite <- (firstn_skipn 50 sorted). apply in_or_app. by left. }
    apply (Permutation_in _ Hperm), filter_In in Hin as [_ Hin].
    by apply String.eqb_eq in Hin.
  - exists (skipn 50 sorted). rewrite firstn_skipn. split; [exact Hperm|]. split.
    + intros e e' He He'.
      rewrite <- (firstn_skipn 50 sorted) in Hsorted.
      apply (StronglySorted_app_1_elem_of _ _ _ e e') in Hsorted;
        [exact Hsorted| |]; by apply list_elem_of_In.
    + intros Hne. rewrite length_firstn.
      destruct (Nat.le_gt_cases (length sorted) 50) as [Hle|Hgt]; [|lia].
      exfalso. apply Hne. by apply skipn_all2.
Qed.

Lemma journal_recent_50_witness :
  exists vm,
    run (Views.project_detail baz (sample_request [] "baz"))
      = (Ok vm, [Select "Role"; Select "JournalEntry"]) /\
    length (Views.journal vm) <= 50 /\
    Forall (fun e => JournalEntry.name e = Project.name baz) (Views.journal vm) /\
    StronglySorted more_recent_first (Views.journal vm) /\
    exists older,
      Views.journal vm ++ older
        ≡ₚ journal_entries_of baz (sample_request [] "baz") /\
      (forall e e', In e (Views.journal vm) -> In e' older ->
         (JournalEntry.submitted_date e' <= JournalEntry.submitted_date e)%Z) /\
      (older <> [] -> length (Views.journal vm) = 50).
Proof.
  apply (journal_recent_50 baz (sample_request [] "baz")).
  reflexivity.
Defined.


(** ** Ordering and pagination of the listings *)






(** The page of a listing whose terms the database accepts. *)
Lemma listing_page {A B} entity (statement : Query.t A) rows n
    (k : Paginate.Page A -> B) :
  statement = Ok rows ->
  exists pg,
    bind (Paginate.SQLAlchemyORMPage entity statement n 25) (fun pg => ret (k pg)) []
      = (Ok (k pg), [Select entity; Count entity]) /\
    page_window (rows_of statement) n pg /\
    (1 <= Paginate.page pg)%Z /\
    (n <= 1 -> Paginate.page pg = 1)%Z.
Proof.
  intros H. rewrite (statement_rows _ _ H). by apply page_run.
Qed.



(** ** The default page *)

Lemma bind_congr {A B} (m m' : View A) (k k' : A -> View B) log :
  m log = m' log -> (forall a log', k a log' = k' a log') ->
  bind m k log = bind m' k' log.
Proof. intros Hm Hk. unfold bind. rewrite Hm. destruct (m' log) as [[a|e] log']; auto. Qed.

Lemma with_page_q s request :
  params (with_page s request) !! "q" = params request !! "q".
Proof. simpl. by apply lookup_insert_ne. Qed.

Lemma with_page_param request :
  page_param (with_page "1" request) 1.
Proof. unfold page_param. simpl. by rewrite lookup_insert_eq. Qed.

Lemma no_page_param request :
  params request !! "page" = None -> page_param request 1.
Proof. unfold page_param. by intros ->. Qed.

(** C9: without a [page] parameter the three listings answer as they do
    for [page=1]; they raise no bad request, and the page they render has
    number 1. *)
Theorem missing_page_is_page_one project request :
  params request !! "page" = None ->
  (run (Views.project_list request) = run (Views.project_list (with_page "1" request)) /\
   run (Views.releases_list project request)
     = run (Views.releases_list project (with_page "1" request)) /\
   run (Views.journals_list project request)
     = run (Views.journals_list project (with_page "1" request))) /\
  (forall detail,
     error_of (run (Views.project_list request)) <> Some (HTTPBadRequest detail) /\
     error_of (run (Views.releases_list project request))
       <> Some (HTTPBadRequest detail) /\
     error_of (run (Views.journals_list project request))
       <> Some (HTTPBadRequest detail)) /\
  (forall vm log, run (Views.project_list request) = (Ok vm, log) ->
     Paginate.page (Views.projects vm) = 1%Z) /\
  (forall vm log, run (Views.releases_list project request) = (Ok vm, log) ->
     Paginate.page (Views.releases vm) = 1%Z) /\
  (forall vm log, run (Views.journals_list project request) = (Ok vm, log) ->
     Paginate.page (Views.journals vm) = 1%Z).
Proof.
  intros Hp.
  pose proof (no_page_param _ Hp) as Hn.
  pose proof (with_page_param request) as Hn'.
  split; [|split; [|split; [|split]]].
  - unfold run, Views.project_list, Views.releases_list, Views.journals_list.
    cbv zeta. rewrite !with_page_q.
    split; [|split]; repeat (apply bind_congr; [|intros ? ?]);
      rewrite ?(page_num_ok _ _ _ Hn), ?(page_num_ok _ _ _ Hn'); reflexivity.
  - intros detail. unfold run.
    pose proof (listing_error_not_bad_request request 1 detail Hn) as Hl.
    split; [|split].
    + by apply (surfaces_not _ _ _ _ (project_list_error request [])).
    + apply (surfaces_not _ _ _ _ (releases_list_error project request []));
        [by apply path_error_not_bad_request|done].
    + apply (surfaces_not _ _ _ _ (journals_list_error project request []));
        [by apply path_error_not_bad_request|done].
  - intros vm log. unfold run.
    destruct (search_terms_cases request) as [(terms & Ht & _)|(msg & _ & Hq & Hs)].
    + rewrite (project_list_run _ _ _ _ Hn Ht).
      destruct (page_outcome "Project" (projects_statement request terms) 1
                  (fun pg => {| Views.projects := pg;
                                Views.projects_query_echo := params request !! "q" |})
                  []) as [(rows & pg & _ & -> & _ & _ & Hone)|(e & _ & ->)]; [|done].
      intros [= <- _]. simpl. apply Hone. lia.
    + by rewrite (project_list_bad_query _ _ _ _ Hn Hq Hs).
  - intros vm log. unfold run.
    destruct (canonical_cases project request []) as [(Hc & _)|[(_ & Hr)|(_ & Hr)]].
    + destruct (search_terms_cases request) as [(terms & Ht & _)|(msg & _ & Hq & Hs)].
      * rewrite (releases_list_run _ _ _ _ _ Hc Hn Ht).
        destruct (page_outcome "Release" (releases_statement project request terms) 1
                    (fun pg => {| Views.releases := pg;
                                  Views.releases_project := project;
                                  Views.releases_query_echo := params request !! "q" |})
                    []) as [(rows & pg & _ & -> & _ & _ & Hone)|(e & _ & ->)]; [|done].
        intros [= <- _]. simpl. apply Hone. lia.
      * by rewrite (releases_list_bad_query _ _ _ _ _ Hc Hn Hq Hs).
    + unfold Views.releases_list, bind. by rewrite Hr.
    + unfold Views.releases_list, bind. by rewrite Hr.
  - intros vm log. unfold run.
    destruct (canonical_cases project request []) as [(Hc & _)|[(_ & Hr)|(_ & Hr)]].
    + destruct (search_terms_cases request) as [(terms & Ht & _)|(msg & _ & Hq & Hs)].
      * rewrite (journals_list_run _ _ _ _ _ Hc Hn Ht).
        destruct (page_outcome "JournalEntry"
                    (journals_statement project request terms) 1
                    (fun pg => {| Views.journals := pg;
                                  Views.journals_project := project;
                                  Views.journals_query_echo := params request !! "q" |})
                    []) as [(rows & pg & _ & -> & _ & _ & Hone)|(e & _ & ->)]; [|done].
        intros [= <- _]. simpl. apply Hone. lia.
      * by rewrite (journals_list_bad_query _ _ _ _ _ Hc Hn Hq Hs).
    + unfold Views.journals_list, bind. by rewrite Hr.
    + unfold Views.journals_list, bind. by rewrite Hr.
Qed.

Lemma missing_page_is_page_one_witness :
  run (Views.releases_list baz (sample_request [("q", "version:1%")] "baz"))
    = run (Views.releases_list baz
             (with_page "1" (sample_request [("q", "version:1%")] "baz"))) /\
  error_of (run (Views.project_list (sample_request [("q", "version:1%")] "baz")))
    <> Some (HTTPBadRequest "'page' must be an integer.").
Proof.
  destruct (missing_page_is_page_one baz
              (sample_request [("q", "version:1%")] "baz") eq_refl)
    as ((_ & Hsame & _) & Hnone & _).
  split; [exact Hsame|]. apply Hnone.
Defined.


(** ** Search terms of the release and journal listings *)

Lemma version_filter_ignored {A} (version : A -> string) term :
  ignored_term term -> version_filter version term = [].
Proof.
  unfold version_filter. intros [->|(field & value & -> & Hf & Hne)]; [done|].
  change (":" ++ value)%string with (String ":" value).
  rewrite contains_char_app, (split_once_app _ _ _ Hf). simpl.
  apply String.eqb_neq in Hne. by rewrite Hne.
Qed.

Lemma version_filter_version {A} (version : A -> string) term value :
  version_term term value ->
  version_filter version term = [fun row => Sql.ilike (version row) value].
Proof.
  unfold version_filter. intros (field & -> & Hf & Hv).
  change (":" ++ value)%string with (String ":" value).
  rewrite contains_char_app, (split_once_app _ _ _ Hf). simpl.
  by rewrite Hv.
Qed.

Lemma version_filters_ignored {A} (version : A -> string) l1 term l2 :
  ignored_term term ->
  Views.version_filters version (l1 ++ term :: l2)
    = Views.version_filters version (l1 ++ l2).
Proof.
  intros Hi. rewrite !version_filters_app, version_filters_cons.
  by rewrite (version_filter_ignored _ _ Hi).
Qed.

Lemma chosen_version_term {A} (version : A -> string) (rows : list A)
    l1 term l2 value :
  version_term term value ->
  chosen (Views.version_filters version (l1 ++ term :: l2)) rows
    = List.filter
        (fun r => matches (version r) value ||
                  existsb (fun f => holds f r)
                    (Views.version_filters version (l1 ++ l2)))
        rows.
Proof.
  intros Hv. rewrite !version_filters_app, version_filters_cons.
  rewrite (version_filter_version _ _ _ Hv).
  rewrite chosen_nonempty by (by destruct (Views.version_filters version l1)).
  apply filter_ext. intros r. rewrite !existsb_app. cbn [existsb app].
  change (holds (fun row => Sql.ilike (version row) value) r)
    with (matches (version r) value).
  by destruct (existsb _ (Views.version_filters version l1)),
       (matches (version r) value).
Qed.

Lemma version_term_accepted term value :
  version_term term value -> accepted term = accepted value.
Proof. intros (field & -> & _). apply accepted_value. Qed.

(** C6, as the code has it: in [releases_list] and [journals_list] a term
    without a colon, or with a field other than [version], adds no filter:
    the page is that of the query built from the other terms; a term
    [version:value] selects the rows whose whole version matches [value] as
    a case-insensitive LIKE pattern, besides the rows that another term
    selects, and a value without [%], [_] and backslash matches the
    versions that equal it up to case, and no other.  The other terms, and
    the value, are patterns that the database accepts. *)
Theorem version_terms_filter project request n l1 term l2 :
  canonical project request ->
  page_param request n ->
  search_terms request (l1 ++ term :: l2) ->
  Forall (fun other => accepted other = true) (l1 ++ l2) ->
  (ignored_term term ->
     exists releases journals,
       run (Views.releases_list project request)
         = (Ok {| Views.releases := releases; Views.releases_project := project;
                  Views.releases_query_echo := params request !! "q" |},
            [Select "Release"; Count "Release"]) /\
       run (Views.journals_list project request)
         = (Ok {| Views.journals := journals; Views.journals_project := project;
                  Views.journals_query_echo := params request !! "q" |},
            [Select "JournalEntry"; Count "JournalEntry"]) /\
       page_window (releases_query project request (l1 ++ l2)) n releases /\
       page_window (journals_query project request (l1 ++ l2)) n journals) /\
  (forall value, version_term term value -> accepted value = true ->
     exists releases journals,
       run (Views.releases_list project request)
         = (Ok {| Views.releases := releases; Views.releases_project := project;
                  Views.releases_query_echo := params request !! "q" |},
            [Select "Release"; Count "Release"]) /\
       run (Views.journals_list project request)
         = (Ok {| Views.journals := journals; Views.journals_project := project;
                  Views.journals_query_echo := params request !! "q" |},
            [Select "JournalEntry"; Count "JournalEntry"]) /\
       page_window
         (List.filter
            (fun r => matches (Release.version r) value ||
                      existsb (fun f => holds f r)
                        (Views.version_filters Release.version (l1 ++ l2)))
            (releases_query project request []))
         n releases /\
       page_window
         (List.filter
            (fun e => matches (JournalEntry.version e) value ||
                      existsb (fun f => holds f e)
                        (Views.version_filters JournalEntry.version (l1 ++ l2)))
            (journals_query project request []))
         n journals /\
       (wildcard_free value = true ->
        forall version,
          matches version value = String.eqb (Py.lower value) (Py.lower version))).
Proof.
  intros Hc Hn Ht Hall. unfold run.
  rewrite (releases_list_run _ _ _ _ _ Hc Hn Ht).
  rewrite (journals_list_run _ _ _ _ _ Hc Hn Ht).
  split.
  - intros Hi.
    assert (Hr : releases_statement project request (l1 ++ term :: l2)
                 = releases_statement project request (l1 ++ l2))
      by (unfold releases_statement; by rewrite (version_filters_ignored _ _ _ _ Hi)).
    assert (Hj : journals_statement project request (l1 ++ term :: l2)
                 = journals_statement project request (l1 ++ l2))
      by (unfold journals_statement; by rewrite (version_filters_ignored _ _ _ _ Hi)).
    rewrite Hr, Hj.
    destruct (listing_page "Release" _ _ n
                (fun pg => {| Views.releases := pg;
                              Views.releases_project := project;
                              Views.releases_query_echo := params request !! "q" |})
                (releases_statement_ok project request (l1 ++ l2) Hall))
      as (releases & Hrun & Hw & _).
    destruct (listing_page "JournalEntry" _ _ n
                (fun pg => {| Views.journals := pg;
                              Views.journals_project := project;
                              Views.journals_query_echo := params request !! "q" |})
                (journals_statement_ok project request (l1 ++ l2) Hall))
      as (journals & Hrun' & Hw' & _).
    by exists releases, journals.
  - intros value Hv Ha.
    assert (Hall' : Forall (fun other => accepted other = true) (l1 ++ term :: l2)).
    { apply Forall_app in Hall as [H1 H2]. apply Forall_app. split; [done|].
      constructor; [|done]. by rewrite (version_term_accepted _ _ Hv). }
    destruct (listing_page "Release" _ _ n
                (fun pg => {| Views.releases := pg;
                              Views.releases_project := project;
                              Views.releases_query_echo := params request !! "q" |})
                (releases_statement_ok project request _ Hall'))
      as (releases & Hrun & Hw & _).
    destruct (listing_page "JournalEntry" _ _ n
                (fun pg => {| Views.journals := pg;
                              Views.journals_project := project;
                              Views.journals_query_echo := params request !! "q" |})
                (journals_statement_ok project request _ Hall'))
      as (journals & Hrun' & Hw' & _).
    exists releases, journals.
    split; [exact Hrun|]. split; [exact Hrun'|].
    fold (releases_query project request (l1 ++ term :: l2)) in Hw.
    fold (journals_query project request (l1 ++ term :: l2)) in Hw'.
    rewrite (releases_query_ok _ _ _ Hall'),
      (chosen_version_term Release.version _ _ _ _ _ Hv) in Hw.
    rewrite (journals_query_ok _ _ _ Hall'),
      (chosen_version_term JournalEntry.version _ _ _ _ _ Hv) in Hw'.
    rewrite (releases_query_ok project request []) by constructor.
    rewrite (journals_query_ok project request []) by constructor.
    split; [exact Hw|]. split; [exact Hw'|].
    intros Hfree version. apply matches_ilike. by apply ilike_plain.
Qed.

Lemma version_terms_filter_witness :
  (exists releases journals,
     run (Views.releases_list baz
            (sample_request [("q", "user:bob Version:1.0%")] "baz"))
       = (Ok {| Views.releases := releases; Views.releases_project := baz;
                Views.releases_query_echo := Some "user:bob Version:1.0%" |},
          [Select "Release"; Count "Release"]) /\
     run (Views.journals_list baz
            (sample_request [("q", "user:bob Version:1.0%")] "baz"))
       = (Ok {| Views.journals := journals; Views.journals_project := baz;
                Views.journals_query_echo := Some "user:bob Version:1.0%" |},
          [Select "JournalEntry"; Count "JournalEntry"]) /\
     page_window
       (releases_query baz (sample_request [("q", "user:bob Version:1.0%")] "baz")
          ["Version:1.0%"])
       1 releases /\
     page_window
       (journals_query baz (sample_request [("q", "user:bob Version:1.0%")] "baz")
          ["Version:1.0%"])
       1 journals) /\
  (exists releases journals,
     run (Views.releases_list baz
            (sample_request [("q", "user:bob Version:1.0%")] "baz"))
       = (Ok {| Views.releases := releases; Views.releases_project := baz;
                Views.releases_query_echo := Some "user:bob Version:1.0%" |},
          [Select "Release"; Count "Release"]) /\
     run (Views.journals_list baz
            (sample_request [("q", "user:bob Version:1.0%")] "baz"))
       = (Ok {| Views.journals := journals; Views.journals_project := baz;
                Views.journals_query_echo := Some "user:bob Version:1.0%" |},
          [Select "JournalEntry"; Count "JournalEntry"]) /\
     page_window
       (List.filter
          (fun r => matches (Release.version r) "1.0%" ||
                    existsb (fun f => holds f r)
                      (Views.version_filters Release.version ["user:bob"]))
          (releases_query baz
             (sample_request [("q", "user:bob Version:1.0%")] "baz") []))
       1 releases /\
     page_window
       (List.filter
          (fun e => matches (JournalEntry.version e) "1.0%" ||
                    existsb (fun f => holds f e)
                      (Views.version_filters JournalEntry.version ["user:bob"]))
          (journals_query baz
             (sample_request [("q", "user:bob Version:1.0%")] "baz") []))
       1 journals /\
     (wildcard_free "1.0%" = true ->
      forall version,
        matches version "1.0%" = String.eqb (Py.lower "1.0%") (Py.lower version))).
Proof.
  split.
  - destruct (version_terms_filter baz
                (sample_request [("q", "user:bob Version:1.0%")] "baz") 1%Z
                [] "user:bob" ["Version:1.0%"]) as [Hignored _].
    + reflexivity.
    + reflexivity.
    + reflexivity.
    + repeat constructor.
    + apply Hignored. right. exists "user", "bob". repeat split. discriminate.
  - destruct (version_terms_filter baz
                (sample_request [("q", "user:bob Version:1.0%")] "baz") 1%Z
                ["user:bob"] "Version:1.0%" []) as [_ Hversion].
    + reflexivity.
    + reflexivity.
    + reflexivity.
    + repeat constructor.
    + apply (Hversion "1.0%"); [|reflexivity].
      exists "Version". by repeat split.
Defined.

(** C6 as stated fails in its second part: the term [version:1.0] does not
    select the release and the journal entry of version [1.0.1], in which
    [1.0] occurs. *)
Lemma version_substring_counterexample :
  Shlex.split "version:1.0" = Ok ["version:1.0"] /\
  run (Views.releases_list baz (sample_request [("q", "version:1.0")] "baz"))
    = (Ok {| Views.releases :=
               {| Paginate.page := 1;
                  Paginate.items :=
                    [{| Release.project := baz; Release.version := "1.0";
                        Release._pypi_ordering := 1 |}];
                  Paginate.items_per_page := 25; Paginate.item_count := 1;
                  Paginate.page_count := 1 |};
             Views.releases_project := baz;
             Views.releases_query_echo := Some "version:1.0" |},
       [Select "Release"; Count "Release"]) /\
  run (Views.journals_list baz (sample_request [("q", "version:1.0")] "baz"))
    = (Ok {| Views.journals :=
               {| Paginate.page := 1;
                  Paginate.items :=
                    [{| JournalEntry.name := "baz"; JournalEntry.version := "1.0";
                        JournalEntry.submitted_date := 100 |}];
                  Paginate.items_per_page := 25; Paginate.item_count := 1;
                  Paginate.page_count := 1 |};
             Views.journals_project := baz;
             Views.journals_query_echo := Some "version:1.0" |},
       [Select "JournalEntry"; Count "JournalEntry"]) /\
  In {| Release.project := baz; Release.version := "1.0.1";
        Release._pypi_ordering := 2 |} (releases_table sample_db) /\
  substring_match "1.0.1" "1.0" = true.
Proof. repeat split; vm_compute; auto. Qed.

(** * Further properties of the views *)

(** ** What a rendered listing was computed from *)

Lemma project_list_inv request log vm log' :
  Views.project_list request log = (Ok vm, log') ->
  exists n terms,
    page_param request n /\ search_terms request terms /\
    projects_statement request terms = Ok (projects_query request terms) /\
    log' = log ++ [Select "Project"; Count "Project"] /\
    page_window (projects_query request terms) n (Views.projects vm) /\
    Views.projects_query_echo vm = params request !! "q".
Proof.
  destruct (page_num_cases request log) as [(n & Hn & _)|(s & Hp & Hs & _)].
  - destruct (search_terms_cases request) as [(terms & Ht & _)|(msg & _ & Hq & Hsp)].
    + rewrite (project_list_run _ _ _ _ Hn Ht).
      destruct (page_outcome "Project" (projects_statement request terms) n
                  (fun pg => {| Views.projects := pg;
                                Views.projects_query_echo := params request !! "q" |})
                  log) as [(rows & pg & Hs & -> & Hw & _)|(e & _ & ->)]; [|done].
      intros [= <- <-]. exists n, terms. unfold projects_query. by rewrite Hs.
    + by rewrite (project_list_bad_query _ _ _ _ Hn Hq Hsp).
  - by rewrite (project_list_bad_page _ _ _ Hp Hs).
Qed.

Lemma releases_list_inv project request log vm log' :
  Views.releases_list project request log = (Ok vm, log') ->
  exists n terms,
    canonical project request /\
    page_param request n /\ search_terms request terms /\
    releases_statement project request terms
      = Ok (releases_query project request terms) /\
    log' = log ++ [Select "Release"; Count "Release"] /\
    page_window (releases_query project request terms) n (Views.releases vm) /\
    Views.releases_project vm = project /\
    Views.releases_query_echo vm = params request !! "q".
Proof.
  destruct (canonical_cases project request log) as [(Hc & _)|[(_ & Hr)|(_ & Hr)]].
  - destruct (page_num_cases request log) as [(n & Hn & _)|(s & Hp & Hs & _)].
    + destruct (search_terms_cases request)
        as [(terms & Ht & _)|(msg & _ & Hq & Hsp)].
      * rewrite (releases_list_run _ _ _ _ _ Hc Hn Ht).
        destruct (page_outcome "Release" (releases_statement project request terms) n
                    (fun pg => {| Views.releases := pg;
                                  Views.releases_project := project;
                                  Views.releases_query_echo := params request !! "q" |})
                    log) as [(rows & pg & Hs & -> & Hw & _)|(e & _ & ->)]; [|done].
        intros [= <- <-]. exists n, terms. unfold releases_query. by rewrite Hs.
      * by rewrite (releases_list_bad_query _ _ _ _ _ Hc Hn Hq Hsp).
    + by rewrite (releases_list_bad_page _ _ _ _ Hc Hp Hs).
  - unfold Views.releases_list, bind. by rewrite Hr.
  - unfold Views.releases_list, bind. by rewrite Hr.
Qed.

Lemma journals_list_inv project request log vm log' :
  Views.journals_list project request log = (Ok vm, log') ->
  exists n terms,
    canonical project request /\
    page_param request n /\ search_terms request terms /\
    journals_statement project request terms
      = Ok (journals_query project request terms) /\
    log' = log ++ [Select "JournalEntry"; Count "JournalEntry"] /\
    page_window (journals_query project request terms) n (Views.journals vm) /\
    Views.journals_project vm = project /\
    Views.journals_query_echo vm = params request !! "q".
Proof.
  destruct (canonical_cases project request log) as [(Hc & _)|[(_ & Hr)|(_ & Hr)]].
  - destruct (page_num_cases request log) as [(n & Hn & _)|(s & Hp & Hs & _)].
    + destruct (search_terms_cases request)
        as [(terms & Ht & _)|(msg & _ & Hq & Hsp)].
      * rewrite (journals_list_run _ _ _ _ _ Hc Hn Ht).
        destruct (page_outcome "JournalEntry"
                    (journals_statement project request terms) n
                    (fun pg => {| Views.journals := pg;
                                  Views.journals_project := project;
                                  Views.journals_query_echo := params request !! "q" |})
                    log) as [(rows & pg & Hs & -> & Hw & _)|(e & _ & ->)]; [|done].
        intros [= <- <-]. exists n, terms. unfold journals_query. by rewrite Hs.
      * by rewrite (journals_list_bad_query _ _ _ _ _ Hc Hn Hq Hsp).
    + by rewrite (journals_list_bad_page _ _ _ _ Hc Hp Hs).
  - unfold Views.journals_list, bind. by rewrite Hr.
  - unfold Views.journals_list, bind. by rewrite Hr.
Qed.

(** ** Where the views raise *)








(** ** Listings without an effective search term *)

Lemma blank_tokens s :
  blank s = true -> Shlex.tokens Shlex.InSpace EmptyString false s = Ok [].
Proof.
  induction s as [|c s IH]; simpl; [done|].
  intros H. apply andb_true_iff in H as [Hc Hs]. rewrite Hc. by apply IH.
Qed.

Lemma search_terms_blank request :
  (forall q, params request !! "q" = Some q -> blank q = true) ->
  search_terms request [].
Proof.
  intros Hb. unfold search_terms.
  destruct (params request !! "q") as [q|] eqn:Hq; [|done].
  destruct q as [|c q]; [done|]. simpl.
  apply blank_tokens. by apply Hb.
Qed.

Lemma page_window_count {A} (query table : list A) n pg :
  page_window query n pg -> query ≡ₚ table ->
  Paginate.item_count pg = Z.of_nat (length table).
Proof. intros (_ & -> & _) Hp. by rewrite (Permutation_length Hp). Qed.

(** X2: with a query text that is missing, empty or made of blanks,
    [project_list] lists every project: the page is a window of the whole
    table ordered by name, and the count is the size of the table. *)
Theorem project_list_unfiltered request n :
  (forall q, params request !! "q" = Some q -> blank q = true) ->
  page_param request n ->
  exists pg,
    run (Views.project_list request)
      = (Ok {| Views.projects := pg;
               Views.projects_query_echo := params request !! "q" |},
         [Select "Project"; Count "Project"]) /\
    page_window
      (Sql.order_by String.leb Project.name (projects_table (db request))) n pg /\
    Paginate.item_count pg = Z.of_nat (length (projects_table (db request))).
Proof.
  intros Hb Hn. pose proof (search_terms_blank _ Hb) as Ht.
  unfold run. rewrite (project_list_run _ _ _ _ Hn Ht).
  destruct (page_run "Project" (projects_statement request []) _ n
              (fun pg => {| Views.projects := pg;
                            Views.projects_query_echo := params request !! "q" |})
              [] eq_refl) as (pg & Hrun & Hw & _).
  exists pg. split; [exact Hrun|]. split; [exact Hw|].
  apply (page_window_count _ _ _ _ Hw). apply stable_sort_perm.
Qed.

Lemma project_list_unfiltered_witness :
  exists pg,
    run (Views.project_list (sample_request [("q", "   "); ("page", "0")] ""))
      = (Ok {| Views.projects := pg;
               Views.projects_query_echo := Some "   " |},
         [Select "Project"; Count "Project"]) /\
    page_window
      (Sql.order_by String.leb Project.name (projects_table sample_db)) 0 pg /\
    Paginate.item_count pg = 2%Z.
Proof.
  apply (project_list_unfiltered
           (sample_request [("q", "   "); ("page", "0")] "") 0%Z).
  - intros q Hq. vm_compute in Hq. injection Hq as <-. reflexivity.
  - reflexivity.
Defined.

Lemma version_filters_all_ignored {A} (version : A -> string) terms :
  Forall ignored_term terms -> Views.version_filters version terms = [].
Proof.
  induction 1 as [|t terms Ht _ IH]; [done|].
  by rewrite version_filters_cons, (version_filter_ignored _ _ Ht), IH.
Qed.

(** X3: when no term of the query text is a [version] term, however many
    terms there are, [releases_list] and [journals_list] list every release
    and every journal entry of the project. *)
Theorem listings_ignore_other_fields project request n terms :
  canonical project request ->
  page_param request n ->
  search_terms request terms ->
  Forall ignored_term terms ->
  exists releases journals,
    run (Views.releases_list project request)
      = (Ok {| Views.releases := releases; Views.releases_project := project;
               Views.releases_query_echo := params request !! "q" |},
         [Select "Release"; Count "Release"]) /\
    run (Views.journals_list project request)
      = (Ok {| Views.journals := journals; Views.journals_project := project;
               Views.journals_query_echo := params request !! "q" |},
         [Select "JournalEntry"; Count "JournalEntry"]) /\
    page_window (releases_query project request []) n releases /\
    page_window (journals_query project request []) n journals /\
    Paginate.item_count releases
      = Z.of_nat (length (List.filter
                            (fun r => bool_decide (Release.project r = project))
                            (releases_table (db request)))) /\
    Paginate.item_count journals
      = Z.of_nat (length (journal_entries_of project request)).
Proof.
  intros Hc Hn Ht Hi. unfold run.
  rewrite (releases_list_run _ _ _ _ _ Hc Hn Ht).
  rewrite (journals_list_run _ _ _ _ _ Hc Hn Ht).
  assert (Hr : releases_statement project request terms
               = releases_statement project request []).
  { unfold releases_statement.
    by rewrite (version_filters_all_ignored Release.version _ Hi). }
  assert (Hj : journals_statement project request terms
               = journals_statement project request []).
  { unfold journals_statement.
    by rewrite (version_filters_all_ignored JournalEntry.version _ Hi). }
  rewrite Hr, Hj.
  destruct (listing_page "Release" _ _ n
              (fun pg => {| Views.releases := pg;
                            Views.releases_project := project;
                            Views.releases_query_echo := params request !! "q" |})
              (releases_statement_ok project request [] (List.Forall_nil _)))
    as (releases & Hrun & Hwr & _).
  destruct (listing_page "JournalEntry" _ _ n
              (fun pg => {| Views.journals := pg;
                            Views.journals_project := project;
                            Views.journals_query_echo := params request !! "q" |})
              (journals_statement_ok project request [] (List.Forall_nil _)))
    as (journals & Hrun' & Hwj & _).
  exists releases, journals.
  split; [exact Hrun|]. split; [exact Hrun'|].
  split; [exact Hwr|]. split; [exact Hwj|]. split.
  - apply (page_window_count _ _ _ _ Hwr).
    rewrite (statement_rows _ _ (releases_statement_ok project request []
                                   (List.Forall_nil _))).
    apply stable_sort_perm.
  - apply (page_window_count _ _ _ _ Hwj).
    rewrite (statement_rows _ _ (journals_statement_ok project request []
                                   (List.Forall_nil _))).
    apply stable_sort_perm.
Qed.

Lemma listings_ignore_other_fields_witness :
  exists releases journals,
    run (Views.releases_list baz (sample_request [("q", "user:bob 1.0")] "baz"))
      = (Ok {| Views.releases := releases; Views.releases_project := baz;
               Views.releases_query_echo := Some "user:bob 1.0" |},
         [Select "Release"; Count "Release"]) /\
    run (Views.journals_list baz (sample_request [("q", "user:bob 1.0")] "baz"))
      = (Ok {| Views.journals := journals; Views.journals_project := baz;
               Views.journals_query_echo := Some "user:bob 1.0" |},
         [Select "JournalEntry"; Count "JournalEntry"]) /\
    page_window
      (releases_query baz (sample_request [("q", "user:bob 1.0")] "baz") [])
      1 releases /\
    page_window
      (journals_query baz (sample_request [("q", "user:bob 1.0")] "baz") [])
      1 journals /\
    Paginate.item_count releases = 2%Z /\
    Paginate.item_count journals = 2%Z.
Proof.
  apply (listings_ignore_other_fields baz
           (sample_request [("q", "user:bob 1.0")] "baz") 1%Z ["user:bob"; "1.0"]).
  - reflexivity.
  - reflexivity.
  - reflexivity.
  - constructor; [|constructor; [|constructor]].
    + right. exists "user", "bob". repeat split. discriminate.
    + left. reflexivity.
Defined.

(** ** The rows of a project listing are rows of the project *)

Lemma rows_of_In {A} (statement : Query.t A) r :
  In r (rows_of statement) -> statement = Ok (rows_of statement).
Proof. by destruct statement. Qed.

Lemma releases_query_In project request terms r :
  In r (releases_query project request terms) ->
  In r (releases_table (db request)) /\ Release.project r = project.
Proof.
  unfold releases_query. intros H. pose proof (rows_of_In _ _ H) as Hs.
  rewrite (releases_statement_inv _ _ _ _ Hs) in H.
  apply chosen_In in H as [H _].
  apply (Permutation_in _ (stable_sort_perm _ _)) in H.
  apply filter_In in H as [H Hp]. split; [exact H|].
  by apply bool_decide_eq_true in Hp.
Qed.

Lemma journals_query_In project request terms e :
  In e (journals_query project request terms) ->
  In e (journals_table (db request)) /\ JournalEntry.name e = Project.name project.
Proof.
  unfold journals_query. intros H. pose proof (rows_of_In _ _ H) as Hs.
  rewrite (journals_statement_inv _ _ _ _ Hs) in H.
  apply chosen_In in H as [H _].
  apply (Permutation_in _ (stable_sort_perm _ _)) in H.
  apply filter_In in H as [H Hp]. split; [exact H|].
  by apply String.eqb_eq in Hp.
Qed.

(** X4: whatever the query text and the page, a rendered [releases_list]
    shows only releases of the project and a rendered [journals_list] only
    journal entries with the name of the project, and both hand the project
    itself to the template. *)
Theorem listing_rows_belong_to_project project request :
  (forall vm log, run (Views.releases_list project request) = (Ok vm, log) ->
     Views.releases_project vm = project /\
     forall r, In r (Paginate.items (Views.releases vm)) ->
       In r (releases_table (db request)) /\ Release.project r = project) /\
  (forall vm log, run (Views.journals_list project request) = (Ok vm, log) ->
     Views.journals_project vm = project /\
     forall e, In e (Paginate.items (Views.journals vm)) ->
       In e (journals_table (db request)) /\
       JournalEntry.name e = Project.name project).
Proof.
  split; intros vm log H.
  - apply releases_list_inv in H
      as (n & terms & _ & _ & _ & _ & _ & (_ & _ & Hitems) & Hp & _).
    split; [exact Hp|]. intros r Hr. rewrite Hitems in Hr.
    apply slice_In in Hr. by apply releases_query_In in Hr.
  - apply journals_list_inv in H
      as (n & terms & _ & _ & _ & _ & _ & (_ & _ & Hitems) & Hp & _).
    split; [exact Hp|]. intros e He. rewrite Hitems in He.
    apply slice_In in He. by apply journals_query_In in He.
Qed.

Lemma listing_rows_belong_to_project_witness :
  In {| Release.project := baz; Release.version := "1.0.1";
        Release._pypi_ordering := 2 |} (releases_table sample_db) /\
  Release.project {| Release.project := baz; Release.version := "1.0.1";
                     Release._pypi_ordering := 2 |} = baz.
Proof.
  destruct (listing_rows_belong_to_project baz
              (sample_request [("q", "version:1%")] "baz")) as [Hreleases _].
  destruct (Hreleases _ _ eq_refl) as [_ Hrows].
  apply Hrows. left. reflexivity.
Defined.
(** ** The terms as a set *)

Lemma existsb_same_elements {A} (f : A -> bool) (l l' : list A) :
  (forall x, In x l -> In x l') -> existsb f l = true -> existsb f l' = true.
Proof.
  intros Hsub. rewrite !existsb_exists. intros (x & Hx & Hf). exists x. auto.
Qed.

Lemma chosen_same {A} (fs fs' : list (A -> result bool)) rows :
  (forall f, In f fs <-> In f fs') -> chosen fs rows = chosen fs' rows.
Proof.
  intros Hsame.
  destruct fs as [|f fs], fs' as [|f' fs']; [done| | |].
  - exfalso. apply (proj2 (Hsame f')). by left.
  - exfalso. apply (proj1 (Hsame f)). by left.
  - rewrite !chosen_nonempty by done.
    apply filter_ext. intros r. apply Bool.eq_iff_eq_true.
    split; apply existsb_same_elements; intros x; apply Hsame.
Qed.

Lemma name_filters_same terms terms' :
  (forall t, In t terms <-> In t terms') ->
  forall f, In f (Views.name_filters terms) <-> In f (Views.name_filters terms').
Proof.
  intros Hsame f. rewrite !name_filters_map, !in_map_iff.
  split; intros (t & Hf & Ht); exists t; (split; [exact Hf|by apply Hsame]).
Qed.

Lemma version_filters_same {A} (version : A -> string) terms terms' :
  (forall t, In t terms <-> In t terms') ->
  forall f, In f (Views.version_filters version terms)
            <-> In f (Views.version_filters version terms').
Proof.
  intros Hsame f. rewrite !version_filters_flat_map, !in_flat_map.
  split; intros (t & Ht & Hf); exists t; (split; [by apply Hsame|exact Hf]).
Qed.

Lemma accepted_subset terms terms' :
  (forall t, In t terms -> In t terms') ->
  Forall (fun t => accepted t = true) terms' ->
  Forall (fun t => accepted t = true) terms.
Proof.
  intros Hsub. rewrite !List.Forall_forall. intros H t Ht. apply H, Hsub, Ht.
Qed.

(** Two listings that both render have statements that the database
    answers. *)
Lemma rendered_statement {A B} entity (statement : Query.t A) n
    (k : Paginate.Page A -> B) log vm l :
  bind (Paginate.SQLAlchemyORMPage entity statement n 25) (fun pg => ret (k pg)) log
    = (Ok vm, l) ->
  statement = Ok (rows_of statement).
Proof.
  destruct (page_outcome entity statement n k log)
    as [(rows & pg & -> & _)|(e & _ & ->)]; done.
Qed.

(** X5: the listings depend on the terms of the query text as a set: two
    requests for the same page over the same tables whose query texts split
    into the same terms, in whatever order and with whatever repetitions,
    are answered with the same page when the terms are patterns that the
    database accepts; and whatever the terms, when both requests are
    rendered they are rendered with the same page. *)
Theorem terms_matter_as_a_set project request request' n terms terms' :
  db request' = db request ->
  canonical project request -> canonical project request' ->
  page_param request n -> page_param request' n ->
  search_terms request terms -> search_terms request' terms' ->
  (forall t, In t terms <-> In t terms') ->
  (Forall (fun t => accepted t = true) terms ->
   exists projects releases journals,
     run (Views.project_list request)
       = (Ok {| Views.projects := projects;
                Views.projects_query_echo := params request !! "q" |},
          [Select "Project"; Count "Project"]) /\
     run (Views.project_list request')
       = (Ok {| Views.projects := projects;
                Views.projects_query_echo := params request' !! "q" |},
          [Select "Project"; Count "Project"]) /\
     run (Views.releases_list project request)
       = (Ok {| Views.releases := releases; Views.releases_project := project;
                Views.releases_query_echo := params request !! "q" |},
          [Select "Release"; Count "Release"]) /\
     run (Views.releases_list project request')
       = (Ok {| Views.releases := releases; Views.releases_project := project;
                Views.releases_query_echo := params request' !! "q" |},
          [Select "Release"; Count "Release"]) /\
     run (Views.journals_list project request)
       = (Ok {| Views.journals := journals; Views.journals_project := project;
                Views.journals_query_echo := params request !! "q" |},
          [Select "JournalEntry"; Count "JournalEntry"]) /\
     run (Views.journals_list project request')
       = (Ok {| Views.journals := journals; Views.journals_project := project;
                Views.journals_query_echo := params request' !! "q" |},
          [Select "JournalEntry"; Count "JournalEntry"])) /\
  (forall vm vm' log log',
     run (Views.project_list request) = (Ok vm, log) ->
     run (Views.project_list request') = (Ok vm', log') ->
     Views.projects vm = Views.projects vm') /\
  (forall vm vm' log log',
     run (Views.releases_list project request) = (Ok vm, log) ->
     run (Views.releases_list project request') = (Ok vm', log') ->
     Views.releases vm = Views.releases vm') /\
  (forall vm vm' log log',
     run (Views.journals_list project request) = (Ok vm, log) ->
     run (Views.journals_list project request') = (Ok vm', log') ->
     Views.journals vm = Views.journals vm').
Proof.
  intros Hdb Hc Hc' Hn Hn' Ht Ht' Hsame. unfold run.
  rewrite (project_list_run _ _ _ _ Hn Ht), (project_list_run _ _ _ _ Hn' Ht').
  rewrite (releases_list_run _ _ _ _ _ Hc Hn Ht),
    (releases_list_run _ _ _ _ _ Hc' Hn' Ht').
  rewrite (journals_list_run _ _ _ _ _ Hc Hn Ht),
    (journals_list_run _ _ _ _ _ Hc' Hn' Ht').
  assert (Hp : chosen (Views.name_filters terms')
                 (Sql.order_by String.leb Project.name (projects_table (db request')))
               = chosen (Views.name_filters terms)
                   (Sql.order_by String.leb Project.name
                      (projects_table (db request)))).
  { rewrite Hdb. apply chosen_same. intros f. symmetry. by apply name_filters_same. }
  assert (Hr : chosen (Views.version_filters Release.version terms')
                 (Sql.order_by_desc Z.leb Release._pypi_ordering
                    (List.filter (fun r => bool_decide (Release.project r = project))
                       (releases_table (db request'))))
               = chosen (Views.version_filters Release.version terms)
                   (Sql.order_by_desc Z.leb Release._pypi_ordering
                      (List.filter
                         (fun r => bool_decide (Release.project r = project))
                         (releases_table (db request))))).
  { rewrite Hdb. apply chosen_same. intros f. symmetry.
    by apply version_filters_same. }
  assert (Hj : chosen (Views.version_filters JournalEntry.version terms')
                 (Sql.order_by_desc Z.leb JournalEntry.submitted_date
                    (journal_entries_of project request'))
               = chosen (Views.version_filters JournalEntry.version terms)
                   (Sql.order_by_desc Z.leb JournalEntry.submitted_date
                      (journal_entries_of project request))).
  { unfold journal_entries_of. rewrite Hdb. apply chosen_same. intros f. symmetry.
    by apply version_filters_same. }
  split; [|split; [|split]].
  - intros Hall.
    assert (Hall' : Forall (fun t => accepted t = true) terms').
    { apply (accepted_subset _ terms); [|done]. intros t. apply Hsame. }
    rewrite (projects_statement_ok _ _ Hall'), (releases_statement_ok _ _ _ Hall'),
      (journals_statement_ok _ _ _ Hall'), Hp, Hr, Hj.
    rewrite (projects_statement_ok _ _ Hall), (releases_statement_ok _ _ _ Hall),
      (journals_statement_ok _ _ _ Hall).
    destruct (SQLAlchemyORMPage_run "Project"
                (chosen (Views.name_filters terms)
                   (Sql.order_by String.leb Project.name
                      (projects_table (db request))))
                n [])
      as (projects & Eprojects & _).
    destruct (SQLAlchemyORMPage_run "Release"
                (chosen (Views.version_filters Release.version terms)
                   (Sql.order_by_desc Z.leb Release._pypi_ordering
                      (List.filter
                         (fun r => bool_decide (Release.project r = project))
                         (releases_table (db request)))))
                n [])
      as (releases & Ereleases & _).
    destruct (SQLAlchemyORMPage_run "JournalEntry"
                (chosen (Views.version_filters JournalEntry.version terms)
                   (Sql.order_by_desc Z.leb JournalEntry.submitted_date
                      (journal_entries_of project request)))
                n [])
      as (journals & Ejournals & _).
    exists projects, releases, journals.
    unfold bind. rewrite Eprojects, Ereleases, Ejournals. by repeat split.
  - intros vm vm' log log' H H'.
    pose proof (rendered_statement _ _ _ _ _ _ _ H) as Hs.
    pose proof (rendered_statement _ _ _ _ _ _ _ H') as Hs'.
    rewrite Hs' in H'.
    rewrite (projects_statement_inv _ _ _ Hs'), Hp,
      <- (projects_statement_inv _ _ _ Hs), <- Hs in H'.
    unfold bind, ret in H, H'.
    destruct (Paginate.SQLAlchemyORMPage "Project" _ n 25 []) as [[pg|e] l0];
      [|done].
    by injection H as <- _; injection H' as <- _.
  - intros vm vm' log log' H H'.
    pose proof (rendered_statement _ _ _ _ _ _ _ H) as Hs.
    pose proof (rendered_statement _ _ _ _ _ _ _ H') as Hs'.
    rewrite Hs' in H'.
    rewrite (releases_statement_inv _ _ _ _ Hs'), Hr,
      <- (releases_statement_inv _ _ _ _ Hs), <- Hs in H'.
    unfold bind, ret in H, H'.
    destruct (Paginate.SQLAlchemyORMPage "Release" _ n 25 []) as [[pg|e] l0];
      [|done].
    by injection H as <- _; injection H' as <- _.
  - intros vm vm' log log' H H'.
    pose proof (rendered_statement _ _ _ _ _ _ _ H) as Hs.
    pose proof (rendered_statement _ _ _ _ _ _ _ H') as Hs'.
    rewrite Hs' in H'.
    rewrite (journals_statement_inv _ _ _ _ Hs'), Hj,
      <- (journals_statement_inv _ _ _ _ Hs), <- Hs in H'.
    unfold bind, ret in H, H'.
    destruct (Paginate.SQLAlchemyORMPage "JournalEntry" _ n 25 []) as [[pg|e] l0];
      [|done].
    by injection H as <- _; injection H' as <- _.
Qed.

Lemma terms_matter_as_a_set_witness :
  exists releases,
    run (Views.releases_list baz
           (sample_request [("q", "version:1.0 version:2%")] "baz"))
      = (Ok {| Views.releases := releases; Views.releases_project := baz;
               Views.releases_query_echo := Some "version:1.0 version:2%" |},
         [Select "Release"; Count "Release"]) /\
    run (Views.releases_list baz
           (sample_request [("q", "version:2% version:1.0 version:2%")] "baz"))
      = (Ok {| Views.releases := releases; Views.releases_project := baz;
               Views.releases_query_echo :=
                 Some "version:2% version:1.0 version:2%" |},
         [Select "Release"; Count "Release"]).
Proof.
  destruct (terms_matter_as_a_set baz
              (sample_request [("q", "version:1.0 version:2%")] "baz")
              (sample_request [("q", "version:2% version:1.0 version:2%")] "baz")
              1%Z ["version:1.0"; "version:2%"]
              ["version:2%"; "version:1.0"; "version:2%"])
    as (Haccepted & _).
  - reflexivity.
  - reflexivity.
  - reflexivity.
  - reflexivity.
  - reflexivity.
  - reflexivity.
  - reflexivity.
  - intros t. simpl. tauto.
  - destruct Haccepted as (projects & releases & journals & _ & _ & H1 & H2 & _).
    + repeat constructor.
    + exists releases. split; [exact H1|exact H2].
Defined.

(** With a term that the database does not accept the order of the terms
    can decide whether the listing is rendered: the clauses are evaluated in
    order, up to the first that holds. *)
Example terms_order_matters :
  error_of (run (Views.project_list (sample_request [("q", "% 'b\'")] ""))) = None /\
  error_of (run (Views.project_list (sample_request [("q", "'b\' %")] "")))
    = Some Sql.bad_escape.
Proof. split; reflexivity. Qed.

(** ** More terms, more rows *)

Lemma filter_length_le {A} (f g : A -> bool) (l : list A) :
  (forall x, f x = true -> g x = true) ->
  length (List.filter f l) <= length (List.filter g l).
Proof.
  intros Hfg. induction l as [|x l IH]; simpl; [done|].
  destruct (f x) eqn:Hf.
  - rewrite (Hfg _ Hf). simpl. lia.
  - destruct (g x); simpl; lia.
Qed.

Lemma chosen_widen {A} (fs fs' : list (A -> result bool)) rows :
  fs <> [] -> (forall f, In f fs -> In f fs') ->
  (forall r, In r (chosen fs rows) -> In r (chosen fs' rows)) /\
  length (chosen fs rows) <= length (chosen fs' rows).
Proof.
  intros Hne Hsub.
  assert (Hne' : fs' <> []).
  { destruct fs as [|f fs]; [done|]. intros ->. apply (Hsub f). by left. }
  rewrite !chosen_nonempty by done. split.
  - intros r. rewrite !filter_In. intros [Hr Hf]. split; [exact Hr|].
    by apply (existsb_same_elements _ fs fs').
  - apply filter_length_le. intros r.
    by apply (existsb_same_elements _ fs fs').
Qed.

Lemma search_terms_functional request terms terms' :
  search_terms request terms -> search_terms request terms' -> terms = terms'.
Proof. unfold search_terms. destruct (Py.truthy _); congruence. Qed.

(** X6: in [project_list] the terms are alternatives: when the query text of
    one request has at least one term and that of a second request has all
    its terms and maybe more, every project listed for the first is listed
    for the second, and the count of the second is at least that of the
    first: both are rendered when the terms are patterns that the database
    accepts, and whatever the terms this holds when both are rendered. *)
Theorem more_terms_more_projects request request' n n' terms terms' :
  db request' = db request ->
  page_param request n -> page_param request' n' ->
  search_terms request terms -> search_terms request' terms' ->
  terms <> [] ->
  (forall t, In t terms -> In t terms') ->
  (Forall (fun t => accepted t = true) terms' ->
   exists projects projects',
     run (Views.project_list request)
       = (Ok {| Views.projects := projects;
                Views.projects_query_echo := params request !! "q" |},
          [Select "Project"; Count "Project"]) /\
     run (Views.project_list request')
       = (Ok {| Views.projects := projects';
                Views.projects_query_echo := params request' !! "q" |},
          [Select "Project"; Count "Project"]) /\
     (Paginate.item_count projects <= Paginate.item_count projects')%Z /\
     forall p, In p (projects_query request terms) ->
               In p (projects_query request' terms')) /\
  (forall vm vm' log log',
     run (Views.project_list request) = (Ok vm, log) ->
     run (Views.project_list request') = (Ok vm', log') ->
     (Paginate.item_count (Views.projects vm)
        <= Paginate.item_count (Views.projects vm'))%Z /\
     forall p, In p (projects_query request terms) ->
               In p (projects_query request' terms')).
Proof.
  intros Hdb Hn Hn' Ht Ht' Hne Hsub.
  destruct (chosen_widen (Views.name_filters terms) (Views.name_filters terms')
              (Sql.order_by String.leb Project.name (projects_table (db request))))
    as [Hin Hlen].
  { rewrite name_filters_map. by destruct terms. }
  { intros f. rewrite !name_filters_map, !in_map_iff.
    intros (t & Hf & Hin). exists t. auto. }
  assert (Hboth : forall vm vm' log log',
            run (Views.project_list request) = (Ok vm, log) ->
            run (Views.project_list request') = (Ok vm', log') ->
            (Paginate.item_count (Views.projects vm)
               <= Paginate.item_count (Views.projects vm'))%Z /\
            forall p, In p (projects_query request terms) ->
                      In p (projects_query request' terms')).
  { intros vm vm' log log' H H'.
    apply project_list_inv in H
      as (m & ts & Hm & Hts & Hs & _ & (_ & Hcount & _) & _).
    apply project_list_inv in H'
      as (m' & ts' & Hm' & Hts' & Hs' & _ & (_ & Hcount' & _) & _).
    rewrite (search_terms_functional _ _ _ Hts Ht) in *.
    rewrite (search_terms_functional _ _ _ Hts' Ht') in *.
    rewrite Hcount, Hcount'.
    rewrite (projects_statement_inv _ _ _ Hs), (projects_statement_inv _ _ _ Hs'), Hdb.
    split; [lia|exact Hin]. }
  split; [|exact Hboth].
  intros Hall'. unfold run.
  pose proof (accepted_subset _ _ Hsub Hall') as Hall.
  rewrite (project_list_run _ _ _ _ Hn Ht), (project_list_run _ _ _ _ Hn' Ht').
  destruct (listing_page "Project" _ _ n
              (fun pg => {| Views.projects := pg;
                            Views.projects_query_echo := params request !! "q" |})
              (projects_statement_ok request terms Hall))
    as (projects & Hrun & (_ & Hcount & _) & _).
  destruct (listing_page "Project" _ _ n'
              (fun pg => {| Views.projects := pg;
                            Views.projects_query_echo := params request' !! "q" |})
              (projects_statement_ok request' terms' Hall'))
    as (projects' & Hrun' & (_ & Hcount' & _) & _).
  exists projects, projects'.
  split; [exact Hrun|]. split; [exact Hrun'|].
  rewrite Hcount, Hcount'.
  fold (projects_query request terms). fold (projects_query request' terms').
  rewrite (projects_query_ok _ _ Hall), (projects_query_ok _ _ Hall'), Hdb.
  split; [lia|exact Hin].
Qed.

Lemma more_terms_more_projects_witness :
  exists projects projects',
    run (Views.project_list (sample_request [("q", "baz")] ""))
      = (Ok {| Views.projects := projects;
               Views.projects_query_echo := Some "baz" |},
         [Select "Project"; Count "Project"]) /\
    run (Views.project_list (sample_request [("q", "foo% baz"); ("page", "2")] ""))
      = (Ok {| Views.projects := projects';
               Views.projects_query_echo := Some "foo% baz" |},
         [Select "Project"; Count "Project"]) /\
    (Paginate.item_count projects <= Paginate.item_count projects')%Z /\
    forall p, In p (projects_query (sample_request [("q", "baz")] "") ["baz"]) ->
              In p (projects_query
                      (sample_request [("q", "foo% baz"); ("page", "2")] "")
                      ["foo%"; "baz"]).
Proof.
  destruct (more_terms_more_projects
              (sample_request [("q", "baz")] "")
              (sample_request [("q", "foo% baz"); ("page", "2")] "")
              1%Z 2%Z ["baz"] ["foo%"; "baz"]) as [Haccepted _].
  - reflexivity.
  - reflexivity.
  - reflexivity.
  - reflexivity.
  - reflexivity.
  - discriminate.
  - intros t. simpl. tauto.
  - apply Haccepted. repeat constructor.
Defined.

(** With a term that the database does not accept the longer query text
    need not be rendered. *)
Example more_terms_not_rendered :
  error_of (run (Views.project_list (sample_request [("q", "baz")] ""))) = None /\
  error_of (run (Views.project_list (sample_request [("q", "'b\' baz")] "")))
    = Some Sql.bad_escape.
Proof. split; reflexivity. Qed.

(** ** What the patterns of the terms select *)

Lemma existsb_map_ext {A B} (f : B -> bool) (g : A -> B) (h : A -> bool)
    (P : A -> Prop) (l : list A) :
  Forall P l -> (forall x, P x -> f (g x) = h x) ->
  existsb f (map g l) = existsb h l.
Proof.
  intros HP Hfh. induction HP as [|x l Hx _ IH]; simpl; [done|].
  by rewrite (Hfh _ Hx), IH.
Qed.

Lemma accepted_plain_app s rest :
  wildcard_free s = true -> accepted rest = true -> accepted (s ++ rest) = true.
Proof.
  intros Hs Hrest. apply accepted_is_Some. rewrite lower_app.
  apply accepted_is_Some in Hrest as [ts Hts].
  rewrite <- wildcard_free_lower in Hs.
  destruct (like_match_prefix _ _ _ Hs Hts) as (ts' & -> & _). by eexists.
Qed.

Lemma project_list_patterns request n (ts : list string) (g : string -> string)
    (h : string -> string -> bool) :
  page_param request n ->
  search_terms request (map g ts) ->
  ts <> [] ->
  Forall (fun t => wildcard_free t = true) ts ->
  (forall t, wildcard_free t = true -> accepted (g t) = true) ->
  (forall column t, wildcard_free t = true ->
     Sql.ilike column (g t) = Ok (h column t)) ->
  exists pg,
    run (Views.project_list request)
      = (Ok {| Views.projects := pg;
               Views.projects_query_echo := params request !! "q" |},
         [Select "Project"; Count "Project"]) /\
    page_window
      (List.filter (fun p => existsb (h (Project.name p)) ts)
         (Sql.order_by String.leb Project.name (projects_table (db request))))
      n pg.
Proof.
  intros Hn Ht Hne Hfree Hg Hh. unfold run.
  rewrite (project_list_run _ _ _ _ Hn Ht).
  assert (Hall : Forall (fun t => accepted t = true) (map g ts)).
  { apply List.Forall_forall. intros t Hin. apply in_map_iff in Hin as (x & <- & Hx).
    rewrite List.Forall_forall in Hfree. apply Hg, Hfree, Hx. }
  destruct (page_run "Project" (projects_statement request (map g ts)) _ n
              (fun pg => {| Views.projects := pg;
                            Views.projects_query_echo := params request !! "q" |})
              [] (projects_statement_ok request _ Hall)) as (pg & Hrun & Hw & _).
  exists pg. split; [exact Hrun|].
  rewrite chosen_name_filters in Hw by (by destruct ts).
  rewrite (filter_ext _ (fun p => existsb (h (Project.name p)) ts)) in Hw;
    [exact Hw|].
  intros p.
  apply (existsb_map_ext (fun term => matches (Project.name p) term) g
           (h (Project.name p)) _ _ Hfree).
  intros t Ht'. apply matches_ilike. by apply Hh.
Qed.

(** X7: when no term of the query text has a character that is special in
    a LIKE pattern, [project_list] lists exactly the projects whose name
    equals one of the terms up to case. *)
Theorem plain_terms_select_names_up_to_case request n terms :
  page_param request n ->
  search_terms request terms ->
  terms <> [] ->
  Forall (fun t => wildcard_free t = true) terms ->
  exists pg,
    run (Views.project_list request)
      = (Ok {| Views.projects := pg;
               Views.projects_query_echo := params request !! "q" |},
         [Select "Project"; Count "Project"]) /\
    page_window
      (List.filter
         (fun p => existsb
                     (fun t => String.eqb (Py.lower t) (Py.lower (Project.name p)))
                     terms)
         (Sql.order_by String.leb Project.name (projects_table (db request))))
      n pg.
Proof.
  intros Hn Ht Hne Hfree.
  apply (project_list_patterns request n terms (fun t => t)
           (fun column t => String.eqb (Py.lower t) (Py.lower column)));
    try done.
  - by rewrite map_id.
  - intros t. apply wildcard_free_accepted.
  - intros column t. apply ilike_plain.
Qed.

Lemma plain_terms_select_names_up_to_case_witness :
  exists pg,
    run (Views.project_list (sample_request [("q", "FOOBAR Baz")] ""))
      = (Ok {| Views.projects := pg;
               Views.projects_query_echo := Some "FOOBAR Baz" |},
         [Select "Project"; Count "Project"]) /\
    page_window
      (List.filter
         (fun p => existsb
                     (fun t => String.eqb (Py.lower t) (Py.lower (Project.name p)))
                     ["FOOBAR"; "Baz"])
         (Sql.order_by String.leb Project.name (projects_table sample_db)))
      1 pg.
Proof.
  apply (plain_terms_select_names_up_to_case
           (sample_request [("q", "FOOBAR Baz")] "") 1%Z ["FOOBAR"; "Baz"]).
  - reflexivity.
  - reflexivity.
  - discriminate.
  - repeat constructor.
Defined.

(** X8: when every term of the query text is a text without special
    characters followed by [%], [project_list] lists exactly the projects
    whose name starts with one of these texts, up to case. *)
Theorem trailing_percent_selects_by_prefix request n prefixes :
  page_param request n ->
  search_terms request (map (fun t => (t ++ "%")%string) prefixes) ->
  prefixes <> [] ->
  Forall (fun t => wildcard_free t = true) prefixes ->
  exists pg,
    run (Views.project_list request)
      = (Ok {| Views.projects := pg;
               Views.projects_query_echo := params request !! "q" |},
         [Select "Project"; Count "Project"]) /\
    page_window
      (List.filter
         (fun p => existsb
                     (fun t => String.prefix (Py.lower t) (Py.lower (Project.name p)))
                     prefixes)
         (Sql.order_by String.leb Project.name (projects_table (db request))))
      n pg.
Proof.
  intros Hn Ht Hne Hfree.
  apply (project_list_patterns request n prefixes (fun t => (t ++ "%")%string)
           (fun column t => String.prefix (Py.lower t) (Py.lower column)));
    try done.
  - intros t Hfree'. by apply accepted_plain_app.
  - intros column t. apply ilike_prefix.
Qed.

Lemma trailing_percent_selects_by_prefix_witness :
  exists pg,
    run (Views.project_list (sample_request [("q", "foo% B%")] ""))
      = (Ok {| Views.projects := pg;
               Views.projects_query_echo := Some "foo% B%" |},
         [Select "Project"; Count "Project"]) /\
    page_window
      (List.filter
         (fun p => existsb
                     (fun t => String.prefix (Py.lower t) (Py.lower (Project.name p)))
                     ["foo"; "B"])
         (Sql.order_by String.leb Project.name (projects_table sample_db)))
      1 pg.
Proof.
  apply (trailing_percent_selects_by_prefix
           (sample_request [("q", "foo% B%")] "") 1%Z ["foo"; "B"]).
  - reflexivity.
  - reflexivity.
  - discriminate.
  - repeat constructor.
Defined.

(** X9: when every term of the query text is a text without special
    characters between two [%], [project_list] lists exactly the projects
    in whose name one of these texts occurs, up to case: the
    case-insensitive substring search. *)
Theorem percent_around_selects_by_substring request n needles :
  page_param request n ->
  search_terms request (map (fun t => ("%" ++ t ++ "%")%string) needles) ->
  needles <> [] ->
  Forall (fun t => wildcard_free t = true) needles ->
  exists pg,
    run (Views.project_list request)
      = (Ok {| Views.projects := pg;
               Views.projects_query_echo := params request !! "q" |},
         [Select "Project"; Count "Project"]) /\
    page_window
      (List.filter
         (fun p => existsb (substring_match (Project.name p)) needles)
         (Sql.order_by String.leb Project.name (projects_table (db request))))
      n pg.
Proof.
  intros Hn Ht Hne Hfree.
  apply (project_list_patterns request n needles
           (fun t => ("%" ++ t ++ "%")%string) substring_match);
    try done.
  - intros t Hfree'.
    change ("%" ++ t ++ "%")%string with (String "%" (t ++ "%")).
    apply accepted_is_Some. cbn [Py.lower].
    change (Py.lower_char "%") with "%"%char.
    apply (like_tokens_step "%"); [done|].
    apply accepted_is_Some. by apply accepted_plain_app.
  - intros column t. apply ilike_infix.
Qed.

Lemma percent_around_selects_by_substring_witness :
  exists pg,
    run (Views.project_list (sample_request [("q", "%OBA% %z%")] ""))
      = (Ok {| Views.projects := pg;
               Views.projects_query_echo := Some "%OBA% %z%" |},
         [Select "Project"; Count "Project"]) /\
    page_window
      (List.filter
         (fun p => existsb (substring_match (Project.name p)) ["OBA"; "z"])
         (Sql.order_by String.leb Project.name (projects_table sample_db)))
      1 pg.
Proof.
  apply (percent_around_selects_by_substring
           (sample_request [("q", "%OBA% %z%")] "") 1%Z ["OBA"; "z"]).
  - reflexivity.
  - reflexivity.
  - discriminate.
  - repeat constructor.
Defined.

Lemma version_filters_of_versions {A} (version : A -> string) versions :
  Views.version_filters version (map (String.append "version:") versions)
    = map (fun v => fun row : A => Sql.ilike (version row) v) versions.
Proof.
  induction versions as [|v versions IH]; [done|].
  cbn [map]. rewrite version_filters_cons, IH.
  rewrite (version_filter_version version _ v); [done|].
  exists "version". by repeat split.
Qed.

Lemma version_terms_accepted versions :
  Forall (fun v => wildcard_free v = true) versions ->
  Forall (fun t => accepted t = true) (map (String.append "version:") versions).
Proof.
  intros Hfree. apply List.Forall_forall. intros t Hin.
  apply in_map_iff in Hin as (v & <- & Hv).
  rewrite List.Forall_forall in Hfree.
  change (String.append "version:" v) with ("version" ++ ":" ++ v)%string.
  rewrite accepted_value. by apply wildcard_free_accepted, Hfree.
Qed.

Lemma version_query_plain {A} (version : A -> string) versions (rows : list A) :
  versions <> [] ->
  Forall (fun v => wildcard_free v = true) versions ->
  chosen (Views.version_filters version (map (String.append "version:") versions))
    rows
  = List.filter
      (fun r => existsb (fun v => String.eqb (Py.lower v) (Py.lower (version r)))
                  versions)
      rows.
Proof.
  intros Hne Hfree. rewrite version_filters_of_versions.
  rewrite chosen_nonempty by (by destruct versions).
  apply filter_ext. intros r.
  apply (existsb_map_ext (fun f : A -> result bool => holds f r) _ _ _ _ Hfree).
  intros v Hv. unfold holds. by rewrite ilike_plain.
Qed.

(** X10: when the query text is made of terms [version:v] whose [v] has no
    special character, [releases_list] and [journals_list] list exactly the
    rows of the project whose version equals one of the [v] up to case. *)
Theorem version_terms_select_versions_up_to_case project request n versions :
  canonical project request ->
  page_param request n ->
  search_terms request (map (String.append "version:") versions) ->
  versions <> [] ->
  Forall (fun v => wildcard_free v = true) versions ->
  exists releases journals,
    run (Views.releases_list project request)
      = (Ok {| Views.releases := releases; Views.releases_project := project;
               Views.releases_query_echo := params request !! "q" |},
         [Select "Release"; Count "Release"]) /\
    run (Views.journals_list project request)
      = (Ok {| Views.journals := journals; Views.journals_project := project;
               Views.journals_query_echo := params request !! "q" |},
         [Select "JournalEntry"; Count "JournalEntry"]) /\
    page_window
      (List.filter
         (fun r => existsb
                     (fun v => String.eqb (Py.lower v) (Py.lower (Release.version r)))
                     versions)
         (releases_query project request []))
      n releases /\
    page_window
      (List.filter
         (fun e => existsb
                     (fun v => String.eqb (Py.lower v)
                                 (Py.lower (JournalEntry.version e)))
                     versions)
         (journals_query project request []))
      n journals.
Proof.
  intros Hc Hn Ht Hne Hfree. unfold run.
  rewrite (releases_list_run _ _ _ _ _ Hc Hn Ht).
  rewrite (journals_list_run _ _ _ _ _ Hc Hn Ht).
  pose proof (version_terms_accepted _ Hfree) as Hall.
  destruct (page_run "Release" _ _ n
              (fun pg => {| Views.releases := pg;
                            Views.releases_project := project;
                            Views.releases_query_echo := params request !! "q" |})
              [] (releases_statement_ok project request _ Hall))
    as (releases & Hr & Hwr & _).
  destruct (page_run "JournalEntry" _ _ n
              (fun pg => {| Views.journals := pg;
                            Views.journals_project := project;
                            Views.journals_query_echo := params request !! "q" |})
              [] (journals_statement_ok project request _ Hall))
    as (journals & Hj & Hwj & _).
  exists releases, journals.
  split; [exact Hr|]. split; [exact Hj|].
  rewrite (version_query_plain Release.version _ _ Hne Hfree) in Hwr.
  rewrite (version_query_plain JournalEntry.version _ _ Hne Hfree) in Hwj.
  rewrite (releases_query_ok project request []) by constructor.
  rewrite (journals_query_ok project request []) by constructor.
  split; [exact Hwr|exact Hwj].
Qed.

Lemma version_terms_select_versions_up_to_case_witness :
  exists releases journals,
    run (Views.releases_list baz
           (sample_request [("q", "version:1.0 version:2.0")] "baz"))
      = (Ok {| Views.releases := releases; Views.releases_project := baz;
               Views.releases_query_echo := Some "version:1.0 version:2.0" |},
         [Select "Release"; Count "Release"]) /\
    run (Views.journals_list baz
           (sample_request [("q", "version:1.0 version:2.0")] "baz"))
      = (Ok {| Views.journals := journals; Views.journals_project := baz;
               Views.journals_query_echo := Some "version:1.0 version:2.0" |},
         [Select "JournalEntry"; Count "JournalEntry"]) /\
    page_window
      (List.filter
         (fun r => existsb
                     (fun v => String.eqb (Py.lower v) (Py.lower (Release.version r)))
                     ["1.0"; "2.0"])
         (releases_query baz
            (sample_request [("q", "version:1.0 version:2.0")] "baz") []))
      1 releases /\
    page_window
      (List.filter
         (fun e => existsb
                     (fun v => String.eqb (Py.lower v)
                                 (Py.lower (JournalEntry.version e)))
                     ["1.0"; "2.0"])
         (journals_query baz
            (sample_request [("q", "version:1.0 version:2.0")] "baz") []))
      1 journals.
Proof.
  apply (version_terms_select_versions_up_to_case baz
           (sample_request [("q", "version:1.0 version:2.0")] "baz") 1%Z
           ["1.0"; "2.0"]).
  - reflexivity.
  - reflexivity.
  - reflexivity.
  - discriminate.
  - repeat constructor.
Defined.
(** ** Searching for a quoted name *)

Lemma tokens_single_quoted s : forall token quoted,
  Py.contains_char "'" s = false ->
  Shlex.tokens (Shlex.InQuote Shlex.squote) token quoted (s ++ "'")
    = Ok [(token ++ s)%string].
Proof.
  induction s as [|c s IH]; intros token quoted Hs.
  - change (Shlex.tokens (Shlex.InQuote Shlex.squote) token quoted ("" ++ "'"))
      with (Ok (Shlex.emit token true [])).
    unfold Shlex.emit. rewrite orb_true_r. by rewrite string_app_nil_r.
  - cbn [Py.contains_char] in Hs. apply orb_false_iff in Hs as [Hc Hs].
    change (String c s ++ "'")%string with (String c (s ++ "'")%string).
    cbn [Shlex.tokens].
    rewrite (Ascii.eqb_sym c Shlex.squote). unfold Shlex.squote at 1.
    rewrite Hc.
    replace (Shlex.escape c && Shlex.escapedquotes Shlex.squote) with false
      by (by rewrite andb_false_r).
    rewrite (IH _ true Hs). unfold Shlex.snoc.
    rewrite string_app_assoc. done.
Qed.

Lemma split_single_quoted s :
  Py.contains_char "'" s = false ->
  Shlex.split ("'" ++ s ++ "'") = Ok [s].
Proof.
  intros Hs. unfold Shlex.split.
  change ("'" ++ s ++ "'")%string with (String "'" (s ++ "'")%string).
  cbn [Shlex.tokens].
  change (Shlex.whitespace "'") with false.
  change (Shlex.escape "'") with false.
  change (Shlex.quotes "'") with true. cbv iota.
  exact (tokens_single_quoted s EmptyString false Hs).
Qed.

(** X11: a project whose name has no single quote and no character that is
    special in a LIKE pattern is found by its name in single quotes, also
    when the name has blanks: [project_list] then lists exactly the projects
    whose name equals that name up to case, the project among them. *)
Theorem quoted_name_finds_project request n p :
  In p (projects_table (db request)) ->
  Py.contains_char "'" (Project.name p) = false ->
  wildcard_free (Project.name p) = true ->
  params request !! "q" = Some ("'" ++ Project.name p ++ "'")%string ->
  page_param request n ->
  exists pg,
    run (Views.project_list request)
      = (Ok {| Views.projects := pg;
               Views.projects_query_echo :=
                 Some ("'" ++ Project.name p ++ "'")%string |},
         [Select "Project"; Count "Project"]) /\
    page_window
      (List.filter
         (fun p' => String.eqb (Py.lower (Project.name p))
                      (Py.lower (Project.name p')))
         (Sql.order_by String.leb Project.name (projects_table (db request))))
      n pg /\
    In p (List.filter
            (fun p' => String.eqb (Py.lower (Project.name p))
                         (Py.lower (Project.name p')))
            (Sql.order_by String.leb Project.name (projects_table (db request)))).
Proof.
  intros Hin Hquote Hfree Hq Hn.
  assert (Ht : search_terms request [Project.name p]).
  { unfold search_terms. rewrite Hq. cbn [Py.truthy default].
    change ("'" ++ Project.name p ++ "'")%string
      with (String "'" (Project.name p ++ "'")%string).
    cbv iota.
    change (String "'" (Project.name p ++ "'")%string)
      with ("'" ++ Project.name p ++ "'")%string.
    by apply split_single_quoted. }
  destruct (project_list_patterns request n [Project.name p] (fun t => t)
              (fun column t => String.eqb (Py.lower t) (Py.lower column)))
    as (pg & Hrun & Hw); try done.
  - by repeat constructor.
  - intros t. apply wildcard_free_accepted.
  - intros column t. apply ilike_plain.
  - exists pg. rewrite Hq in Hrun. split; [exact Hrun|].
    rewrite (filter_ext _ (fun p' => String.eqb (Py.lower (Project.name p))
                                      (Py.lower (Project.name p')))) in Hw.
    + split; [exact Hw|].
      apply filter_In. split.
      * apply (Permutation_in _ (Permutation_sym (stable_sort_perm _ _))).
        exact Hin.
      * apply String.eqb_refl.
    + intros p'. simpl. apply orb_false_r.
Qed.

Lemma quoted_name_finds_project_witness :
  exists pg,
    run (Views.project_list (sample_request [("q", "'FooBar'")] ""))
      = (Ok {| Views.projects := pg;
               Views.projects_query_echo := Some "'FooBar'" |},
         [Select "Project"; Count "Project"]) /\
    page_window
      (List.filter
         (fun p' => String.eqb "foobar" (Py.lower (Project.name p')))
         (Sql.order_by String.leb Project.name (projects_table sample_db)))
      1 pg /\
    In foobar
      (List.filter
         (fun p' => String.eqb "foobar" (Py.lower (Project.name p')))
         (Sql.order_by String.leb Project.name (projects_table sample_db))).
Proof.
  apply (quoted_name_finds_project (sample_request [("q", "'FooBar'")] "")
           1%Z foobar).
  - left. reflexivity.
  - reflexivity.
  - reflexivity.
  - reflexivity.
  - reflexivity.
Defined.

(** ** Every row has its page *)

Lemma slice_covers {A} (query : list A) x :
  In x query ->
  exists n, (1 <= n)%Z /\
    In x (Sql.slice ((Z.max 1 n - 1) * 25) ((Z.max 1 n - 1) * 25 + 25) query).
Proof.
  intros Hx. apply list_elem_of_In, list_elem_of_lookup_1 in Hx as [i Hi].
  exists (Z.of_nat (i / 25) + 1)%Z. split; [lia|].
  apply list_elem_of_In, list_elem_of_lookup. exists (i mod 25).
  unfold Sql.slice.
  replace (Z.to_nat _) with 25 by lia.
  replace (Z.to_nat _) with (25 * (i / 25)) by lia.
  rewrite lookup_take_lt by (apply Nat.mod_upper_bound; lia).
  rewrite lookup_drop, <- Hi. f_equal.
  symmetry. apply Nat.div_mod_eq.
Qed.

(** X13: pagination loses no row: for every project that the search of a
    request selects there is a page number, at least 1, on whose page
    [project_list] shows the project, for every request with the same
    tables and query text that asks for that page. *)
Theorem every_project_has_its_page request terms p :
  search_terms request terms ->
  In p (projects_query request terms) ->
  exists n, (1 <= n)%Z /\
    forall request',
      db request' = db request ->
      params request' !! "q" = params request !! "q" ->
      page_param request' n ->
      exists pg,
        run (Views.project_list request')
          = (Ok {| Views.projects := pg;
                   Views.projects_query_echo := params request !! "q" |},
             [Select "Project"; Count "Project"]) /\
        In p (Paginate.items pg).
Proof.
  intros Ht Hp.
  destruct (slice_covers _ _ Hp) as (n & Hn1 & Hin).
  exists n. split; [exact Hn1|].
  intros request' Hdb Hq Hn.
  assert (Ht' : search_terms request' terms)
    by (unfold search_terms in *; by rewrite Hq).
  assert (Hs : projects_statement request' terms = Ok (projects_query request terms)).
  { unfold projects_query in *. rewrite <- (rows_of_In _ _ Hp).
    unfold projects_statement. by rewrite Hdb. }
  unfold run. rewrite (project_list_run _ _ _ _ Hn Ht'), Hq.
  destruct (page_run "Project" _ _ n
              (fun pg => {| Views.projects := pg;
                            Views.projects_query_echo := params request !! "q" |})
              [] Hs) as (pg & Hrun & (_ & _ & Hitems) & _).
  exists pg. split; [exact Hrun|].
  by rewrite Hitems.
Qed.

Lemma every_project_has_its_page_witness :
  exists n, (1 <= n)%Z /\
    forall request',
      db request' = sample_db ->
      params request' !! "q" = None ->
      page_param request' n ->
      exists pg,
        run (Views.project_list request')
          = (Ok {| Views.projects := pg; Views.projects_query_echo := None |},
             [Select "Project"; Count "Project"]) /\
        In baz (Paginate.items pg).
Proof.
  apply (every_project_has_its_page (sample_request [] "") [] baz).
  - reflexivity.
  - right. left. reflexivity.
Defined.
